(** * ChittyChattyChat: room lifecycle, envelope encryption and archival

    A shallow embedding of the Flask/Socket.IO chat service: the crypto
    kernel ([services/crypto.py]), the persistence layer ([models/*.py]
    over [models/db.py]), the connection registry
    ([services/connection_manager.py]), the HTTP handlers of
    [routes/rooms.py], the socket handlers of [sockets.py], the archival
    service ([services/archive.py], [services/storage.py]) and the
    transcript view of the admin panel ([adminpanel/app.py]).

    Python exceptions are values of [exn]; a call that may raise returns a
    [result]; code that touches the database, the registry, the blob store,
    the clock or the random source runs in the state monad [M] over
    [World]. *)

From Stdlib Require Import ZArith Lia.
From stdpp Require Import gmap strings list fin_maps sorting.

(** ** Python values *)

(** [bytes]: a byte is a [Z] in [0, 256). *)
Definition bytes := list Z.

(** [str]: a sequence of Unicode code points. Identifiers, column values
    and literals that are plain ASCII are kept as Rocq [string]s. *)
Definition pystr := list Z.

Definition pystr_of_string (s : string) : pystr :=
  (fun a => Z.of_nat (Ascii.nat_of_ascii a)) <$> String.list_ascii_of_string s.

Inductive exn : Type :=
| ValueError (msg : string)
| TypeError (msg : string)
| UnicodeEncodeError
| UnicodeDecodeError
| InvalidTag
| Psycopg2Error (msg : string)
| S3Error (msg : string)
| OtherError (msg : string).

(** [str(e)] *)
Definition exn_str (e : exn) : string :=
  match e with
  | ValueError m | TypeError m | Psycopg2Error m | S3Error m | OtherError m => m
  | UnicodeEncodeError => "codec can't encode character"
  | UnicodeDecodeError => "codec can't decode byte"
  | InvalidTag => ""
  end.

Inductive result (A : Type) : Type :=
| Ok (a : A)
| Raise (e : exn).
Arguments Ok {A} a.
Arguments Raise {A} e.

Definition result_bind {A B} (r : result A) (k : A -> result B) : result B :=
  match r with
  | Ok a => k a
  | Raise e => Raise e
  end.

(** [s.lower()] on ASCII text. *)
Definition ascii_lower (a : Ascii.ascii) : Ascii.ascii :=
  let n := Ascii.nat_of_ascii a in
  if bool_decide (65 <= n <= 90)%nat then Ascii.ascii_of_nat (n + 32) else a.

Fixpoint str_lower (s : string) : string :=
  match s with
  | EmptyString => EmptyString
  | String a s' => String (ascii_lower a) (str_lower s')
  end.

Fixpoint str_startswith (p s : string) : bool :=
  match p, s with
  | EmptyString, _ => true
  | String a p', String b s' => bool_decide (a = b) && str_startswith p' s'
  | String _ _, EmptyString => false
  end.

(** [p in s] for strings. *)
Fixpoint str_contains (p s : string) : bool :=
  str_startswith p s ||
  match s with
  | EmptyString => false
  | String _ s' => str_contains p s'
  end.

(** ** UTF-8, as [str.encode('utf-8')] and [bytes.decode('utf-8')]
    (the strict error handler: a surrogate code point does not encode,
    an ill-formed byte sequence does not decode). *)
Module Utf8.

Definition is_scalar (c : Z) : bool :=
  bool_decide (0 <= c < 55296 \/ 57343 < c <= 1114111)%Z.

Definition encode_cp (c : Z) : bytes :=
  if bool_decide (c < 128)%Z then [c]
  else if bool_decide (c < 2048)%Z then
    [192 + c / 64; 128 + c mod 64]%Z
  else if bool_decide (c < 65536)%Z then
    [224 + c / 4096; 128 + (c / 64) mod 64; 128 + c mod 64]%Z
  else
    [240 + c / 262144; 128 + (c / 4096) mod 64; 128 + (c / 64) mod 64;
     128 + c mod 64]%Z.

Fixpoint encode (s : pystr) : result bytes :=
  match s with
  | [] => Ok []
  | c :: s' =>
      if is_scalar c
      then result_bind (encode s') (fun bs => Ok (encode_cp c ++ bs))
      else Raise UnicodeEncodeError
  end.

Definition is_cont (b : Z) : bool := bool_decide (128 <= b <= 191)%Z.

Fixpoint decode (bs : bytes) : result pystr :=
  match bs with
  | [] => Ok []
  | b0 :: r0 =>
      if bool_decide (0 <= b0 < 128)%Z then
        result_bind (decode r0) (fun s => Ok (b0 :: s))
      else if bool_decide (194 <= b0 <= 223)%Z then
        match r0 with
        | b1 :: r1 =>
            if is_cont b1
            then result_bind (decode r1)
                   (fun s => Ok (((b0 - 192) * 64 + (b1 - 128))%Z :: s))
            else Raise UnicodeDecodeError
        | _ => Raise UnicodeDecodeError
        end
      else if bool_decide (224 <= b0 <= 239)%Z then
        match r0 with
        | b1 :: b2 :: r2 =>
            let c := ((b0 - 224) * 4096 + (b1 - 128) * 64 + (b2 - 128))%Z in
            if is_cont b1 && is_cont b2 && bool_decide (2048 <= c)%Z
               && is_scalar c
            then result_bind (decode r2) (fun s => Ok (c :: s))
            else Raise UnicodeDecodeError
        | _ => Raise UnicodeDecodeError
        end
      else if bool_decide (240 <= b0 <= 244)%Z then
        match r0 with
        | b1 :: b2 :: b3 :: r3 =>
            let c := ((b0 - 240) * 262144 + (b1 - 128) * 4096
                      + (b2 - 128) * 64 + (b3 - 128))%Z in
            if is_cont b1 && is_cont b2 && is_cont b3
               && bool_decide (65536 <= c <= 1114111)%Z
            then result_bind (decode r3) (fun s => Ok (c :: s))
            else Raise UnicodeDecodeError
        | _ => Raise UnicodeDecodeError
        end
      else Raise UnicodeDecodeError
  end.

End Utf8.

(** ** The random sources ([secrets], [random]): an infinite tape that
    each draw consumes from the front. *)
Definition Rng := nat -> Z.

Definition rng_skip (n : nat) (r : Rng) : Rng := fun i => r (n + i)%nat.

(** [secrets.token_bytes(n)] *)
Definition token_bytes (n : nat) (r : Rng) : bytes * Rng :=
  ((fun i => (r i mod 256)%Z) <$> seq 0 n, rng_skip n r).

(** ** AES-GCM of the [cryptography] package.

    The cipher itself is an interface: [gcm_seal] is the sealed output
    [ciphertext ‖ tag] with a 16-byte tag, [gcm_open] authenticates and
    decrypts. Associated data is always [None] in this program. *)
Class AesGcm : Type := {
  gcm_seal : bytes -> bytes -> bytes -> bytes;
  gcm_open : bytes -> bytes -> bytes -> option bytes;
  gcm_open_seal :
    forall key nonce data,
      length key = 32%nat -> length nonce = 12%nat ->
      gcm_open key nonce (gcm_seal key nonce data) = Some data;
  gcm_seal_length :
    forall key nonce data,
      length key = 32%nat -> length nonce = 12%nat ->
      length (gcm_seal key nonce data) = (length data + 16)%nat;
}.

(** A stand-in cipher: the sealed output is the data followed by a 16-byte
    tag made of the key and the nonce. It protects nothing; it shows that
    the interface can be implemented and lets the examples compute. *)
Definition toy_tag (key nonce : bytes) : bytes :=
  take 16 (key ++ nonce ++ replicate 16 0%Z).

Definition toy_seal (key nonce data : bytes) : bytes := data ++ toy_tag key nonce.

Definition toy_open (key nonce sealed : bytes) : option bytes :=
  if bool_decide (16 <= length sealed)%nat
     && bool_decide (drop (length sealed - 16) sealed = toy_tag key nonce)
  then Some (take (length sealed - 16) sealed)
  else None.

Lemma toy_tag_length key nonce : length (toy_tag key nonce) = 16%nat.
Proof.
  unfold toy_tag. rewrite length_take, !length_app, length_replicate. lia.
Qed.

Program Definition ToyGcm : AesGcm :=
  {| gcm_seal := toy_seal; gcm_open := toy_open |}.
Next Obligation.
  intros key nonce data _ _. unfold toy_open, toy_seal.
  rewrite length_app, toy_tag_length.
  replace (length data + 16 - 16)%nat with (length data) by lia.
  rewrite drop_app_length, take_app_length.
  rewrite !bool_decide_eq_true_2 by (done || lia). done.
Qed.
Next Obligation.
  intros key nonce data _ _. unfold toy_seal.
  by rewrite length_app, toy_tag_length.
Qed.

Section Crypto.
Context {cipher : AesGcm}.

(** [AESGCM(key)]: the constructor checks the key size. *)
Definition AESGCM (key : bytes) : result bytes :=
  if bool_decide (length key = 16 \/ length key = 24 \/ length key = 32)%nat
  then Ok key
  else Raise (ValueError "AESGCM key must be 128, 192, or 256 bits.").

Definition nonce_ok (nonce : bytes) : bool :=
  bool_decide (8 <= length nonce <= 128)%nat.

(** [aesgcm.encrypt(nonce, data, None)] *)
Definition AESGCM_encrypt (key nonce data : bytes) : result bytes :=
  if nonce_ok nonce then Ok (gcm_seal key nonce data)
  else Raise (ValueError "Nonce must be between 8 and 128 bytes").

(** [aesgcm.decrypt(nonce, data, None)] *)
Definition AESGCM_decrypt (key nonce data : bytes) : result bytes :=
  if nonce_ok nonce then
    if bool_decide (length data < 16)%nat then Raise InvalidTag
    else match gcm_open key nonce data with
         | Some p => Ok p
         | None => Raise InvalidTag
         end
  else Raise (ValueError "Nonce must be between 8 and 128 bytes").

(** *** [services/crypto.py]: [CryptoService] *)
Record CryptoService : Type := { master_key : bytes }.

(** [_get_master_key]: the argument is the value of [MASTER_KEY] after
    base64 decoding, [None] when the variable is unset. *)
Definition _get_master_key (env_master_key : option bytes) : result bytes :=
  match env_master_key with
  | None => Raise (ValueError "MASTER_KEY environment variable is required")
  | Some key =>
      if bool_decide (length key <> 32%nat)
      then Raise (ValueError "Invalid master key format: Master key must be 32 bytes")
      else Ok key
  end.

Definition CryptoService_init (env_master_key : option bytes)
  : result CryptoService :=
  result_bind (_get_master_key env_master_key)
    (fun key => Ok {| master_key := key |}).

Definition generate_room_key (r : Rng) : bytes * Rng := token_bytes 32 r.

(** [except Exception as e: ...; raise] re-raises, so the [try] is the
    plain sequence of its body. *)
Definition encrypt_room_key (self : CryptoService) (room_key : bytes) (r : Rng)
  : result bytes * Rng :=
  match AESGCM (master_key self) with
  | Raise e => (Raise e, r)
  | Ok aesgcm =>
      let '(nonce, r') := token_bytes 12 r in
      (result_bind (AESGCM_encrypt aesgcm nonce room_key)
         (fun ciphertext => Ok (nonce ++ ciphertext)), r')
  end.

Definition decrypt_room_key (self : CryptoService) (encrypted_room_key : bytes)
  : result bytes :=
  let nonce := take 12 encrypted_room_key in
  let ciphertext := drop 12 encrypted_room_key in
  result_bind (AESGCM (master_key self))
    (fun aesgcm => AESGCM_decrypt aesgcm nonce ciphertext).

(** [b[:-16]] and [b[-16:]] *)
Definition slice_to_minus16 (b : bytes) : bytes := take (length b - 16) b.
Definition slice_from_minus16 (b : bytes) : bytes := drop (length b - 16) b.

Definition encrypt_message (room_key : bytes) (plaintext : pystr) (r : Rng)
  : result (bytes * bytes * bytes) * Rng :=
  match AESGCM room_key with
  | Raise e => (Raise e, r)
  | Ok aesgcm =>
      let '(nonce, r') := token_bytes 12 r in
      (result_bind (Utf8.encode plaintext) (fun data =>
       result_bind (AESGCM_encrypt aesgcm nonce data) (fun ciphertext =>
       let actual_ciphertext := slice_to_minus16 ciphertext in
       let tag := slice_from_minus16 ciphertext in
       Ok (actual_ciphertext, nonce, tag))), r')
  end.

Definition decrypt_message (room_key ciphertext nonce tag : bytes)
  : result pystr :=
  result_bind (AESGCM room_key) (fun aesgcm =>
  let full_ciphertext := ciphertext ++ tag in
  result_bind (AESGCM_decrypt aesgcm nonce full_ciphertext) (fun plaintext_bytes =>
  Utf8.decode plaintext_bytes)).

End Crypto.

(** ** Rows of the database tables *)

Inductive RoomStatus : Type := pending | active | locked | closed | archived.

Inductive Role : Type := host | guest.

#[global] Instance RoomStatus_eq_dec : EqDecision RoomStatus.
Proof. solve_decision. Defined.

#[global] Instance Role_eq_dec : EqDecision Role.
Proof. solve_decision. Defined.

(** A device id is the integer value of a UUID. Every device id the
    handlers see was minted by [generate_device_id] (it comes from the
    signed session cookie or from a token this server signed), so
    [uuid.UUID(device_id)] does not raise on it. *)
Definition DeviceId := Z.

(** The object key [f"archives/{room_id}/{timestamp}.json"], kept as the
    pair of the room id and the instant that [strftime] formats. *)
Definition ArchiveKey : Type := string * Z.

(** Modelled from the spec: the SQL schema is not part of the sources; the
    columns are those the statements name (spec section 3). Instants are
    seconds on the server clock. *)
Record RoomRow : Type := {
  r_room_id : string;
  r_status : RoomStatus;
  r_created_at : Z;
  r_accepted_at : option Z;
  r_expires_at : option Z;
  r_closed_at : option Z;
  r_archive_key : option ArchiveKey;
}.

Record ParticipantRow : Type := {
  p_id : nat;
  p_room_id : string;
  p_role : Role;
  p_device_id : DeviceId;
  p_display_name : option string;
  p_ip_address : option string;
  p_joined_at : Z;
}.

Record MessageRow : Type := {
  m_id : nat;
  m_room_id : string;
  m_participant_id : nat;
  m_created_at : Z;
  m_body_ct : bytes;
  m_nonce : bytes;
  m_tag : bytes;
  m_msg_type : string;
  m_ip_address : option string;
}.

(** The tables. [rooms] is keyed by its primary key; the others are kept
    in insertion order, ids drawn from their sequences. *)
Record Db : Type := {
  t_rooms : gmap string RoomRow;
  t_room_keys : list (string * bytes);
  t_participants : list ParticipantRow;
  seq_participants : nat;
  t_messages : list MessageRow;
  seq_messages : nat;
}.

Definition set_rooms (rs : gmap string RoomRow) (d : Db) : Db :=
  {| t_rooms := rs; t_room_keys := t_room_keys d;
     t_participants := t_participants d; seq_participants := seq_participants d;
     t_messages := t_messages d; seq_messages := seq_messages d |}.

Definition set_room_keys (ks : list (string * bytes)) (d : Db) : Db :=
  {| t_rooms := t_rooms d; t_room_keys := ks;
     t_participants := t_participants d; seq_participants := seq_participants d;
     t_messages := t_messages d; seq_messages := seq_messages d |}.

Definition set_participants (ps : list ParticipantRow) (next : nat) (d : Db) : Db :=
  {| t_rooms := t_rooms d; t_room_keys := t_room_keys d;
     t_participants := ps; seq_participants := next;
     t_messages := t_messages d; seq_messages := seq_messages d |}.

Definition set_messages (ms : list MessageRow) (next : nat) (d : Db) : Db :=
  {| t_rooms := t_rooms d; t_room_keys := t_room_keys d;
     t_participants := t_participants d; seq_participants := seq_participants d;
     t_messages := ms; seq_messages := next |}.

(** ** The connection registry, the blob store and the world *)

(** [_sessions[session_id]] *)
Record SessionInfo : Type := {
  si_room_id : string;
  si_participant_id : nat;
  si_role : Role;
}.

(** One entry of [decrypted_messages] in [archive_room]; [am_error] is the
    ['error'] key, absent ([None]) when the message decrypted. *)
Record ArchivedMessage : Type := {
  am_id : nat;
  am_participant_id : nat;
  am_display_name : option string;
  am_role : option Role;
  am_created_at : Z;
  am_message : pystr;
  am_msg_type : string;
  am_ip_address : option string;
  am_error : option string;
}.

(** [archive_data] of [archive_room]. *)
Record ArchiveData : Type := {
  ad_room : RoomRow;
  ad_participants : list ParticipantRow;
  ad_messages : list ArchivedMessage;
  ad_archived_at : Z;
  ad_message_count : nat;
  ad_participant_count : nat;
}.

(** [StorageService]: [st_client] is [self.client is not None]. *)
Record StorageService : Type := {
  st_client : bool;
  _client_initialized : bool;
}.

(** What the socket handlers send: [emit(event, payload, room=...)] and
    [leave_room]. *)
Record ParticipantStatus : Type := {
  ps_row : ParticipantRow;
  ps_is_connected : bool;
}.

Inductive Emit : Type :=
| participant_disconnected (room_id : string) (participant_id : nat)
    (role : option Role) (display_name : option string)
| leave_room (sid room_id : string)
| connection_status_update (room_id : string) (connected_participants : nat)
    (total_participants : nat) (is_secure : bool)
    (participants : list ParticipantStatus).

Record World : Type := {
  w_db : Db;
  (** [ConnectionManager._connections] and [._sessions] *)
  w_connections : gmap string (gmap nat string);
  w_sessions : gmap string SessionInfo;
  (** the storage service and the MinIO server: bucket, then object key *)
  w_storage : StorageService;
  w_minio : gmap string (gmap ArchiveKey ArchiveData);
  (** the outcome of the database and blob-store calls to come: [Some e]
      makes the next call raise [e]; past the end every call goes through *)
  w_faults : list (option exn);
  w_clock : Z;
  w_rng : Rng;
  (** [session['device_id']] of the HTTP client of the current request *)
  w_cookie : option DeviceId;
  w_outbox : list Emit;
}.

Definition set_db (d : Db) (w : World) : World :=
  {| w_db := d; w_connections := w_connections w; w_sessions := w_sessions w;
     w_storage := w_storage w; w_minio := w_minio w; w_faults := w_faults w;
     w_clock := w_clock w; w_rng := w_rng w; w_cookie := w_cookie w;
     w_outbox := w_outbox w |}.

Definition set_registry (cs : gmap string (gmap nat string))
    (ss : gmap string SessionInfo) (w : World) : World :=
  {| w_db := w_db w; w_connections := cs; w_sessions := ss;
     w_storage := w_storage w; w_minio := w_minio w; w_faults := w_faults w;
     w_clock := w_clock w; w_rng := w_rng w; w_cookie := w_cookie w;
     w_outbox := w_outbox w |}.

Definition set_storage (s : StorageService) (w : World) : World :=
  {| w_db := w_db w; w_connections := w_connections w; w_sessions := w_sessions w;
     w_storage := s; w_minio := w_minio w; w_faults := w_faults w;
     w_clock := w_clock w; w_rng := w_rng w; w_cookie := w_cookie w;
     w_outbox := w_outbox w |}.

Definition set_minio (m : gmap string (gmap ArchiveKey ArchiveData)) (w : World) : World :=
  {| w_db := w_db w; w_connections := w_connections w; w_sessions := w_sessions w;
     w_storage := w_storage w; w_minio := m; w_faults := w_faults w;
     w_clock := w_clock w; w_rng := w_rng w; w_cookie := w_cookie w;
     w_outbox := w_outbox w |}.

Definition set_faults (fs : list (option exn)) (w : World) : World :=
  {| w_db := w_db w; w_connections := w_connections w; w_sessions := w_sessions w;
     w_storage := w_storage w; w_minio := w_minio w; w_faults := fs;
     w_clock := w_clock w; w_rng := w_rng w; w_cookie := w_cookie w;
     w_outbox := w_outbox w |}.

Definition set_rng (r : Rng) (w : World) : World :=
  {| w_db := w_db w; w_connections := w_connections w; w_sessions := w_sessions w;
     w_storage := w_storage w; w_minio := w_minio w; w_faults := w_faults w;
     w_clock := w_clock w; w_rng := r; w_cookie := w_cookie w;
     w_outbox := w_outbox w |}.

Definition set_cookie (c : option DeviceId) (w : World) : World :=
  {| w_db := w_db w; w_connections := w_connections w; w_sessions := w_sessions w;
     w_storage := w_storage w; w_minio := w_minio w; w_faults := w_faults w;
     w_clock := w_clock w; w_rng := w_rng w; w_cookie := c;
     w_outbox := w_outbox w |}.

Definition set_outbox (o : list Emit) (w : World) : World :=
  {| w_db := w_db w; w_connections := w_connections w; w_sessions := w_sessions w;
     w_storage := w_storage w; w_minio := w_minio w; w_faults := w_faults w;
     w_clock := w_clock w; w_rng := w_rng w; w_cookie := w_cookie w;
     w_outbox := o |}.

(** ** The monad of handlers: state over [World], with exceptions *)

Definition M (A : Type) : Type := World -> result A * World.

Definition ret {A} (a : A) : M A := fun w => (Ok a, w).

Definition bind {A B} (m : M A) (k : A -> M B) : M B :=
  fun w =>
    match m w with
    | (Ok a, w') => k a w'
    | (Raise e, w') => (Raise e, w')
    end.

Definition raise {A} (e : exn) : M A := fun w => (Raise e, w).

(** [try: body  except Exception as e: handler(e)] *)
Definition try_except {A} (body : M A) (handler : exn -> M A) : M A :=
  fun w =>
    match body w with
    | (Ok a, w') => (Ok a, w')
    | (Raise e, w') => handler e w'
    end.

Notation "x <- m ;; k" := (bind m (fun x => k))
  (at level 100, m at next level, right associativity).

Definition lift_result {A} (r : result A) : M A := fun w => (r, w).

(** [datetime.utcnow()] *)
Definition utcnow : M Z := fun w => (Ok (w_clock w), w).

Definition with_rng {A} (f : Rng -> A * Rng) : M A :=
  fun w => let '(a, r) := f (w_rng w) in (Ok a, set_rng r w).

Definition emit (e : Emit) : M unit :=
  fun w => (Ok tt, set_outbox (w_outbox w ++ [e]) w).

(** *** [models/db.py]

    [Database.execute] and [execute_one] open a connection of their own,
    run one statement and commit; on an exception they roll back and
    re-raise. So every call is one transaction. A statement is a function
    on the tables; a [SELECT] is a function that reads them. *)
Definition run_statement {A} (stmt : Db -> result (A * Db)) : M A :=
  fun w =>
    match stmt (w_db w) with
    | Ok (a, d) => (Ok a, set_db d w)
    | Raise e => (Raise e, w)
    end.

Definition db_execute {A} (stmt : Db -> result (A * Db)) : M A :=
  fun w =>
    match w_faults w with
    | Some e :: fs => (Raise e, set_faults fs w)
    | None :: fs => run_statement stmt (set_faults fs w)
    | [] => run_statement stmt w
    end.

Definition db_select {A} (query : Db -> A) : M A :=
  fun w =>
    match w_faults w with
    | Some e :: fs => (Raise e, set_faults fs w)
    | None :: fs => (Ok (query (w_db w)), set_faults fs w)
    | [] => (Ok (query (w_db w)), w)
    end.

(** ** [models/rooms.py] *)

Definition room_chars : string :=
  "abcdefghijklmnopqrstuvwxyzABCDEFGHIJKLMNOPQRSTUVWXYZ0123456789".

(** [random.choices(chars, k=4)], joined. *)
Definition generate_room_id (r : Rng) : string * Rng :=
  let pick i :=
    match String.get (Z.to_nat (r i mod 62)%Z) room_chars with
    | Some a => a
    | None => Ascii.zero
    end in
  (String.string_of_list_ascii (pick <$> seq 0 4), rng_skip 4 r).

Definition new_room (room_id : string) (now : Z) : RoomRow :=
  {| r_room_id := room_id; r_status := pending; r_created_at := now;
     r_accepted_at := None; r_expires_at := None; r_closed_at := None;
     r_archive_key := None |}.

Definition with_accepted (accepted_at expires_at : Z) (r : RoomRow) : RoomRow :=
  {| r_room_id := r_room_id r; r_status := active; r_created_at := r_created_at r;
     r_accepted_at := Some accepted_at; r_expires_at := Some expires_at;
     r_closed_at := r_closed_at r; r_archive_key := r_archive_key r |}.

Definition with_status (s : RoomStatus) (r : RoomRow) : RoomRow :=
  {| r_room_id := r_room_id r; r_status := s; r_created_at := r_created_at r;
     r_accepted_at := r_accepted_at r; r_expires_at := r_expires_at r;
     r_closed_at := r_closed_at r; r_archive_key := r_archive_key r |}.

Definition with_closed (closed_at : Z) (r : RoomRow) : RoomRow :=
  {| r_room_id := r_room_id r; r_status := closed; r_created_at := r_created_at r;
     r_accepted_at := r_accepted_at r; r_expires_at := r_expires_at r;
     r_closed_at := Some closed_at; r_archive_key := r_archive_key r |}.

Definition with_archived (key : ArchiveKey) (r : RoomRow) : RoomRow :=
  {| r_room_id := r_room_id r; r_status := archived; r_created_at := r_created_at r;
     r_accepted_at := r_accepted_at r; r_expires_at := r_expires_at r;
     r_closed_at := r_closed_at r; r_archive_key := Some key |}.

Definition rooms_pkey_violation : exn :=
  Psycopg2Error "duplicate key value violates unique constraint rooms_pkey".

(** [INSERT INTO rooms (room_id, status, created_at) VALUES (%s, 'pending', %s)
    RETURNING room_id, created_at]; the primary key refuses a second row
    with the same id (the error text [create_room] looks for). *)
Definition sql_insert_room (room_id : string) (now : Z) (d : Db)
  : result (option (string * Z) * Db) :=
  match t_rooms d !! room_id with
  | Some _ => Raise rooms_pkey_violation
  | None =>
      Ok (Some (room_id, now), set_rooms (<[room_id := new_room room_id now]> (t_rooms d)) d)
  end.

(** [UPDATE rooms SET ... WHERE room_id = %s AND <cond> RETURNING room_id] *)
Definition sql_update_room (room_id : string) (cond : RoomRow -> bool)
    (f : RoomRow -> RoomRow) (d : Db) : result (option string * Db) :=
  match t_rooms d !! room_id with
  | Some r =>
      if cond r
      then Ok (Some room_id, set_rooms (<[room_id := f r]> (t_rooms d)) d)
      else Ok (None, d)
  | None => Ok (None, d)
  end.

Definition status_is (s : RoomStatus) (r : RoomRow) : bool :=
  bool_decide (r_status r = s).

Definition status_in (l : list RoomStatus) (r : RoomRow) : bool :=
  bool_decide (r_status r ∈ l).

Definition max_attempts : nat := 10.

(** ["duplicate key" in str(e).lower()] *)
Definition is_duplicate_key (e : exn) : bool :=
  str_contains "duplicate key" (str_lower (exn_str e)).
Arguments is_duplicate_key : simpl never.

(** The body of [for _ in range(max_attempts)] in [Room.create_room]. *)
Fixpoint create_room_loop (attempts : nat) : M RoomRow :=
  match attempts with
  | O => raise (OtherError "Failed to generate unique room ID after multiple attempts")
  | S attempts' =>
      room_id <- with_rng generate_room_id ;;
      try_except
        (now <- utcnow ;;
         result <- db_execute (sql_insert_room room_id now) ;;
         match result with
         | Some (rid, created_at) => ret (new_room rid created_at)
         | None => create_room_loop attempts'
         end)
        (fun e =>
           if is_duplicate_key e
           then create_room_loop attempts'
           else raise e)
  end.

(** [Room.create_room()]: the method takes no parameter. *)
Definition Room_create_room_params : list string := [].

Definition Room_create_room : M RoomRow := create_room_loop max_attempts.

Definition hours24 : Z := 86400.

Definition Room_accept_room (room_id : string) : M bool :=
  try_except
    (now <- utcnow ;;
     let expires_at := (now + hours24)%Z in
     accepted_at <- utcnow ;;
     result <- db_execute
       (sql_update_room room_id (status_is pending) (with_accepted accepted_at expires_at)) ;;
     ret (bool_decide (is_Some result)))
    (fun _ => ret false).

Definition Room_get_room (room_id : string) : M (option RoomRow) :=
  try_except
    (db_select (fun d => t_rooms d !! room_id))
    (fun _ => ret None).

Definition Room_close_room (room_id : string) (reason : string) : M bool :=
  try_except
    (now <- utcnow ;;
     result <- db_execute
       (sql_update_room room_id (status_in [active; locked]) (with_closed now)) ;;
     ret (bool_decide (is_Some result)))
    (fun _ => ret false).

Definition Room_lock_room (room_id : string) : M bool :=
  try_except
    (result <- db_execute
       (sql_update_room room_id (status_is active) (with_status locked)) ;;
     ret (bool_decide (is_Some result)))
    (fun _ => ret false).

Definition Room_unlock_room (room_id : string) : M bool :=
  try_except
    (result <- db_execute
       (sql_update_room room_id (status_is locked) (with_status active)) ;;
     ret (bool_decide (is_Some result)))
    (fun _ => ret false).

Definition is_expired (now : Z) (r : RoomRow) : bool :=
  match r_expires_at r with
  | Some e => bool_decide (e < now)%Z
  | None => false
  end.

Definition Room_get_expired_rooms : M (list string) :=
  try_except
    (now <- utcnow ;;
     db_select (fun d =>
       (map_to_list (filter (fun '(_, r) => status_in [active; locked] r = true
                                            /\ is_expired now r = true)
                            (t_rooms d))).*1))
    (fun _ => ret []).

Definition Room_archive_room (room_id : string) (archive_key : ArchiveKey) : M bool :=
  try_except
    (result <- db_execute
       (sql_update_room room_id (status_is closed) (with_archived archive_key)) ;;
     ret (bool_decide (is_Some result)))
    (fun _ => ret false).

(** ** [models/participants.py] *)

Definition same_device (room_id : string) (device_id : DeviceId) (p : ParticipantRow) : bool :=
  bool_decide (p_room_id p = room_id) && bool_decide (p_device_id p = device_id).

(** [INSERT INTO participants (...) VALUES (...) RETURNING ...].
    Modelled from the spec: the schema is not part of the sources; the id
    is the next value of the sequence and a participant is unique by
    [(room_id, device_id)] (spec section 3). *)
Definition sql_insert_participant (room_id : string) (role : Role)
    (device_id : DeviceId) (ip_address : string) (now : Z) (d : Db)
  : result (option ParticipantRow * Db) :=
  if existsb (same_device room_id device_id) (t_participants d)
  then Raise (Psycopg2Error
         "duplicate key value violates unique constraint participants_room_id_device_id_key")
  else
    let row := {| p_id := S (seq_participants d); p_room_id := room_id;
                  p_role := role; p_device_id := device_id;
                  p_display_name := None; p_ip_address := Some ip_address;
                  p_joined_at := now |} in
    Ok (Some row, set_participants (t_participants d ++ [row]) (S (seq_participants d)) d).

Definition Participant_create_participant (room_id : string) (role : Role)
    (device_id : DeviceId) (ip_address : string) : M (option ParticipantRow) :=
  try_except
    (now <- utcnow ;;
     db_execute (sql_insert_participant room_id role device_id ip_address now))
    (fun _ => ret None).

Definition Participant_get_participant (participant_id : nat) : M (option ParticipantRow) :=
  try_except
    (db_select (fun d =>
       head (filter (fun p => p_id p = participant_id) (t_participants d))))
    (fun _ => ret None).

Definition Participant_get_participant_by_device (room_id : string)
    (device_id : DeviceId) : M (option ParticipantRow) :=
  try_except
    (db_select (fun d =>
       head (filter (fun p => same_device room_id device_id p = true) (t_participants d))))
    (fun _ => ret None).

Definition room_participants (room_id : string) (d : Db) : list ParticipantRow :=
  filter (fun p => p_room_id p = room_id) (t_participants d).

Definition Participant_count_participants (room_id : string) : M nat :=
  try_except
    (db_select (fun d => length (room_participants room_id d)))
    (fun _ => ret 0%nat).

(** [DELETE FROM participants WHERE id = %s] *)
Definition sql_delete_participant (participant_id : nat) (d : Db)
  : result (unit * Db) :=
  Ok (tt, set_participants
            (filter (fun p => p_id p <> participant_id) (t_participants d))
            (seq_participants d) d).

Definition Participant_remove_participant (participant_id : nat) : M bool :=
  try_except
    (_ <- db_execute (sql_delete_participant participant_id) ;;
     ret true)
    (fun _ => ret false).

(** [DELETE FROM participants WHERE room_id = %s] and
    [... AND id NOT IN (...)] *)
Definition sql_delete_room_participants (room_id : string) (d : Db)
  : result (unit * Db) :=
  Ok (tt, set_participants
            (filter (fun p => p_room_id p <> room_id) (t_participants d))
            (seq_participants d) d).

Definition sql_delete_participants_not_in (room_id : string) (keep : list nat) (d : Db)
  : result (unit * Db) :=
  Ok (tt, set_participants
            (filter (fun p => ~ (p_room_id p = room_id /\ p_id p ∉ keep)) (t_participants d))
            (seq_participants d) d).

(** [db.execute] returns [None] for a [DELETE], so
    [getattr(result, 'rowcount', 0)] is [0]. *)
Definition Participant_cleanup_inactive_participants (room_id : string)
    (active_participant_ids : list nat) : M nat :=
  try_except
    (_ <- (match active_participant_ids with
           | [] => db_execute (sql_delete_room_participants room_id)
           | _ :: _ => db_execute (sql_delete_participants_not_in room_id active_participant_ids)
           end) ;;
     ret 0%nat)
    (fun _ => ret 0%nat).

(** Stable insertion sort, for [ORDER BY]: rows with equal keys stay in
    insertion order. *)
Fixpoint insert_by {A} (key : A -> Z) (x : A) (l : list A) : list A :=
  match l with
  | [] => [x]
  | y :: l' => if bool_decide (key x < key y)%Z then x :: y :: l'
               else y :: insert_by key x l'
  end.

Definition order_by {A} (key : A -> Z) (l : list A) : list A :=
  foldl (fun acc x => insert_by key x acc) [] l.

Definition Participant_get_room_participants (room_id : string) : M (list ParticipantRow) :=
  try_except
    (db_select (fun d => order_by p_joined_at (room_participants room_id d)))
    (fun _ => ret []).

(** ** [models/messages.py] *)

(** [INSERT INTO messages (...) VALUES (...) RETURNING ...] *)
Definition sql_insert_message (room_id : string) (participant_id : nat)
    (body_ct nonce tag : bytes) (msg_type : string) (ip_address : option string)
    (now : Z) (d : Db) : result (option MessageRow * Db) :=
  let row := {| m_id := S (seq_messages d); m_room_id := room_id;
                m_participant_id := participant_id; m_created_at := now;
                m_body_ct := body_ct; m_nonce := nonce; m_tag := tag;
                m_msg_type := msg_type; m_ip_address := ip_address |} in
  Ok (Some row, set_messages (t_messages d ++ [row]) (S (seq_messages d)) d).

Definition Message_create_message (room_id : string) (participant_id : nat)
    (body_ct nonce tag : bytes) (msg_type : string) (ip_address : option string)
  : M (option MessageRow) :=
  try_except
    (now <- utcnow ;;
     db_execute (sql_insert_message room_id participant_id body_ct nonce tag
                   msg_type ip_address now))
    (fun _ => ret None).

(** A row of [messages m LEFT JOIN participants p ON m.participant_id = p.id]:
    the message and the participant's [display_name] and [role], [NULL]
    when the participant row is gone. *)
Record JoinedMessage : Type := {
  jm_row : MessageRow;
  jm_display_name : option string;
  jm_role : option Role;
}.

Definition left_join_participant (d : Db) (m : MessageRow) : JoinedMessage :=
  match head (filter (fun p => p_id p = m_participant_id m) (t_participants d)) with
  | Some p => {| jm_row := m; jm_display_name := p_display_name p;
                 jm_role := Some (p_role p) |}
  | None => {| jm_row := m; jm_display_name := None; jm_role := None |}
  end.

Definition room_messages (room_id : string) (d : Db) : list MessageRow :=
  filter (fun m => m_room_id m = room_id) (t_messages d).

(** [... WHERE m.room_id = %s ORDER BY m.created_at ASC LIMIT %s] *)
Definition sql_select_room_messages (room_id : string) (limit : nat) (d : Db)
  : list JoinedMessage :=
  take limit (left_join_participant d <$> order_by m_created_at (room_messages room_id d)).

Definition Message_get_room_messages (room_id : string) (limit : nat)
  : M (list JoinedMessage) :=
  try_except
    (db_select (sql_select_room_messages room_id limit))
    (fun _ => ret []).

(** ** [services/connection_manager.py] (the lock is not modelled: the
    handlers of this development run one after the other) *)

Definition room_connections_of (cs : gmap string (gmap nat string)) (room_id : string)
  : gmap nat string :=
  default ∅ (cs !! room_id).

Definition add_connection (session_id room_id : string) (participant_id : nat)
    (role : Role) : M unit :=
  fun w =>
    let conns := <[participant_id := session_id]> (room_connections_of (w_connections w) room_id) in
    (Ok tt,
     set_registry (<[room_id := conns]> (w_connections w))
       (<[session_id := {| si_room_id := room_id; si_participant_id := participant_id;
                           si_role := role |}]> (w_sessions w)) w).

Definition remove_connection (session_id : string) : M (option SessionInfo) :=
  fun w =>
    match w_sessions w !! session_id with
    | Some session_info =>
        let room_id := si_room_id session_info in
        let participant_id := si_participant_id session_info in
        let cs :=
          match w_connections w !! room_id with
          | Some conns =>
              let conns' := delete participant_id conns in
              if bool_decide (conns' = ∅)
              then delete room_id (w_connections w)
              else <[room_id := conns']> (w_connections w)
          | None => w_connections w
          end in
        (Ok (Some session_info), set_registry cs (delete session_id (w_sessions w)) w)
    | None => (Ok None, w)
    end.

Definition get_room_connections (room_id : string) : M (gmap nat string) :=
  fun w => (Ok (room_connections_of (w_connections w) room_id), w).

Definition get_connection_count (room_id : string) : M nat :=
  fun w => (Ok (size (room_connections_of (w_connections w) room_id)), w).

Definition is_participant_connected (room_id : string) (participant_id : nat) : M bool :=
  fun w =>
    (Ok (bool_decide (is_Some (room_connections_of (w_connections w) room_id !! participant_id))), w).

(** ** [services/storage.py] *)

Definition attachment_bucket : string := "attachments".
Definition archive_bucket : string := "archives".

(** Calls of the MinIO client; each is one request to the server. *)
Definition minio_call {A} (f : World -> result A * World) : M A :=
  fun w =>
    match w_faults w with
    | Some e :: fs => (Raise e, set_faults fs w)
    | None :: fs => f (set_faults fs w)
    | [] => f w
    end.

Definition bucket_exists (bucket : string) : M bool :=
  minio_call (fun w => (Ok (bool_decide (is_Some (w_minio w !! bucket))), w)).

Definition make_bucket (bucket : string) : M unit :=
  minio_call (fun w =>
    match w_minio w !! bucket with
    | Some _ => (Raise (S3Error "BucketAlreadyOwnedByYou"), w)
    | None => (Ok tt, set_minio (<[bucket := ∅]> (w_minio w)) w)
    end).

Definition put_object (bucket : string) (object_name : ArchiveKey) (data : ArchiveData)
  : M unit :=
  minio_call (fun w =>
    match w_minio w !! bucket with
    | Some objs => (Ok tt, set_minio (<[bucket := <[object_name := data]> objs]> (w_minio w)) w)
    | None => (Raise (S3Error "NoSuchBucket"), w)
    end).

(** [for bucket in [...]: if not self._get_client().bucket_exists(bucket):
    self._get_client().make_bucket(bucket)]; [except S3Error: ...; raise]
    re-raises. The client comes from [_get_client], passed in here as
    [get_client] because the two methods call each other. *)
Fixpoint ensure_buckets_loop (get_client : M unit) (buckets : list string) : M unit :=
  match buckets with
  | [] => ret tt
  | bucket :: rest =>
      _ <- get_client ;;
      found <- bucket_exists bucket ;;
      _ <- (if found then ret tt
            else (_ <- get_client ;; make_bucket bucket)) ;;
      ensure_buckets_loop get_client rest
  end.

Definition _ensure_buckets (get_client : M unit) : M unit :=
  ensure_buckets_loop get_client [attachment_bucket; archive_bucket].

Definition RecursionError : exn :=
  OtherError "maximum recursion depth exceeded".

(** [_get_client]: while [_client_initialized] is false it builds the
    client and calls [_ensure_buckets], which calls [_get_client] again
    before the flag is set. [depth] is what is left of the interpreter's
    recursion limit; [except Exception: ...; raise] re-raises. *)
Fixpoint _get_client (depth : nat) : M unit :=
  fun w =>
    if _client_initialized (w_storage w) then (Ok tt, w)
    else
      match depth with
      | O => (Raise RecursionError, w)
      | S depth' =>
          (_ <- (fun w1 => (Ok tt, set_storage
                   {| st_client := true;
                      _client_initialized := _client_initialized (w_storage w1) |} w1)) ;;
           _ <- _ensure_buckets (_get_client depth') ;;
           (fun w2 => (Ok tt, set_storage
                   {| st_client := st_client (w_storage w2);
                      _client_initialized := true |} w2))) w
      end.

Definition recursion_limit : nat := 1000.

(** [store_archive]: [json.dumps] of the data is kept as the data. Only
    [S3Error] is caught. *)
Definition store_archive (archive_key : ArchiveKey) (data : ArchiveData) : M bool :=
  try_except
    (_ <- _get_client recursion_limit ;;
     _ <- put_object archive_bucket archive_key data ;;
     ret true)
    (fun e =>
       match e with
       | S3Error _ => ret false
       | _ => raise e
       end).

Definition get_archive (archive_key : ArchiveKey) : M (option ArchiveData) :=
  try_except
    (_ <- _get_client recursion_limit ;;
     minio_call (fun w =>
       match w_minio w !! archive_bucket ≫= (fun objs => objs !! archive_key) with
       | Some data => (Ok (Some data), w)
       | None => (Raise (S3Error "NoSuchKey"), w)
       end))
    (fun e =>
       match e with
       | S3Error _ => ret None
       | _ => raise e
       end).

(** ** Tokens and HTTP responses *)

(** The claims of a token of this server ([additional_claims]). *)
Record TokenData : Type := {
  td_room_id : string;
  td_participant_id : option nat;
  td_role : Role;
  td_device_id : DeviceId;
}.

(** [create_access_token(identity=..., additional_claims=...,
    expires_delta=False)]; the identity is [f"{room_id}_host"] ([None]) or
    [f"{room_id}_{participant_id}"]. *)
Record Token : Type := {
  tok_identity : string * option nat;
  tok_claims : TokenData;
}.

Inductive jval : Type :=
| JNull
| JBool (b : bool)
| JNat (n : nat)
| JStr (s : string)
| JRole (r : Role)
| JB64 (b : bytes)      (* base64.b64encode(b).decode('utf-8') *)
| JToken (t : Token).

(** [jsonify({...}), status] *)
Definition Response : Type := list (string * jval) * nat.

Definition body_get (k : string) (body : list (string * jval)) : option jval :=
  snd <$> head (filter (fun kv => kv.1 = k) body).

Definition jopt {A} (f : A -> jval) (o : option A) : jval :=
  match o with
  | Some a => f a
  | None => JNull
  end.

(** A call [f(k1=v1, ...)]: a keyword that names no parameter of [f]
    raises [TypeError] before the body runs. *)
Definition call_keywords {A} (fname : string) (params kwargs : list string)
    (f : M A) : M A :=
  match filter (fun k => k ∉ params) kwargs with
  | [] => f
  | k :: _ =>
      raise (TypeError (fname +:+ "() got an unexpected keyword argument " +:+ k))
  end.

Section App.
Context {cipher : AesGcm}.
(** The global [crypto_service]. *)
Variable crypto_service : CryptoService.

(** ** [routes/rooms.py] *)

(** [str(uuid.uuid4())] *)
Definition generate_device_id : M DeviceId :=
  with_rng (fun r => ((r 0%nat mod 2 ^ 128)%Z, rng_skip 1 r)).

Definition get_or_create_device_id : M DeviceId :=
  fun w =>
    match w_cookie w with
    | Some device_id => (Ok device_id, w)
    | None =>
        (device_id <- generate_device_id ;;
         _ <- (fun w1 => (Ok tt, set_cookie (Some device_id) w1)) ;;
         ret device_id) w
    end.

Definition error_response (msg : string) (code : nat) : Response :=
  ([("error", JStr msg)], code).

(** [POST /api/v1/rooms]. [request_json] is [request.get_json()]. *)
Definition create_room (request_json : option (list (string * jval))) : M Response :=
  try_except
    (let data := default [] request_json in
     let room_id := body_get "room_id" data in
     room <- call_keywords "create_room" Room_create_room_params ["room_id"]
               Room_create_room ;;
     device_id <- get_or_create_device_id ;;
     let token_data := {| td_room_id := r_room_id room; td_participant_id := None;
                          td_role := host; td_device_id := device_id |} in
     let room_token := {| tok_identity := (r_room_id room, None);
                          tok_claims := token_data |} in
     ret ([("room_id", JStr (r_room_id room)); ("room_token", JToken room_token);
           ("status", JStr "pending")], 201%nat))
    (fun _ => ret (error_response "Internal server error" 500)).

(** [POST /api/v1/rooms/<room_id>/accept]; [jwt] is [get_jwt()] of the
    token that [@jwt_required()] let through, [client_ip] is
    [get_client_ip()]. *)
Definition accept_room (room_id : string) (jwt : TokenData) (client_ip : string)
  : M Response :=
  try_except
    (if negb (bool_decide (td_room_id jwt = room_id))
        || negb (bool_decide (td_role jwt = host))
     then ret (error_response "Unauthorized" 403)
     else
       room <- Room_get_room room_id ;;
       match room with
       | None => ret (error_response "Room not found" 404)
       | Some room =>
           if negb (bool_decide (r_status room = pending))
           then ret (error_response "Room already accepted or invalid" 400)
           else
             accepted <- Room_accept_room room_id ;;
             if negb accepted
             then ret (error_response "Failed to accept room" 500)
             else
               room_key <- with_rng generate_room_key ;;
               room_key_enc <- (fun w =>
                 let '(r, rng') := encrypt_room_key crypto_service room_key (w_rng w) in
                 (r, set_rng rng' w)) ;;
               _ <- db_execute (fun d =>
                      Ok (tt, set_room_keys (t_room_keys d ++ [(room_id, room_key_enc)]) d)) ;;
               participant <- Participant_create_participant room_id host
                                (td_device_id jwt) client_ip ;;
               match participant with
               | Some participant =>
                   let updated_token_data :=
                     {| td_room_id := room_id;
                        td_participant_id := Some (p_id participant);
                        td_role := host; td_device_id := td_device_id jwt |} in
                   let updated_token :=
                     {| tok_identity := (room_id, Some (p_id participant));
                        tok_claims := updated_token_data |} in
                   ret ([("success", JBool true); ("status", JStr "active");
                         ("participant_token", JToken updated_token);
                         ("participant_id", JNat (p_id participant));
                         ("room_key", JB64 room_key)], 200%nat)
               | None =>
                   ret ([("success", JBool true); ("status", JStr "active")], 200%nat)
               end
       end)
    (fun _ => ret (error_response "Internal server error" 500)).

(** [SELECT room_key_enc FROM room_keys WHERE room_id = %s], one row. *)
Definition sql_select_room_key (room_id : string) (d : Db) : option bytes :=
  snd <$> head (filter (fun kv => kv.1 = room_id) (t_room_keys d)).

(** The block of [join_room] that fetches and unwraps the room key (it
    stands twice in the source, once per path); its own [try] keeps any
    failure from reaching the handler. *)
Definition fetch_room_key (room_id : string) : M (option bytes) :=
  try_except
    (key_result <- db_select (sql_select_room_key room_id) ;;
     match key_result with
     | Some room_key_enc =>
         room_key_bytes <- lift_result (decrypt_room_key crypto_service room_key_enc) ;;
         ret (Some room_key_bytes)
     | None => ret None
     end)
    (fun _ => ret None).

(** [POST /api/v1/rooms/<room_id>/join] *)
Definition join_room (room_id : string) (client_ip : string) : M Response :=
  try_except
    (room <- Room_get_room room_id ;;
     match room with
     | None => ret (error_response "Room not found" 404)
     | Some room =>
         if negb (status_in [active; locked] room)
         then ret (error_response "Room is not available for joining" 400)
         else
           now <- utcnow ;;
           if is_expired now room
           then ret (error_response "Room has expired" 410)
           else
             device_id <- get_or_create_device_id ;;
             existing_participant <- Participant_get_participant_by_device room_id device_id ;;
             match existing_participant with
             | Some existing_participant =>
                 let token_data :=
                   {| td_room_id := room_id;
                      td_participant_id := Some (p_id existing_participant);
                      td_role := p_role existing_participant;
                      td_device_id := device_id |} in
                 let participant_token :=
                   {| tok_identity := (room_id, Some (p_id existing_participant));
                      tok_claims := token_data |} in
                 room_key_b64 <- fetch_room_key room_id ;;
                 ret ([("participant_id", JNat (p_id existing_participant));
                       ("participant_token", JToken participant_token);
                       ("role", JRole (p_role existing_participant));
                       ("display_name", jopt JStr (p_display_name existing_participant));
                       ("room_key", jopt JB64 room_key_b64)], 200%nat)
             | None =>
                 active_participant_count <- get_connection_count room_id ;;
                 db_participant_count <- Participant_count_participants room_id ;;
                 let max_participant_count :=
                   Nat.max active_participant_count db_participant_count in
                 if bool_decide (2 <= max_participant_count)%nat
                 then ret ([("error", JStr "Room is full");
                            ("message", JStr "This room already has 2 participants. Only 2 people can chat at a time.")],
                           409%nat)
                 else
                   let role := if bool_decide (db_participant_count = 0%nat)
                               then host else guest in
                   participant <- Participant_create_participant room_id role device_id client_ip ;;
                   match participant with
                   | None => ret (error_response "Failed to join room" 500)
                   | Some participant =>
                       _ <- (if bool_decide (db_participant_count = 1%nat)
                             then (_ <- Room_lock_room room_id ;; ret tt)
                             else ret tt) ;;
                       let token_data :=
                         {| td_room_id := room_id;
                            td_participant_id := Some (p_id participant);
                            td_role := role; td_device_id := device_id |} in
                       let participant_token :=
                         {| tok_identity := (room_id, Some (p_id participant));
                            tok_claims := token_data |} in
                       room_key_b64 <- fetch_room_key room_id ;;
                       ret ([("participant_id", JNat (p_id participant));
                             ("participant_token", JToken participant_token);
                             ("role", JRole role);
                             ("device_bind_required", JBool true);
                             ("room_key", jopt JB64 room_key_b64)], 201%nat)
                   end
             end
     end)
    (fun _ => ret (error_response "Internal server error" 500)).

(** ** [sockets.py]: the disconnect handler *)

(** The Socket.IO session of a connection, as [on_connect] filled it. *)
Record SocketSession : Type := {
  ss_room_id : option string;
  ss_participant_id : option nat;
  ss_role : option Role;
}.

(** [for participant_data in all_participants:
      participant_data['is_connected'] = is_participant_connected(...)] *)
Fixpoint mark_connected (room_id : string) (ps : list ParticipantRow)
  : M (list ParticipantStatus) :=
  match ps with
  | [] => ret []
  | p :: ps' =>
      c <- is_participant_connected room_id (p_id p) ;;
      rest <- mark_connected room_id ps' ;;
      ret ({| ps_row := p; ps_is_connected := c |} :: rest)
  end.

(** [on_disconnect()]; [sid] is [request.sid]. *)
Definition on_disconnect (sid : string) (session : SocketSession) : M unit :=
  try_except
    (match ss_room_id session, ss_participant_id session with
     | Some room_id, Some participant_id =>
         (* [if room_id and participant_id:] *)
         if bool_decide (room_id <> "") && bool_decide (participant_id <> 0%nat)
         then
           session_info <- remove_connection sid ;;
           participant <- Participant_get_participant participant_id ;;
           _ <- emit (participant_disconnected room_id participant_id (ss_role session)
                        (participant ≫= p_display_name)) ;;
           _ <- emit (leave_room sid room_id) ;;
           _ <- Participant_remove_participant participant_id ;;
           room_connections <- get_room_connections room_id ;;
           let remaining_participant_ids := (map_to_list room_connections).*1 in
           _ <- Participant_cleanup_inactive_participants room_id remaining_participant_ids ;;
           let connected_count := length remaining_participant_ids in
           _ <- (if bool_decide (connected_count < 2)%nat
                 then
                   current_room <- Room_get_room room_id ;;
                   match current_room with
                   | Some current_room =>
                       if bool_decide (r_status current_room = locked)
                       then (_ <- Room_unlock_room room_id ;; ret tt)
                       else ret tt
                   | None => ret tt
                   end
                 else ret tt) ;;
           all_participants <- Participant_get_room_participants room_id ;;
           marked <- mark_connected room_id all_participants ;;
           emit (connection_status_update room_id connected_count
                   (length all_participants) (bool_decide (2 <= connected_count)%nat)
                   marked)
         else ret tt
     | _, _ => ret tt
     end)
    (fun _ => ret tt).

(** ** [services/archive.py] *)

Definition ArchiveService_get_room_key (room_id : string) : M (option bytes) :=
  try_except
    (db_select (sql_select_room_key room_id))
    (fun _ => ret None).

Definition DECRYPTION_FAILED : pystr := pystr_of_string "[DECRYPTION_FAILED]".

(** The body of [for msg in encrypted_messages] with its [try]. *)
Definition archive_message (room_key : bytes) (msg : JoinedMessage) : ArchivedMessage :=
  let row := jm_row msg in
  match decrypt_message room_key (m_body_ct row) (m_nonce row) (m_tag row) with
  | Ok decrypted_text =>
      {| am_id := m_id row; am_participant_id := m_participant_id row;
         am_display_name := jm_display_name msg; am_role := jm_role msg;
         am_created_at := m_created_at row; am_message := decrypted_text;
         am_msg_type := m_msg_type row; am_ip_address := m_ip_address row;
         am_error := None |}
  | Raise e =>
      {| am_id := m_id row; am_participant_id := m_participant_id row;
         am_display_name := jm_display_name msg; am_role := jm_role msg;
         am_created_at := m_created_at row; am_message := DECRYPTION_FAILED;
         am_msg_type := m_msg_type row; am_ip_address := m_ip_address row;
         am_error := Some (exn_str e) |}
  end.

(** [limit=10000] *)
Definition archive_limit : nat := (100 * 100)%nat.

(** [archive_room] up to the [archive_data] dictionary; [None] where the
    method has returned [False] by then. *)
Definition archive_room_data (room_id : string) : M (option ArchiveData) :=
  room <- Room_get_room room_id ;;
  match room with
  | None => ret None
  | Some room =>
      participants <- Participant_get_room_participants room_id ;;
      encrypted_messages <- Message_get_room_messages room_id archive_limit ;;
      room_key_enc <- ArchiveService_get_room_key room_id ;;
      match room_key_enc with
      | None | Some [] => ret None     (* [if not room_key_enc:] *)
      | Some ((_ :: _) as room_key_enc) =>
          room_key <- lift_result (decrypt_room_key crypto_service room_key_enc) ;;
          let decrypted_messages := archive_message room_key <$> encrypted_messages in
          archived_at <- utcnow ;;
          ret (Some {| ad_room := room; ad_participants := participants;
                       ad_messages := decrypted_messages;
                       ad_archived_at := archived_at;
                       ad_message_count := length decrypted_messages;
                       ad_participant_count := length participants |})
      end
  end.

Definition ArchiveService_archive_room (room_id : string) : M bool :=
  try_except
    (data <- archive_room_data room_id ;;
     match data with
     | None => ret false
     | Some archive_data =>
         timestamp <- utcnow ;;
         let archive_key : ArchiveKey := (room_id, timestamp) in
         stored <- store_archive archive_key archive_data ;;
         if stored
         then
           marked <- Room_archive_room room_id archive_key ;;
           if marked then ret true else ret false
         else ret false
     end)
    (fun _ => ret false).

(** The body of [for room_id in expired_rooms]. *)
Fixpoint process_rooms (expired_rooms : list string) : M unit :=
  match expired_rooms with
  | [] => ret tt
  | room_id :: rest =>
      was_closed <- Room_close_room room_id "expired" ;;
      _ <- (if was_closed
            then (_ <- ArchiveService_archive_room room_id ;; ret tt)
            else ret tt) ;;
      process_rooms rest
  end.

Definition process_expired_rooms : M unit :=
  try_except
    (expired_rooms <- Room_get_expired_rooms ;;
     process_rooms expired_rooms)
    (fun _ => ret tt).

End App.

(** ** Histories of the rooms table *)

(** The operations of [models/rooms.py] that write the [rooms] table. *)
Inductive room_op : Type :=
| OpCreate
| OpAccept (room_id : string)
| OpClose (room_id reason : string)
| OpLock (room_id : string)
| OpUnlock (room_id : string)
| OpArchive (room_id : string) (archive_key : ArchiveKey).

Definition run_op (op : room_op) : M unit :=
  match op with
  | OpCreate => try_except (_ <- Room_create_room ;; ret tt) (fun _ => ret tt)
  | OpAccept room_id => (_ <- Room_accept_room room_id ;; ret tt)
  | OpClose room_id reason => (_ <- Room_close_room room_id reason ;; ret tt)
  | OpLock room_id => (_ <- Room_lock_room room_id ;; ret tt)
  | OpUnlock room_id => (_ <- Room_unlock_room room_id ;; ret tt)
  | OpArchive room_id archive_key => (_ <- Room_archive_room room_id archive_key ;; ret tt)
  end.

(** The worlds a deployment can be in: it starts with an empty [rooms]
    table; a step is one of the operations above, or anything else the
    system or its environment does (time passing, faults, the other
    tables, the registry, the blob store), none of which writes [rooms]. *)
Inductive reachable : World -> Prop :=
| reachable_init w :
    t_rooms (w_db w) = ∅ -> reachable w
| reachable_op w op :
    reachable w -> reachable (run_op op w).2
| reachable_other w w' :
    reachable w -> t_rooms (w_db w') = t_rooms (w_db w) -> reachable w'.

(** ** The rest of the persistence layer *)

Definition with_display_name (display_name : string) (p : ParticipantRow) : ParticipantRow :=
  {| p_id := p_id p; p_room_id := p_room_id p; p_role := p_role p;
     p_device_id := p_device_id p; p_display_name := Some display_name;
     p_ip_address := p_ip_address p; p_joined_at := p_joined_at p |}.

(** [UPDATE participants SET display_name = %s WHERE id = %s RETURNING id];
    [participant_id] is [None] when the caller's token carries none, and
    [id = NULL] selects no row. *)
Definition sql_update_display_name (display_name : string) (participant_id : option nat)
    (d : Db) : result (option nat * Db) :=
  match participant_id with
  | Some pid =>
      if existsb (fun p => bool_decide (p_id p = pid)) (t_participants d)
      then Ok (Some pid,
               set_participants
                 ((fun p => if bool_decide (p_id p = pid)
                            then with_display_name display_name p else p)
                    <$> t_participants d)
                 (seq_participants d) d)
      else Ok (None, d)
  | None => Ok (None, d)
  end.

Definition Participant_set_display_name (participant_id : option nat)
    (display_name : string) : M bool :=
  try_except
    (result <- db_execute (sql_update_display_name display_name participant_id) ;;
     ret (bool_decide (is_Some result)))
    (fun _ => ret false).

(** [SELECT id FROM participants WHERE room_id = %s AND id = %s AND device_id = %s] *)
Definition sql_select_device_access (room_id : string) (participant_id : nat)
    (device_id : DeviceId) (d : Db) : option nat :=
  p_id <$> head (filter (fun p => p_room_id p = room_id /\ p_id p = participant_id
                                  /\ p_device_id p = device_id)
                        (t_participants d)).

Definition Participant_validate_device_access (room_id : string) (participant_id : nat)
    (device_id : DeviceId) : M bool :=
  try_except
    (result <- db_select (sql_select_device_access room_id participant_id device_id) ;;
     ret (bool_decide (is_Some result)))
    (fun _ => ret false).

Definition Message_count_room_messages (room_id : string) : M nat :=
  try_except
    (db_select (fun d => length (room_messages room_id d)))
    (fun _ => ret 0%nat).

(** ** Request bodies and socket payloads *)

(** A JSON value as the handlers receive it. *)
#[local] Unset Elimination Schemes.
Inductive json : Type :=
| JsNull
| JsBool (b : bool)
| JsNum (n : Z)
| JsStr (s : string)
| JsArray (items : list json)
| JsObject (fields : list (string * json)).
#[local] Set Elimination Schemes.

(** [d.get(k)] on an object given by its fields. *)
Definition json_get (k : string) (fields : list (string * json)) : option json :=
  snd <$> head (filter (fun kv => kv.1 = k) fields).

(** Truth value of a payload value ([if v:], [not v]). *)
Definition json_truthy (v : json) : bool :=
  match v with
  | JsNull => false
  | JsBool b => b
  | JsNum n => negb (bool_decide (n = 0%Z))
  | JsStr s => negb (bool_decide (s = ""))
  | JsArray items => negb (bool_decide (items = []))
  | JsObject fields => negb (bool_decide (fields = []))
  end.

(** [s.strip()]: what [str.isspace] accepts among the code points below
    256 (a [string] holds such code points). *)
Definition is_space (a : Ascii.ascii) : bool :=
  let n := Ascii.nat_of_ascii a in
  bool_decide (9 <= n <= 13 \/ 28 <= n <= 32 \/ n = 133 \/ n = 160)%nat.

Fixpoint str_lstrip (s : string) : string :=
  match s with
  | EmptyString => EmptyString
  | String a s' => if is_space a then str_lstrip s' else s
  end.

Fixpoint str_rstrip (s : string) : string :=
  match s with
  | EmptyString => EmptyString
  | String a s' =>
      match str_rstrip s' with
      | EmptyString => if is_space a then EmptyString else String a EmptyString
      | rest => String a rest
      end
  end.

Definition str_strip (s : string) : string := str_rstrip (str_lstrip s).

(** ** [routes/rooms.py]: the name and the destroy routes *)

Definition AttributeError : exn := OtherError "object has no attribute 'strip'".

(** [POST /api/v1/rooms/<room_id>/name]; [request_json] is the object that
    [request.get_json()] returns, [None] when it returns [None]. *)
Definition set_display_name (room_id : string) (jwt : TokenData)
    (request_json : option (list (string * json))) : M Response :=
  try_except
    (if negb (bool_decide (td_room_id jwt = room_id))
     then ret (error_response "Unauthorized" 403)
     else
       match request_json ≫= json_get "display_name" with
       | None => ret (error_response "Display name is required" 400)
       | Some (JsStr raw) =>
           let display_name := str_strip raw in
           if bool_decide (display_name = "")
           then ret (error_response "Display name cannot be empty" 400)
           else
             let participant_id := td_participant_id jwt in
             ok <- Participant_set_display_name participant_id display_name ;;
             if ok then ret ([("success", JBool true)], 200%nat)
             else ret (error_response "Failed to set display name" 500)
       | Some _ => raise AttributeError
       end)
    (fun _ => ret (error_response "Internal server error" 500)).

(** [POST /api/v1/rooms/<room_id>/destroy] *)
Definition destroy_room (room_id : string) (jwt : TokenData) : M Response :=
  try_except
    (if negb (bool_decide (td_room_id jwt = room_id))
     then ret (error_response "Unauthorized" 403)
     else
       ok <- Room_close_room room_id "destroyed" ;;
       if ok then ret ([("success", JBool true)], 200%nat)
       else ret (error_response "Failed to destroy room" 500))
    (fun _ => ret (error_response "Internal server error" 500)).

(** ** [services/archive.py]: reading an archive back *)

Definition get_archived_transcript (room_id : string) : M (option ArchiveData) :=
  try_except
    (room <- Room_get_room room_id ;;
     match room ≫= r_archive_key with
     | None => ret None
     | Some archive_key => get_archive archive_key
     end)
    (fun _ => ret None).

(** ** [sockets.py]: the other handlers

    A socket handler also writes the Socket.IO session of its connection
    and sends events; both are state next to the world. *)

(** [session] of a socket connection, with every key [on_connect] sets. *)
Record ConnSession : Type := {
  cs_room_id : option string;
  cs_participant_id : option nat;
  cs_device_id : option DeviceId;
  cs_role : option Role;
}.

Definition no_session : ConnSession :=
  {| cs_room_id := None; cs_participant_id := None; cs_device_id := None;
     cs_role := None |}.

(** The keys that [on_disconnect] reads. *)
Definition disconnect_view (s : ConnSession) : SocketSession :=
  {| ss_room_id := cs_room_id s; ss_participant_id := cs_participant_id s;
     ss_role := cs_role s |}.

Definition role_str (r : Role) : string :=
  match r with host => "host" | guest => "guest" end.

(** [broadcast_data] of [on_message_send]. *)
Record Broadcast : Type := {
  bc_message_id : nat;
  bc_room_id : string;
  bc_participant_id : nat;
  bc_display_name : option string;
  bc_role : string;
  bc_ciphertext : json;
  bc_nonce : option json;
  bc_tag : option json;
  bc_msg_type : string;
  bc_attachment_id : option nat;
  bc_created_at : Z;
}.

(** What a handler does to the Socket.IO server: [disconnect()],
    [join_room(room)], and [emit(event, payload)], to the room [to] when
    given ([room=...]) and to the caller otherwise. *)
Inductive SocketEvent : Type :=
| do_disconnect
| do_join_room (room_id : string)
| send_participant_connected (to : string) (participant_id : nat) (role : Role)
    (display_name : option string)
| send_connection_status_update (to : string) (connected_participants : nat)
    (total_participants : nat) (is_secure : bool) (participants : list ParticipantStatus)
| send_room_locked (room_id : string)
| send_timer_update (time_left_seconds : Z)
| send_joined_room (room_id : string)
| send_room_closed (to : option string) (reason : string) (message : option string)
| send_message_error (error : string)
| send_message (to : string) (broadcast_data : Broadcast)
| send_error (message : string)
| send_participant_verified (to : string) (verifier_name : option json)
    (verifier_id : nat) (target_participant_id : json)
| send_participant_rejected (to : string) (verifier_name : option json)
    (verifier_id : nat) (target_participant_id : json).

Record Sock : Type := {
  sk_world : World;
  sk_session : ConnSession;
  sk_sent : list SocketEvent;
}.

Definition SM (A : Type) : Type := Sock -> result A * Sock.

Definition sret {A} (a : A) : SM A := fun s => (Ok a, s).

Definition sbind {A B} (m : SM A) (k : A -> SM B) : SM B :=
  fun s =>
    match m s with
    | (Ok a, s') => k a s'
    | (Raise e, s') => (Raise e, s')
    end.

Definition sraise {A} (e : exn) : SM A := fun s => (Raise e, s).

Definition stry {A} (body : SM A) (handler : exn -> SM A) : SM A :=
  fun s =>
    match body s with
    | (Ok a, s') => (Ok a, s')
    | (Raise e, s') => handler e s'
    end.

Notation "x <~ m ;; k" := (sbind m (fun x => k))
  (at level 100, m at next level, right associativity).

(** A call into the models or the registry. *)
Definition call {A} (m : M A) : SM A :=
  fun s =>
    let '(r, w) := m (sk_world s) in
    (r, {| sk_world := w; sk_session := sk_session s; sk_sent := sk_sent s |}).

Definition send (e : SocketEvent) : SM unit :=
  fun s => (Ok tt, {| sk_world := sk_world s; sk_session := sk_session s;
                      sk_sent := sk_sent s ++ [e] |}).

Definition get_session : SM ConnSession := fun s => (Ok (sk_session s), s).

Definition set_session (c : ConnSession) : SM unit :=
  fun s => (Ok tt, {| sk_world := sk_world s; sk_session := c; sk_sent := sk_sent s |}).

(** [if not x] for a session value: [None], the empty string and [0]. *)
Definition present_str (o : option string) : option string :=
  match o with
  | Some s => if bool_decide (s = "") then None else Some s
  | None => None
  end.

Definition present_nat (o : option nat) : option nat :=
  match o with
  | Some n => if bool_decide (n = 0%nat) then None else Some n
  | None => None
  end.

(** [on_connect(auth)]. [decoded] holds the claims of [auth['token']];
    it is [None] when [auth] is empty or has no token, and when
    [decode_token] raises: the handler treats the three alike. [sid] is
    [request.sid]. Times are whole seconds, so [int(time_left)] is
    [time_left]. *)
Definition on_connect (sid : string) (decoded : option TokenData) : SM bool :=
  stry
    (match decoded with
     | None => (_ <~ send do_disconnect ;; sret false)
     | Some decoded =>
         let room_id := td_room_id decoded in
         let device_id := td_device_id decoded in
         let role := td_role decoded in
         match present_str (Some room_id), present_nat (td_participant_id decoded) with
         | Some _, Some participant_id =>
             valid <~ call (Participant_validate_device_access room_id participant_id device_id) ;;
             if negb valid then (_ <~ send do_disconnect ;; sret false)
             else
               room <~ call (Room_get_room room_id) ;;
               match room with
               | None => (_ <~ send do_disconnect ;; sret false)
               | Some room =>
                   if negb (status_in [active; locked] room)
                   then (_ <~ send do_disconnect ;; sret false)
                   else
                     _ <~ send (do_join_room room_id) ;;
                     _ <~ set_session {| cs_room_id := Some room_id;
                                         cs_participant_id := Some participant_id;
                                         cs_device_id := Some device_id;
                                         cs_role := Some role |} ;;
                     _ <~ call (add_connection sid room_id participant_id role) ;;
                     participant <~ call (Participant_get_participant participant_id) ;;
                     _ <~ send (send_participant_connected room_id participant_id role
                                  (participant ≫= p_display_name)) ;;
                     all_participants <~ call (Participant_get_room_participants room_id) ;;
                     connected_count <~ call (get_connection_count room_id) ;;
                     marked <~ call (mark_connected room_id all_participants) ;;
                     _ <~ send (send_connection_status_update room_id connected_count
                                  (length all_participants)
                                  (bool_decide (2 <= connected_count)%nat) marked) ;;
                     _ <~ (if bool_decide (r_status room = locked)
                           then send (send_room_locked room_id) else sret tt) ;;
                     _ <~ (match r_expires_at room with
                           | Some expires_at =>
                               now <~ call utcnow ;;
                               let time_left := (expires_at - now)%Z in
                               if bool_decide (0 < time_left)%Z
                               then send (send_timer_update time_left) else sret tt
                           | None => sret tt
                           end) ;;
                     sret true
               end
         | _, _ => (_ <~ send do_disconnect ;; sret false)
         end
     end)
    (fun _ => _ <~ send do_disconnect ;; sret false).

(** The payload of [message_send]: the fields as the client's JSON has
    them; [msg_type] is a string and [attachment_id] a number when
    present. *)
Record MessageData : Type := {
  md_ciphertext : option json;
  md_nonce : option json;
  md_tag : option json;
  md_msg_type : option string;
  md_attachment_id : option nat;
}.

Definition KeyError : exn := OtherError "KeyError".
Definition NoneSubscript : exn := TypeError "'NoneType' object is not subscriptable".

Section Sockets.
(** [base64.b64decode(v)] of a payload value; [None] when it raises. *)
Variable b64decode : json -> option bytes.

(** [UPDATE attachments SET message_id = %s WHERE id = %s AND room_id = %s
    AND available = TRUE]: the [attachments] table is outside this
    development; the statement touches no other table. *)
Definition sql_link_attachment (message_id attachment_id : nat) (room_id : string)
    (d : Db) : result (unit * Db) := Ok (tt, d).

(** [on_message_send(data)]; [client_ip] is the address read from the
    request environment. *)
Definition on_message_send (data : option MessageData) (client_ip : option string)
  : SM unit :=
  stry
    (session <~ get_session ;;
     match present_str (cs_room_id session), present_nat (cs_participant_id session),
           cs_device_id session with
     | Some room_id, Some participant_id, Some device_id =>
         valid <~ call (Participant_validate_device_access room_id participant_id device_id) ;;
         if negb valid then sret tt
         else
           room <~ call (Room_get_room room_id) ;;
           if negb (from_option (status_in [active; locked]) false room)
           then send (send_room_closed None "room_unavailable" None)
           else
             match data with
             | None => sret tt
             | Some data =>
                 match md_ciphertext data with
                 | None => sret tt
                 | Some raw_ciphertext =>
                     match b64decode raw_ciphertext,
                           md_nonce data ≫= b64decode, md_tag data ≫= b64decode with
                     | Some ciphertext, Some nonce, Some tag =>
                         let msg_type := default "text" (md_msg_type data) in
                         let attachment_id := md_attachment_id data in
                         message <~ call (Message_create_message room_id participant_id
                                            ciphertext nonce tag msg_type client_ip) ;;
                         match message with
                         | None => send (send_message_error "Failed to send message")
                         | Some message =>
                             _ <~ (match present_nat attachment_id with
                                   | Some attachment_id =>
                                       if bool_decide (msg_type = "image")
                                       then stry (call (db_execute
                                                    (sql_link_attachment (m_id message)
                                                       attachment_id room_id)))
                                                 (fun _ => sret tt)
                                       else sret tt
                                   | None => sret tt
                                   end) ;;
                             participant <~ call (Participant_get_participant participant_id) ;;
                             let broadcast_data :=
                               {| bc_message_id := m_id message; bc_room_id := room_id;
                                  bc_participant_id := participant_id;
                                  bc_display_name :=
                                    match participant with
                                    | Some p => p_display_name p
                                    | None => Some "Anonymous"
                                    end;
                                  bc_role :=
                                    match participant with
                                    | Some p => role_str (p_role p)
                                    | None => "unknown"
                                    end;
                                  bc_ciphertext := raw_ciphertext;
                                  bc_nonce := md_nonce data; bc_tag := md_tag data;
                                  bc_msg_type := msg_type;
                                  bc_attachment_id := attachment_id;
                                  bc_created_at := m_created_at message |} in
                             _ <~ send (send_message room_id broadcast_data) ;;
                             (* the log line reads [participant['display_name']] *)
                             match participant with
                             | Some _ => sret tt
                             | None => sraise NoneSubscript
                             end
                         end
                     | _, _, _ => sret tt
                     end
                 end
             end
     | _, _, _ => sret tt
     end)
    (fun _ => send (send_message_error "Internal server error")).

End Sockets.

(** [on_destroy_room()] *)
Definition on_destroy_room : SM unit :=
  stry
    (session <~ get_session ;;
     match present_str (cs_room_id session) with
     | None => sret tt
     | Some room_id =>
         closed_now <~ call (Room_close_room room_id "destroyed") ;;
         if closed_now
         then send (send_room_closed (Some room_id) "destroyed"
                      (Some "Room has been destroyed"))
         else send (send_error "Failed to destroy room")
     end)
    (fun _ => sret tt).

Definition NoneGet : exn := OtherError "'NoneType' object has no attribute 'get'".

(** [on_verify_participant(data)]; [data] is the payload object, [None]
    when the client sent none. *)
Definition on_verify_participant (data : option (list (string * json))) : SM unit :=
  stry
    (session <~ get_session ;;
     match present_str (cs_room_id session), present_nat (cs_participant_id session) with
     | Some room_id, Some verifier_id =>
         match data with
         | None => sraise NoneGet
         | Some data =>
             let target_participant_id := json_get "target_participant_id" data in
             let accepted := json_get "accepted" data in
             let verifier_name := json_get "verifier_name" data in
             (* [x is None]: the key is absent or holds [null] *)
             match target_participant_id, accepted with
             | Some JsNull, _ | _, Some JsNull | None, _ | _, None => sret tt
             | Some target_participant_id, Some accepted =>
                 if json_truthy accepted
                 then send (send_participant_verified room_id verifier_name verifier_id
                              target_participant_id)
                 else
                   _ <~ send (send_participant_rejected room_id verifier_name verifier_id
                                target_participant_id) ;;
                   _ <~ call (Room_close_room room_id "participant_rejected") ;;
                   send (send_room_closed (Some room_id) "participant_rejected"
                           (Some "Room closed due to participant rejection"))
             end
         end
     | _, _ => sret tt
     end)
    (fun _ => sret tt).

(** ** [adminpanel/app.py]: the live transcript *)

Section Admin.
Context {cipher : AesGcm}.

(** [AdminPanel.decrypt_message]: the body of the service's method, but
    the [except] returns the marker instead of raising again. *)
Definition Admin_decrypt_message (room_key ciphertext nonce tag : bytes) : pystr :=
  match decrypt_message room_key ciphertext nonce tag with
  | Ok text => text
  | Raise _ => DECRYPTION_FAILED
  end.

Definition ROOM_KEY_DECRYPTION_FAILED : pystr :=
  pystr_of_string "[ROOM_KEY_DECRYPTION_FAILED]".

Definition NO_ROOM_KEY : pystr := pystr_of_string "[NO_ROOM_KEY]".

(** [msg_dict] of [room_transcript]. *)
Record TranscriptMessage : Type := {
  tm_row : JoinedMessage;
  tm_decrypted_text : pystr;
  tm_decryption_error : bool;
}.

(** The body of the inner [for msg in encrypted_messages] with its [try]. *)
Definition transcript_message (room_key : bytes) (msg : JoinedMessage) : TranscriptMessage :=
  let row := jm_row msg in
  let attempt : result pystr :=
    Ok (Admin_decrypt_message room_key (m_body_ct row) (m_nonce row) (m_tag row)) in
  match attempt with
  | Ok decrypted_text =>
      {| tm_row := msg; tm_decrypted_text := decrypted_text; tm_decryption_error := false |}
  | Raise _ =>
      {| tm_row := msg; tm_decrypted_text := DECRYPTION_FAILED; tm_decryption_error := true |}
  end.

(** The messages that [room_transcript] renders; [admin] holds the
    panel's master key ([AdminPanel.decrypt_room_key] is the service's
    method word for word), [key_row] is the row of [room_keys]. *)
Definition transcript_messages (admin : CryptoService) (key_row : option bytes)
    (encrypted_messages : list JoinedMessage) : list TranscriptMessage :=
  match key_row with
  | Some room_key_enc =>
      match decrypt_room_key admin room_key_enc with
      | Ok room_key => transcript_message room_key <$> encrypted_messages
      | Raise _ =>
          (fun msg => {| tm_row := msg; tm_decrypted_text := ROOM_KEY_DECRYPTION_FAILED;
                         tm_decryption_error := true |}) <$> encrypted_messages
      end
  | None =>
      (fun msg => {| tm_row := msg; tm_decrypted_text := NO_ROOM_KEY;
                     tm_decryption_error := true |}) <$> encrypted_messages
  end.

(** [... WHERE m.room_id = %s ORDER BY m.created_at ASC], with no [LIMIT]. *)
Definition admin_select_room_messages (room_id : string) (d : Db) : list JoinedMessage :=
  left_join_participant d <$> order_by m_created_at (room_messages room_id d).

Definition room_transcript_messages (admin : CryptoService) (room_id : string) (d : Db)
  : list TranscriptMessage :=
  transcript_messages admin (sql_select_room_key room_id d)
    (admin_select_room_messages room_id d).

End Admin.

(** * Properties *)

(** ** The crypto kernel *)

Lemma result_bind_ok {A B} (r : result A) (k : A -> result B) a :
  r = Ok a -> result_bind r k = k a.
Proof. by intros ->. Qed.

Lemma token_bytes_length n r : length (token_bytes n r).1 = n.
Proof. unfold token_bytes. simpl. by rewrite length_fmap, length_seq. Qed.

Lemma slice_minus16_app (b : bytes) :
  slice_to_minus16 b ++ slice_from_minus16 b = b.
Proof. apply take_drop. Qed.

Lemma slice_from_minus16_length (b : bytes) :
  (16 <= length b)%nat -> length (slice_from_minus16 b) = 16%nat.
Proof. intros Hb. unfold slice_from_minus16. rewrite length_drop. lia. Qed.

Module Utf8Facts.
Import Utf8.

Lemma is_scalar_range c :
  is_scalar c = true -> (0 <= c < 55296 \/ 57343 < c <= 1114111)%Z.
Proof. unfold is_scalar. by intros ?%bool_decide_eq_true. Qed.

(** Decoding reads back one encoded code point, whatever follows. *)
Lemma decode_encode_cp c rest :
  is_scalar c = true ->
  decode (encode_cp c ++ rest) = result_bind (decode rest) (fun s => Ok (c :: s)).
Proof.
  intros Hc%is_scalar_range. unfold encode_cp.
  repeat case_bool_decide; simpl; unfold is_cont, is_scalar.
  - rewrite bool_decide_eq_true_2 by lia. done.
  - rewrite bool_decide_eq_false_2 by (Z.div_mod_to_equations; lia).
    rewrite bool_decide_eq_true_2 by (Z.div_mod_to_equations; lia).
    rewrite bool_decide_eq_true_2 by (Z.div_mod_to_equations; lia).
    replace ((192 + c / 64 - 192) * 64 + (128 + c mod 64 - 128))%Z with c
      by (Z.div_mod_to_equations; lia).
    done.
  - rewrite bool_decide_eq_false_2 by (Z.div_mod_to_equations; lia).
    rewrite bool_decide_eq_false_2 by (Z.div_mod_to_equations; lia).
    rewrite bool_decide_eq_true_2 by (Z.div_mod_to_equations; lia).
    replace ((224 + c / 4096 - 224) * 4096 + (128 + (c / 64) mod 64 - 128) * 64
             + (128 + c mod 64 - 128))%Z with c
      by (Z.div_mod_to_equations; lia).
    rewrite !bool_decide_eq_true_2 by (Z.div_mod_to_equations; lia).
    done.
  - rewrite bool_decide_eq_false_2 by (Z.div_mod_to_equations; lia).
    rewrite bool_decide_eq_false_2 by (Z.div_mod_to_equations; lia).
    rewrite bool_decide_eq_false_2 by (Z.div_mod_to_equations; lia).
    rewrite bool_decide_eq_true_2 by (Z.div_mod_to_equations; lia).
    replace ((240 + c / 262144 - 240) * 262144 + (128 + (c / 4096) mod 64 - 128) * 4096
             + (128 + (c / 64) mod 64 - 128) * 64 + (128 + c mod 64 - 128))%Z with c
      by (Z.div_mod_to_equations; lia).
    rewrite !bool_decide_eq_true_2 by (Z.div_mod_to_equations; lia).
    done.
Qed.

Lemma decode_encode (s : pystr) :
  Forall (fun c => is_scalar c = true) s ->
  exists data, encode s = Ok data /\ decode data = Ok s.
Proof.
  induction 1 as [|c s Hc _ (data & Henc & Hdec)]; simpl.
  - by exists [].
  - rewrite Hc, Henc. simpl. eexists; split; [done|].
    rewrite decode_encode_cp, Hdec by done. done.
Qed.

End Utf8Facts.

Section CryptoFacts.
Context {cipher : AesGcm}.

Lemma AESGCM_32 (key : bytes) : length key = 32%nat -> AESGCM key = Ok key.
Proof.
  intros Hk. unfold AESGCM. rewrite bool_decide_eq_true_2; [done | lia].
Qed.

Lemma nonce_ok_12 (nonce : bytes) : length nonce = 12%nat -> nonce_ok nonce = true.
Proof. intros Hn. unfold nonce_ok. apply bool_decide_eq_true_2. lia. Qed.

Lemma AESGCM_decrypt_seal (key nonce data : bytes) :
  length key = 32%nat -> length nonce = 12%nat ->
  AESGCM_decrypt key nonce (gcm_seal key nonce data) = Ok data.
Proof.
  intros Hk Hn. unfold AESGCM_decrypt.
  rewrite nonce_ok_12 by done.
  rewrite bool_decide_eq_false_2 by (rewrite gcm_seal_length by done; lia).
  by rewrite gcm_open_seal.
Qed.

Lemma _get_master_key_length env key :
  _get_master_key env = Ok key -> length key = 32%nat.
Proof.
  unfold _get_master_key. destruct env as [k|]; [|done].
  case_bool_decide as Hk; [done|]. intros [= <-].
  destruct (decide (length k = 32%nat)); [done | contradiction].
Qed.

Lemma CryptoService_init_length env svc :
  CryptoService_init env = Ok svc -> length (master_key svc) = 32%nat.
Proof.
  unfold CryptoService_init.
  destruct (_get_master_key env) as [key|] eqn:Hkey; [|done].
  simpl. intros [= <-]. simpl. by eapply _get_master_key_length.
Qed.

Lemma decrypt_room_key_wrapped (svc : CryptoService) (nonce k : bytes) :
  length (master_key svc) = 32%nat -> length nonce = 12%nat ->
  decrypt_room_key svc (nonce ++ gcm_seal (master_key svc) nonce k) = Ok k.
Proof.
  intros Hmk Hn. unfold decrypt_room_key.
  rewrite AESGCM_32 by done. simpl.
  rewrite take_app_length', drop_app_length' by done.
  by apply AESGCM_decrypt_seal.
Qed.

Lemma encrypt_room_key_spec (svc : CryptoService) (k : bytes) (r : Rng) :
  length (master_key svc) = 32%nat ->
  encrypt_room_key svc k r =
    (Ok ((token_bytes 12 r).1 ++ gcm_seal (master_key svc) (token_bytes 12 r).1 k),
     rng_skip 12 r).
Proof.
  intros Hmk. unfold encrypt_room_key. rewrite AESGCM_32 by done.
  destruct (token_bytes 12 r) as [nonce r'] eqn:Htb.
  assert (Hn : length nonce = 12%nat).
  { pose proof (token_bytes_length 12 r) as Hl. by rewrite Htb in Hl. }
  unfold token_bytes in Htb. injection Htb as <- <-.
  unfold AESGCM_encrypt. rewrite nonce_ok_12 by done. done.
Qed.

(** C3. For a 32-byte room key and a plaintext of Unicode scalar values
    (a string that UTF-8 can encode), [encrypt_message] returns
    [(ct, nonce, tag)] such that [decrypt_message room_key ct nonce tag]
    returns the plaintext; the sealed AEAD output of the encoded plaintext
    is [ct ++ tag], and [tag] is its last 16 bytes. *)
Theorem encrypt_decrypt_message_roundtrip
    (room_key : bytes) (plaintext : pystr) (r : Rng) :
  length room_key = 32%nat ->
  Forall (fun c => Utf8.is_scalar c = true) plaintext ->
  exists ct nonce tag data,
    (encrypt_message room_key plaintext r).1 = Ok (ct, nonce, tag)
    /\ decrypt_message room_key ct nonce tag = Ok plaintext
    /\ Utf8.encode plaintext = Ok data
    /\ gcm_seal room_key nonce data = ct ++ tag
    /\ tag = drop (length (gcm_seal room_key nonce data) - 16)
               (gcm_seal room_key nonce data)
    /\ length tag = 16%nat.
Proof.
  intros Hk Hs.
  destruct (Utf8Facts.decode_encode plaintext Hs) as (data & Henc & Hdec).
  set (nonce := (token_bytes 12 r).1).
  assert (Hn : length nonce = 12%nat) by apply token_bytes_length.
  set (sealed := gcm_seal room_key nonce data).
  exists (slice_to_minus16 sealed), nonce, (slice_from_minus16 sealed), data.
  split; [|split; [|split; [|split; [|split]]]].
  - unfold encrypt_message. rewrite AESGCM_32 by done.
    unfold token_bytes. cbn [fst]. fold (token_bytes 12 r). fold nonce.
    rewrite Henc. cbn [result_bind]. unfold AESGCM_encrypt.
    rewrite nonce_ok_12 by done. done.
  - unfold decrypt_message. rewrite AESGCM_32 by done. cbn [result_bind].
    rewrite slice_minus16_app. unfold sealed.
    rewrite AESGCM_decrypt_seal by done. done.
  - done.
  - by rewrite slice_minus16_app.
  - done.
  - apply slice_from_minus16_length. unfold sealed.
    rewrite gcm_seal_length by done. lia.
Qed.

(** C8. For a service built by [CryptoService_init] (a 32-byte master
    key) and a 32-byte key [k], [encrypt_room_key] returns the 12-byte
    nonce followed by the AEAD seal of [k] under the master key,
    [decrypt_room_key] splits that blob at byte 12 into the nonce and the
    seal, and returns [k]. *)
Theorem room_key_wrap_roundtrip
    (env : option bytes) (svc : CryptoService) (k : bytes) (r : Rng) :
  CryptoService_init env = Ok svc ->
  length k = 32%nat ->
  exists nonce wrapped,
    (encrypt_room_key svc k r).1 = Ok wrapped
    /\ length nonce = 12%nat
    /\ wrapped = nonce ++ gcm_seal (master_key svc) nonce k
    /\ take 12 wrapped = nonce
    /\ drop 12 wrapped = gcm_seal (master_key svc) nonce k
    /\ decrypt_room_key svc wrapped = Ok k.
Proof.
  intros Hinit%CryptoService_init_length _.
  set (nonce := (token_bytes 12 r).1).
  assert (Hn : length nonce = 12%nat) by apply token_bytes_length.
  exists nonce, (nonce ++ gcm_seal (master_key svc) nonce k).
  split; [|split; [|split; [|split; [|split]]]].
  - by rewrite encrypt_room_key_spec.
  - done.
  - done.
  - by apply take_app_length'.
  - by apply drop_app_length'.
  - by apply decrypt_room_key_wrapped.
Qed.

End CryptoFacts.

(** A tape of random values and keys for the examples. *)
Definition example_rng : Rng := fun i => Z.of_nat (7 * i + 3).
Definition example_key : bytes := (fun i => Z.of_nat i) <$> seq 0 32.
Definition example_master_key : bytes := (fun i => Z.of_nat (i + 100)) <$> seq 0 32.
Definition example_crypto : CryptoService := {| master_key := example_master_key |}.

(** "hé€😀": one code point of each encoded length. *)
Definition example_text : pystr := [104; 233; 8364; 128512]%Z.

Lemma encrypt_decrypt_message_roundtrip_witness :
  exists ct nonce tag data,
    (@encrypt_message ToyGcm example_key example_text example_rng).1 = Ok (ct, nonce, tag)
    /\ @decrypt_message ToyGcm example_key ct nonce tag = Ok example_text
    /\ Utf8.encode example_text = Ok data
    /\ @gcm_seal ToyGcm example_key nonce data = ct ++ tag
    /\ tag = drop (length (@gcm_seal ToyGcm example_key nonce data) - 16)
               (@gcm_seal ToyGcm example_key nonce data)
    /\ length tag = 16%nat.
Proof.
  apply (@encrypt_decrypt_message_roundtrip ToyGcm example_key example_text example_rng).
  - reflexivity.
  - repeat constructor.
Defined.

Lemma room_key_wrap_roundtrip_witness :
  exists nonce wrapped,
    (@encrypt_room_key ToyGcm example_crypto example_key example_rng).1 = Ok wrapped
    /\ length nonce = 12%nat
    /\ wrapped = nonce ++ @gcm_seal ToyGcm (master_key example_crypto) nonce example_key
    /\ take 12 wrapped = nonce
    /\ drop 12 wrapped = @gcm_seal ToyGcm (master_key example_crypto) nonce example_key
    /\ @decrypt_room_key ToyGcm example_crypto wrapped = Ok example_key.
Proof.
  apply (@room_key_wrap_roundtrip ToyGcm (Some example_master_key)
           example_crypto example_key example_rng).
  - reflexivity.
  - reflexivity.
Defined.

(** ** The rooms table: [archive_key] and [archived] go together *)

(** What one operation does to the [rooms] table. *)
Definition op_effect (op : room_op) (m m' : gmap string RoomRow) : Prop :=
  m' = m \/
  match op with
  | OpCreate =>
      exists id now, m !! id = None /\ m' = <[id := new_room id now]> m
  | OpAccept id =>
      exists r a e, m !! id = Some r /\ r_status r = pending
                    /\ m' = <[id := with_accepted a e r]> m
  | OpClose id _ =>
      exists r t, m !! id = Some r /\ (r_status r = active \/ r_status r = locked)
                  /\ m' = <[id := with_closed t r]> m
  | OpLock id =>
      exists r, m !! id = Some r /\ r_status r = active
                /\ m' = <[id := with_status locked r]> m
  | OpUnlock id =>
      exists r, m !! id = Some r /\ r_status r = locked
                /\ m' = <[id := with_status active r]> m
  | OpArchive id key =>
      exists r, m !! id = Some r /\ r_status r = closed
                /\ m' = <[id := with_archived key r]> m
  end.

Lemma db_execute_update_rooms {room_id cond f w res w'} :
  db_execute (sql_update_room room_id cond f) w = (res, w') ->
  t_rooms (w_db w') = t_rooms (w_db w)
  \/ exists r, t_rooms (w_db w) !! room_id = Some r /\ cond r = true
               /\ t_rooms (w_db w') = <[room_id := f r]> (t_rooms (w_db w)).
Proof.
  unfold db_execute, run_statement, sql_update_room.
  destruct (w_faults w) as [|[e|] fs]; cbn [w_db set_faults];
    try (destruct (t_rooms (w_db w) !! room_id) as [r|] eqn:Hr;
         [destruct (cond r) eqn:Hc|]);
    intros [= <- <-]; cbn; eauto.
Qed.

Lemma is_duplicate_key_rooms_pkey : is_duplicate_key rooms_pkey_violation = true.
Proof. reflexivity. Qed.

Lemma create_room_loop_rooms n w res w' :
  create_room_loop n w = (res, w') ->
  t_rooms (w_db w') = t_rooms (w_db w)
  \/ exists id now, t_rooms (w_db w) !! id = None
                    /\ t_rooms (w_db w') = <[id := new_room id now]> (t_rooms (w_db w)).
Proof.
  revert w. induction n as [|n IH]; intros w.
  { intros [= <- <-]. by left. }
  cbn [create_room_loop]. unfold bind at 1, with_rng.
  destruct (generate_room_id (w_rng w)) as [room_id r'].
  assert (Hw1 : t_rooms (w_db (set_rng r' w)) = t_rooms (w_db w)) by done.
  revert Hw1. generalize (set_rng r' w). intros w1 <-.
  unfold try_except, bind, utcnow, db_execute, run_statement, sql_insert_room.
  destruct (w_faults w1) as [|[e|] fs] eqn:Hf.
  - destruct (t_rooms (w_db w1) !! room_id) eqn:Hr.
    + rewrite is_duplicate_key_rooms_pkey. apply (IH w1).
    + intros [= <- <-]. right. cbn. eauto.
  - destruct (is_duplicate_key e).
    + apply (IH (set_faults fs w1)).
    + intros [= <- <-]. by left.
  - cbn [w_db set_faults].
    destruct (t_rooms (w_db w1) !! room_id) eqn:Hr.
    + rewrite is_duplicate_key_rooms_pkey. apply (IH (set_faults fs w1)).
    + intros [= <- <-]. right. cbn. eauto.
Qed.

Ltac update_effect H :=
  destruct (db_execute_update_rooms H) as [->|(r & Hr & Hc & ->)];
  [by left|right]; apply bool_decide_eq_true in Hc.

Lemma run_op_effect op w :
  op_effect op (t_rooms (w_db w)) (t_rooms (w_db (run_op op w).2)).
Proof.
  destruct op as [|id|id reason|id|id|id key]; unfold op_effect, run_op.
  - unfold try_except, bind, Room_create_room.
    destruct (create_room_loop max_attempts w) as [[a|e] w'] eqn:H;
      apply create_room_loop_rooms in H; done.
  - unfold Room_accept_room, try_except, bind, utcnow.
    destruct (db_execute _ w) as [[a|e] w'] eqn:H; cbn;
      update_effect H; eauto 10.
  - unfold Room_close_room, try_except, bind, utcnow.
    destruct (db_execute _ w) as [[a|e] w'] eqn:H; cbn;
      update_effect H; exists r; eexists; split_and!; eauto;
      (apply elem_of_cons in Hc as [?|Hc]; [by left|]);
      apply list_elem_of_singleton in Hc; by right.
  - unfold Room_lock_room, try_except, bind.
    destruct (db_execute _ w) as [[a|e] w'] eqn:H; cbn;
      update_effect H; eauto.
  - unfold Room_unlock_room, try_except, bind.
    destruct (db_execute _ w) as [[a|e] w'] eqn:H; cbn;
      update_effect H; eauto.
  - unfold Room_archive_room, try_except, bind.
    destruct (db_execute _ w) as [[a|e] w'] eqn:H; cbn;
      update_effect H; eauto.
Qed.

Definition archive_key_invariant (m : gmap string RoomRow) : Prop :=
  forall id r, m !! id = Some r ->
    (is_Some (r_archive_key r) <-> r_status r = archived).

Lemma op_effect_invariant op m m' :
  op_effect op m m' -> archive_key_invariant m -> archive_key_invariant m'.
Proof.
  intros [->|Heff] Hinv; [done|].
  intros id' r'.
  destruct op as [|id|id reason|id|id|id key].
  - destruct Heff as (id & now & Hnone & ->).
    intros [[<- <-]|[_ ?]]%lookup_insert_Some; [|by eapply Hinv].
    cbn. split; [by intros [? [=]]|done].
  - destruct Heff as (r & a & e & Hr & Hst & ->).
    intros [[<- <-]|[_ ?]]%lookup_insert_Some; [|by eapply Hinv].
    cbn. specialize (Hinv _ _ Hr). rewrite Hst in Hinv.
    split; [intros Hk%Hinv; done|done].
  - destruct Heff as (r & t & Hr & Hst & ->).
    intros [[<- <-]|[_ ?]]%lookup_insert_Some; [|by eapply Hinv].
    cbn. specialize (Hinv _ _ Hr).
    split; [intros Hk%Hinv; destruct Hst; congruence|done].
  - destruct Heff as (r & Hr & Hst & ->).
    intros [[<- <-]|[_ ?]]%lookup_insert_Some; [|by eapply Hinv].
    cbn. specialize (Hinv _ _ Hr).
    split; [intros Hk%Hinv; congruence|done].
  - destruct Heff as (r & Hr & Hst & ->).
    intros [[<- <-]|[_ ?]]%lookup_insert_Some; [|by eapply Hinv].
    cbn. specialize (Hinv _ _ Hr).
    split; [intros Hk%Hinv; congruence|done].
  - destruct Heff as (r & Hr & Hst & ->).
    intros [[<- <-]|[_ ?]]%lookup_insert_Some; [|by eapply Hinv].
    cbn. split; [done|by eexists].
Qed.

Lemma reachable_invariant w :
  reachable w -> archive_key_invariant (t_rooms (w_db w)).
Proof.
  induction 1 as [w Hempty|w op _ IH|w w' _ IH Heq].
  - intros id r. rewrite Hempty, lookup_empty. done.
  - eapply op_effect_invariant; [apply run_op_effect|done].
  - by rewrite Heq.
Qed.

(** C9. In every world reachable through the operations of
    [models/rooms.py] from an empty [rooms] table, a room's [archive_key]
    is set if and only if its status is [archived]. And an operation that
    changes a room's [archive_key], or makes its status [archived], is
    [Room.archive_room] on a room that was [closed], which sets both. *)
Theorem archive_key_iff_archived :
  (forall w, reachable w ->
     forall id r, t_rooms (w_db w) !! id = Some r ->
       (is_Some (r_archive_key r) <-> r_status r = archived))
  /\ (forall w op id r',
        t_rooms (w_db (run_op op w).2) !! id = Some r' ->
        (r_archive_key r' <> (t_rooms (w_db w) !! id) ≫= r_archive_key
         \/ (r_status r' = archived
             /\ r_status <$> (t_rooms (w_db w) !! id) <> Some archived)) ->
        exists key r,
          op = OpArchive id key
          /\ t_rooms (w_db w) !! id = Some r
          /\ r_status r = closed
          /\ r_status r' = archived
          /\ r_archive_key r' = Some key).
Proof.
  split.
  - intros w Hw. by apply reachable_invariant.
  - intros w op id r' Hafter Hchg.
    pose proof (run_op_effect op w) as [Hsame|Heff].
    { rewrite Hsame in Hafter. rewrite Hafter in Hchg. cbn in Hchg.
      destruct Hchg as [?|[? ?]]; congruence. }
    destruct op as [|id0|id0 reason|id0|id0|id0 key].
    + destruct Heff as (id0 & now & Hnone & Heq). rewrite Heq in Hafter.
      apply lookup_insert_Some in Hafter as [[<- <-]|[Hne Hold]].
      * rewrite Hnone in Hchg. cbn in Hchg. destruct Hchg as [?|[? ?]]; done.
      * rewrite Hold in Hchg. cbn in Hchg. destruct Hchg as [?|[? ?]]; congruence.
    + destruct Heff as (r & a & e & Hr & Hst & Heq). rewrite Heq in Hafter.
      apply lookup_insert_Some in Hafter as [[<- <-]|[Hne Hold]].
      * rewrite Hr in Hchg. cbn in Hchg. destruct Hchg as [?|[? ?]]; done.
      * rewrite Hold in Hchg. cbn in Hchg. destruct Hchg as [?|[? ?]]; congruence.
    + destruct Heff as (r & t & Hr & Hst & Heq). rewrite Heq in Hafter.
      apply lookup_insert_Some in Hafter as [[<- <-]|[Hne Hold]].
      * rewrite Hr in Hchg. cbn in Hchg. destruct Hchg as [?|[? ?]]; done.
      * rewrite Hold in Hchg. cbn in Hchg. destruct Hchg as [?|[? ?]]; congruence.
    + destruct Heff as (r & Hr & Hst & Heq). rewrite Heq in Hafter.
      apply lookup_insert_Some in Hafter as [[<- <-]|[Hne Hold]].
      * rewrite Hr in Hchg. cbn in Hchg. destruct Hchg as [?|[? ?]]; done.
      * rewrite Hold in Hchg. cbn in Hchg. destruct Hchg as [?|[? ?]]; congruence.
    + destruct Heff as (r & Hr & Hst & Heq). rewrite Heq in Hafter.
      apply lookup_insert_Some in Hafter as [[<- <-]|[Hne Hold]].
      * rewrite Hr in Hchg. cbn in Hchg. destruct Hchg as [?|[? ?]]; done.
      * rewrite Hold in Hchg. cbn in Hchg. destruct Hchg as [?|[? ?]]; congruence.
    + destruct Heff as (r & Hr & Hst & Heq). rewrite Heq in Hafter.
      apply lookup_insert_Some in Hafter as [[<- <-]|[Hne Hold]].
      * exists key, r. done.
      * rewrite Hold in Hchg. cbn in Hchg. destruct Hchg as [?|[? ?]]; congruence.
Qed.

(** ** Running handlers *)

(** Projections of a world after a chain of field updates. *)
Ltac wsimpl :=
  cbn [w_db w_connections w_sessions w_storage w_minio w_faults w_clock w_rng
       w_cookie w_outbox set_db set_registry set_storage set_minio set_faults
       set_rng set_cookie set_outbox t_rooms t_room_keys t_participants
       seq_participants t_messages seq_messages set_rooms set_room_keys
       set_participants set_messages fst snd negb orb andb] in *.

Ltac mstep := repeat (progress (cbv beta; wsimpl)).

Ltac munfold :=
  unfold bind, ret, try_except, utcnow, with_rng, lift_result, raise,
    db_execute, db_select, run_statement.

(** Name the fields of a world and of its tables. *)
Ltac open_world w :=
  let d := fresh "d" in
  destruct w as [d W_conns W_sess W_storage W_minio W_faults W_clock W_rng
                   W_cookie W_outbox];
  destruct d as [D_rooms D_keys D_parts D_pseq D_msgs D_mseq]; wsimpl.

Lemma existsb_same_device_room_empty room_id device_id (d : Db) :
  room_participants room_id d = [] ->
  existsb (same_device room_id device_id) (t_participants d) = false.
Proof.
  unfold room_participants. intros Hnil.
  apply not_true_is_false. intros (p & Hin & Hp)%existsb_exists.
  unfold same_device in Hp. apply andb_true_iff in Hp as [Hp _].
  apply bool_decide_eq_true in Hp.
  assert (p ∈ filter (fun p => p_room_id p = room_id) (t_participants d)) as Hmem.
  { apply list_elem_of_filter. split; [done|]. by apply list_elem_of_In. }
  rewrite Hnil in Hmem. by apply elem_of_nil in Hmem.
Qed.

Lemma room_participants_app room_id (d : Db) ps n :
  room_participants room_id (set_participants (t_participants d ++ ps) n d)
  = room_participants room_id d ++ filter (fun p => p_room_id p = room_id) ps.
Proof. unfold room_participants. cbn. apply filter_app. Qed.

Section AcceptFacts.
Context {cipher : AesGcm}.
Variable crypto_service : CryptoService.
Hypothesis master_key_length : length (master_key crypto_service) = 32%nat.

(** The wrapped key that [accept_room] stores: drawn after the 32 bytes of
    the room key. *)
Definition accept_room_key (w : World) : bytes := (token_bytes 32 (w_rng w)).1.

Definition accept_wrapped_key (w : World) : bytes :=
  let nonce := (token_bytes 12 (rng_skip 32 (w_rng w))).1 in
  nonce ++ gcm_seal (master_key crypto_service) nonce (accept_room_key w).

Definition accept_host_row (room_id : string) (jwt : TokenData) (ip : string)
    (w : World) : ParticipantRow :=
  {| p_id := S (seq_participants (w_db w)); p_room_id := room_id; p_role := host;
     p_device_id := td_device_id jwt; p_display_name := None;
     p_ip_address := Some ip; p_joined_at := w_clock w |}.

(** The steps of [accept_room] up to the status flip. *)
Ltac accept_prefix Hr Hst :=
  unfold accept_room;
  rewrite !bool_decide_eq_true_2 by done; cbn [negb orb];
  unfold Room_get_room; munfold; wsimpl; rewrite Hr;
  rewrite bool_decide_eq_true_2 by done; cbn [negb];
  unfold Room_accept_room; munfold; wsimpl.

Ltac accept_flip Hr Hst :=
  unfold sql_update_room; wsimpl; rewrite Hr;
  unfold status_is; rewrite bool_decide_eq_true_2 by done;
  wsimpl; rewrite bool_decide_eq_true_2 by done; cbn [negb];
  unfold generate_room_key, token_bytes; wsimpl;
  rewrite encrypt_room_key_spec by done; wsimpl.

(** C1, as the code has it. With a host token for a pending room that has
    no participant yet, and the room lookup going through, [accept_room]
    runs the status flip, the insertion of the wrapped key and the
    insertion of the host participant as three transactions, each
    committed on its own, in this order ([f2], [f3], [f4] are their
    outcomes): a failed flip leaves the tables as they were; a failed key
    insertion leaves the room active with no key and no participant; a
    failed participant insertion leaves it active with the key and no
    participant; when all three go through, all three rows are there. *)
Theorem accept_room_commits_stepwise
    (room_id : string) (jwt : TokenData) (ip : string) (w : World)
    (r : RoomRow) (f2 f3 f4 : option exn) (fs : list (option exn)) :
  td_room_id jwt = room_id -> td_role jwt = host ->
  t_rooms (w_db w) !! room_id = Some r -> r_status r = pending ->
  room_participants room_id (w_db w) = [] ->
  w_faults w = None :: f2 :: f3 :: f4 :: fs ->
  exists resp w',
    accept_room crypto_service room_id jwt ip w = (Ok resp, w')
    /\ let activated :=
         <[room_id := with_accepted (w_clock w) (w_clock w + hours24) r]>
           (t_rooms (w_db w)) in
       match f2, f3, f4 with
       | Some _, _, _ =>
           resp = error_response "Failed to accept room" 500
           /\ w_db w' = w_db w
       | None, Some _, _ =>
           resp = error_response "Internal server error" 500
           /\ t_rooms (w_db w') = activated
           /\ t_room_keys (w_db w') = t_room_keys (w_db w)
           /\ t_participants (w_db w') = t_participants (w_db w)
       | None, None, Some _ =>
           resp = ([("success", JBool true); ("status", JStr "active")], 200%nat)
           /\ t_rooms (w_db w') = activated
           /\ t_room_keys (w_db w') =
                t_room_keys (w_db w) ++ [(room_id, accept_wrapped_key w)]
           /\ t_participants (w_db w') = t_participants (w_db w)
       | None, None, None =>
           snd resp = 200%nat
           /\ body_get "participant_id" (fst resp)
              = Some (JNat (p_id (accept_host_row room_id jwt ip w)))
           /\ body_get "room_key" (fst resp) = Some (JB64 (accept_room_key w))
           /\ t_rooms (w_db w') = activated
           /\ t_room_keys (w_db w') =
                t_room_keys (w_db w) ++ [(room_id, accept_wrapped_key w)]
           /\ t_participants (w_db w') =
                t_participants (w_db w) ++ [accept_host_row room_id jwt ip w]
       end.
Proof.
  intros Hrid Hrole Hr Hst Hnp Hf.
  pose proof (existsb_same_device_room_empty room_id (td_device_id jwt) _ Hnp) as Hex.
  unfold accept_wrapped_key, accept_room_key, accept_host_row.
  open_world w. subst.
  accept_prefix Hr Hst.
  destruct f2 as [e2|].
  { wsimpl. cbn [negb]. do 2 eexists. split; [done|]. by wsimpl. }
  accept_flip Hr Hst.
  destruct f3 as [e3|].
  { wsimpl. do 2 eexists. split; [done|]. by wsimpl. }
  wsimpl. unfold Participant_create_participant. munfold. wsimpl.
  destruct f4 as [e4|].
  { wsimpl. do 2 eexists. split; [done|]. by wsimpl. }
  unfold sql_insert_participant. wsimpl. rewrite Hex. wsimpl.
  do 2 eexists. split; [done|]. by wsimpl.
Qed.

(** C10. When the room lookup, the status flip and the key insertion go
    through and the insertion of the host participant raises (so that
    [create_participant] returns no row), [accept_room] still answers 200
    with [{success: true, status: 'active'}]: the body has no
    [participant_token], no [participant_id] and no [room_key]; the room
    is active, its wrapped key is stored (and unwraps to the generated
    key), and the room has no participant. *)
Theorem accept_room_without_participant
    (room_id : string) (jwt : TokenData) (ip : string) (w : World)
    (r : RoomRow) (e : exn) (fs : list (option exn)) :
  td_room_id jwt = room_id -> td_role jwt = host ->
  t_rooms (w_db w) !! room_id = Some r -> r_status r = pending ->
  room_participants room_id (w_db w) = [] ->
  w_faults w = None :: None :: None :: Some e :: fs ->
  exists body w',
    accept_room crypto_service room_id jwt ip w = (Ok (body, 200%nat), w')
    /\ body = [("success", JBool true); ("status", JStr "active")]
    /\ body_get "participant_token" body = None
    /\ body_get "participant_id" body = None
    /\ body_get "room_key" body = None
    /\ r_status <$> (t_rooms (w_db w') !! room_id) = Some active
    /\ (exists wrapped,
          t_room_keys (w_db w') = t_room_keys (w_db w) ++ [(room_id, wrapped)]
          /\ decrypt_room_key crypto_service wrapped = Ok (accept_room_key w))
    /\ room_participants room_id (w_db w') = [].
Proof.
  intros Hrid Hrole Hr Hst Hnp Hf.
  unfold accept_room_key. open_world w. subst.
  accept_prefix Hr Hst. accept_flip Hr Hst.
  unfold Participant_create_participant. munfold. wsimpl.
  do 2 eexists. split; [done|].
  split_and!; try done.
  - wsimpl. by rewrite lookup_insert_eq.
  - wsimpl. eexists. split; [done|].
    apply decrypt_room_key_wrapped; [done|]. apply token_bytes_length.
Qed.

End AcceptFacts.

(** ** Example worlds *)

Definition empty_db : Db :=
  {| t_rooms := ∅; t_room_keys := []; t_participants := []; seq_participants := 0;
     t_messages := []; seq_messages := 0 |}.

Definition connection_lost : exn :=
  Psycopg2Error "server closed the connection unexpectedly".

(** A deployment whose only room, [Ab12], is pending; [faults] is the
    outcome of the calls to come. *)
Definition pending_world (faults : list (option exn)) : World :=
  {| w_db := set_rooms {[ "Ab12" := new_room "Ab12" 1000%Z ]} empty_db;
     w_connections := ∅; w_sessions := ∅;
     w_storage := {| st_client := false; _client_initialized := false |};
     w_minio := ∅; w_faults := faults;
     w_clock := 2000%Z; w_rng := example_rng; w_cookie := None; w_outbox := [] |}.

Definition host_jwt : TokenData :=
  {| td_room_id := "Ab12"; td_participant_id := None; td_role := host;
     td_device_id := 77%Z |}.

Lemma example_master_key_length : length (master_key example_crypto) = 32%nat.
Proof. reflexivity. Qed.

(** ** C1: the accept handler is not one transaction *)

(** The claim in the spec's words: whatever happens during an accept of a
    pending room, either the flip, the key and the participant are all
    persisted, or the room is still pending and neither a key nor a
    participant row was added. *)
Definition accept_is_atomic {cipher : AesGcm} (cs : CryptoService) : Prop :=
  forall room_id jwt ip w r resp w',
    td_room_id jwt = room_id -> td_role jwt = host ->
    t_rooms (w_db w) !! room_id = Some r -> r_status r = pending ->
    accept_room cs room_id jwt ip w = (resp, w') ->
    (r_status <$> (t_rooms (w_db w') !! room_id) = Some active
     /\ length (t_room_keys (w_db w')) = S (length (t_room_keys (w_db w)))
     /\ length (t_participants (w_db w')) = S (length (t_participants (w_db w))))
    \/ (r_status <$> (t_rooms (w_db w') !! room_id) = Some pending
        /\ t_room_keys (w_db w') = t_room_keys (w_db w)
        /\ t_participants (w_db w') = t_participants (w_db w)).

(** The insertion of the wrapped key raises after the flip was committed:
    the handler answers 500 and the room is active, without key and
    without participant. *)
Lemma accept_room_not_atomic : ~ @accept_is_atomic ToyGcm example_crypto.
Proof.
  intros Hatomic.
  pose (w := pending_world [None; None; Some connection_lost]).
  pose (out := @accept_room ToyGcm example_crypto "Ab12" host_jwt "10.0.0.1" w).
  specialize (Hatomic "Ab12" host_jwt "10.0.0.1" w (new_room "Ab12" 1000%Z)
                out.1 out.2 eq_refl eq_refl eq_refl eq_refl
                (surjective_pairing out)).
  vm_compute in Hatomic.
  destruct Hatomic as [(_ & Hkeys & _)|(Hst & _)]; discriminate.
Qed.

Lemma accept_room_commits_stepwise_witness :
  exists resp w',
    @accept_room ToyGcm example_crypto "Ab12" host_jwt "10.0.0.1"
      (pending_world [None; None; None; None]) = (Ok resp, w')
    /\ snd resp = 200%nat
    /\ body_get "participant_id" (fst resp) = Some (JNat 1)
    /\ body_get "room_key" (fst resp)
       = Some (JB64 (accept_room_key (pending_world [None; None; None; None])))
    /\ t_rooms (w_db w') =
         <[ "Ab12" := with_accepted 2000%Z (2000 + hours24)%Z (new_room "Ab12" 1000%Z) ]>
           (t_rooms (w_db (pending_world [None; None; None; None])))
    /\ t_room_keys (w_db w') =
         [("Ab12", @accept_wrapped_key ToyGcm example_crypto
                     (pending_world [None; None; None; None]))]
    /\ t_participants (w_db w') =
         [accept_host_row "Ab12" host_jwt "10.0.0.1"
            (pending_world [None; None; None; None])].
Proof.
  exact (@accept_room_commits_stepwise ToyGcm example_crypto
           example_master_key_length "Ab12" host_jwt "10.0.0.1"
           (pending_world [None; None; None; None]) (new_room "Ab12" 1000%Z)
           None None None [] eq_refl eq_refl eq_refl eq_refl eq_refl eq_refl).
Defined.

Lemma accept_room_without_participant_witness :
  exists body w',
    @accept_room ToyGcm example_crypto "Ab12" host_jwt "10.0.0.1"
      (pending_world [None; None; None; Some connection_lost]) = (Ok (body, 200%nat), w')
    /\ body = [("success", JBool true); ("status", JStr "active")]
    /\ body_get "participant_token" body = None
    /\ body_get "participant_id" body = None
    /\ body_get "room_key" body = None
    /\ r_status <$> (t_rooms (w_db w') !! "Ab12") = Some active
    /\ (exists wrapped,
          t_room_keys (w_db w') =
            t_room_keys (w_db (pending_world [None; None; None; Some connection_lost]))
            ++ [("Ab12", wrapped)]
          /\ @decrypt_room_key ToyGcm example_crypto wrapped
             = Ok (accept_room_key (pending_world [None; None; None; Some connection_lost])))
    /\ room_participants "Ab12" (w_db w') = [].
Proof.
  exact (@accept_room_without_participant ToyGcm example_crypto
           example_master_key_length "Ab12" host_jwt "10.0.0.1"
           (pending_world [None; None; None; Some connection_lost])
           (new_room "Ab12" 1000%Z) connection_lost []
           eq_refl eq_refl eq_refl eq_refl eq_refl eq_refl).
Defined.

(** ** C4: [POST /rooms] *)

Lemma call_keywords_unexpected {A} fname k (f : M A) w :
  call_keywords fname [] [k] f w
  = (Raise (TypeError (fname +:+ "() got an unexpected keyword argument " +:+ k)), w).
Proof.
  unfold call_keywords.
  rewrite filter_cons_True by (apply not_elem_of_nil). done.
Qed.

(** C4, on the code: the handler calls [Room.create_room(room_id=room_id)],
    but the method takes no parameter, so the call raises [TypeError]
    before any room id is tried; the handler's [except] turns it into a
    500. Whatever the body (an id supplied or not) and whatever the state,
    no room is created and nothing else changes. *)
Theorem create_room_rejects_every_request
    (request_json : option (list (string * jval))) (w : World) :
  create_room request_json w
  = (Ok (error_response "Internal server error" 500), w).
Proof.
  unfold create_room, try_except, bind, Room_create_room_params.
  by rewrite call_keywords_unexpected.
Qed.

(** *** The model method

    [Room.create_room()] on its own does retry, a bounded number of
    times: it draws at most [max_attempts] candidate ids of 4 characters,
    inserts the first one that is free, and raises once the attempts are
    used up. *)
Lemma create_room_loop_exhausted w :
  create_room_loop 0 w
  = (Raise (OtherError "Failed to generate unique room ID after multiple attempts"), w).
Proof. reflexivity. Qed.

Lemma create_room_loop_free n w :
  w_faults w = [] ->
  t_rooms (w_db w) !! (generate_room_id (w_rng w)).1 = None ->
  exists w',
    create_room_loop (S n) w
    = (Ok (new_room (generate_room_id (w_rng w)).1 (w_clock w)), w')
    /\ t_rooms (w_db w')
       = <[(generate_room_id (w_rng w)).1 :=
             new_room (generate_room_id (w_rng w)).1 (w_clock w)]> (t_rooms (w_db w)).
Proof.
  intros Hf Hfree. cbn [create_room_loop]. unfold bind at 1, with_rng.
  destruct (generate_room_id (w_rng w)) as [room_id r']. cbn [fst] in *.
  unfold try_except, bind, utcnow, db_execute, run_statement, sql_insert_room.
  wsimpl. rewrite Hf, Hfree. eexists. split; [done|]. by wsimpl.
Qed.

Lemma create_room_loop_taken n w :
  w_faults w = [] ->
  is_Some (t_rooms (w_db w) !! (generate_room_id (w_rng w)).1) ->
  create_room_loop (S n) w
  = create_room_loop n (set_rng (generate_room_id (w_rng w)).2 w).
Proof.
  intros Hf [r Htaken]. cbn [create_room_loop]. unfold bind at 1, with_rng.
  destruct (generate_room_id (w_rng w)) as [room_id r']. cbn [fst snd] in *.
  unfold try_except, bind, utcnow, db_execute, run_statement, sql_insert_room.
  wsimpl. rewrite Hf, Htaken. by rewrite is_duplicate_key_rooms_pkey.
Qed.


Lemma create_room_loop_attempts n w :
  exists k, (k <= n)%nat
            /\ forall i, w_rng (create_room_loop n w).2 i = w_rng w (4 * k + i)%nat.
Proof.
  revert w. induction n as [|n IH]; intros w.
  { exists 0%nat. split; [done|]. intros i. done. }
  cbn [create_room_loop]. unfold bind at 1, with_rng.
  destruct (generate_room_id (w_rng w)) as [room_id r'] eqn:Hgen.
  assert (Hr' : r' = rng_skip 4 (w_rng w)) by (by injection Hgen as _ <-).
  assert (Hw1 : w_rng (set_rng r' w) = rng_skip 4 (w_rng w)) by (by rewrite Hr').
  revert Hw1. generalize (set_rng r' w). intros w1 Hw1.
  assert (Hnext : forall w2, w_rng w2 = w_rng w1 ->
            exists k, (k <= S n)%nat
              /\ forall i, w_rng (create_room_loop n w2).2 i = w_rng w (4 * k + i)%nat).
  { intros w2 Hw2. destruct (IH w2) as (k & Hk & Hi). exists (S k). split; [lia|].
    intros i. rewrite Hi, Hw2, Hw1. unfold rng_skip. f_equal. lia. }
  assert (Hstop : forall w2 : World, w_rng w2 = w_rng w1 ->
            exists k, (k <= S n)%nat /\ forall i, w_rng w2 i = w_rng w (4 * k + i)%nat).
  { intros w2 Hw2. exists 1%nat. split; [lia|]. intros i. by rewrite Hw2, Hw1. }
  unfold try_except, bind, utcnow, db_execute, run_statement, sql_insert_room.
  destruct (w_faults w1) as [|[e|] fs] eqn:Hf.
  - destruct (t_rooms (w_db w1) !! room_id) eqn:Hr.
    + rewrite is_duplicate_key_rooms_pkey. by apply Hnext.
    + by apply Hstop.
  - destruct (is_duplicate_key e); [by apply Hnext|by apply Hstop].
  - cbn [w_db set_faults].
    destruct (t_rooms (w_db w1) !! room_id) eqn:Hr.
    + rewrite is_duplicate_key_rooms_pkey. by apply Hnext.
    + by apply Hstop.
Qed.

(** ** C2: the fresh join path *)

Section JoinFacts.
Context {cipher : AesGcm}.
Variable crypto_service : CryptoService.

Lemma fetch_room_key_nofault room_id w :
  w_faults w = [] -> exists k, fetch_room_key crypto_service room_id w = (Ok k, w).
Proof.
  intros Hf. unfold fetch_room_key. munfold. rewrite Hf.
  destruct (sql_select_room_key room_id (w_db w)) as [enc|]; [|by eexists].
  destruct (decrypt_room_key crypto_service enc); by eexists.
Qed.

Definition join_device_id (w : World) : DeviceId :=
  match w_cookie w with
  | Some d => d
  | None => (w_rng w 0%nat mod 2 ^ 128)%Z
  end.

Definition joined_row (room_id ip : string) (role : Role) (w : World) : ParticipantRow :=
  {| p_id := S (seq_participants (w_db w)); p_room_id := room_id; p_role := role;
     p_device_id := join_device_id w; p_display_name := None;
     p_ip_address := Some ip; p_joined_at := w_clock w |}.

(** C2. With no database fault during the request, for a room that is
    [active] or [locked] and not expired, and a caller whose device has no
    participant row in the room: with [live] the number of registered
    connections of the room and [persisted] the number of its participant
    rows, [join_room] answers 409 and changes no table when
    [max live persisted >= 2]; otherwise it answers 201, the role is
    [host] exactly when [persisted = 0] and [guest] otherwise, the
    participant row is appended (so the room has [persisted + 1] rows),
    and the room's status is [locked] exactly when that new count is 2 and
    unchanged otherwise. *)
Theorem join_room_fresh room_id ip w r :
  w_faults w = [] ->
  t_rooms (w_db w) !! room_id = Some r ->
  (r_status r = active \/ r_status r = locked) ->
  is_expired (w_clock w) r = false ->
  existsb (same_device room_id (join_device_id w)) (t_participants (w_db w)) = false ->
  let live := size (room_connections_of (w_connections w) room_id) in
  let persisted := length (room_participants room_id (w_db w)) in
  exists resp w',
    join_room crypto_service room_id ip w = (Ok resp, w')
    /\ if bool_decide (2 <= Nat.max live persisted)%nat
       then snd resp = 409%nat /\ w_db w' = w_db w
       else
         let role := if bool_decide (persisted = 0%nat) then host else guest in
         snd resp = 201%nat
         /\ body_get "role" (fst resp) = Some (JRole role)
         /\ body_get "participant_id" (fst resp)
            = Some (JNat (p_id (joined_row room_id ip role w)))
         /\ t_participants (w_db w')
            = t_participants (w_db w) ++ [joined_row room_id ip role w]
         /\ length (room_participants room_id (w_db w')) = S persisted
         /\ r_status <$> (t_rooms (w_db w') !! room_id)
            = Some (if bool_decide (S persisted = 2%nat) then locked else r_status r).
Proof.
  intros Hf Hr Hst Hexp Hfresh live persisted.
  assert (Hin : status_in [active; locked] r = true).
  { apply bool_decide_eq_true. destruct Hst as [-> | ->]; set_solver. }
  assert (Hfind : head (filter (fun p => same_device room_id (join_device_id w) p = true)
                         (t_participants (w_db w))) = None).
  { destruct (filter _ _) as [|p ps] eqn:Hfl; [done|].
    assert (p ∈ filter (fun p => same_device room_id (join_device_id w) p = true)
                  (t_participants (w_db w))) as Hp by (rewrite Hfl; left).
    apply list_elem_of_filter in Hp as [Hp Hmem].
    apply not_true_iff_false in Hfresh. exfalso. apply Hfresh.
    apply existsb_exists. exists p. split; [by apply list_elem_of_In|done]. }
  subst live persisted. unfold joined_row, join_device_id in *.
  unfold join_room. unfold Room_get_room. munfold. rewrite Hf, Hr.
  rewrite Hin. cbn [negb]. rewrite Hexp.
  unfold get_or_create_device_id, generate_device_id, get_connection_count,
    Participant_get_participant_by_device, Participant_count_participants,
    Participant_create_participant, sql_insert_participant.
  munfold.
  assert (Hcount : forall n row, p_room_id row = room_id ->
            length (room_participants room_id
                      (set_participants (t_participants (w_db w) ++ [row]) n (w_db w)))
            = S (length (room_participants room_id (w_db w)))).
  { intros n row Hrow. rewrite room_participants_app, length_app.
    rewrite filter_cons_True by done. cbn. lia. }
  open_world w. subst.
  destruct W_cookie as [d|]; wsimpl; rewrite Hfind; wsimpl.
  all: remember (length (room_participants room_id _)) as n eqn:Hn in Hcount |- *.
  all: clear Hn.
  all: case_bool_decide as Hfull; [do 2 eexists; split; [done|]; by wsimpl|].
  all: wsimpl; rewrite Hfresh; wsimpl.
  all: unfold Room_lock_room, sql_update_room; munfold; wsimpl.
  all: assert (n = 0 \/ n = 1)%nat as [-> | ->] by lia.
  all: rewrite ?(bool_decide_eq_true_2 (0 = 0)%nat), ?(bool_decide_eq_true_2 (1 = 1)%nat),
         ?(bool_decide_eq_true_2 (2 = 2)%nat), ?(bool_decide_eq_false_2 (0 = 1)%nat),
         ?(bool_decide_eq_false_2 (1 = 0)%nat), ?(bool_decide_eq_false_2 (1 = 2)%nat) by done.
  all: wsimpl; rewrite ?Hr; unfold status_is.
  all: try (destruct Hst as [Hs|Hs]; rewrite Hs;
            rewrite ?(bool_decide_eq_true_2 (active = active)),
              ?(bool_decide_eq_false_2 (locked = active)) by done; wsimpl).
  all: match goal with
       | |- context [fetch_room_key _ ?rid ?W] =>
           destruct (fetch_room_key_nofault rid W eq_refl) as [k ->]
       end.
  all: do 2 eexists; (split; [done|]); wsimpl; split_and!; try done.
  all: try (by apply Hcount).
  all: rewrite ?lookup_insert_eq, ?Hr; cbn; by rewrite ?Hs.
Qed.

End JoinFacts.

(** ** C7: the disconnect handler *)

Definition connections_after_remove (cs : gmap string (gmap nat string))
    (room_id : string) (participant_id : nat) : gmap string (gmap nat string) :=
  match cs !! room_id with
  | Some conns =>
      if bool_decide (delete participant_id conns = ∅)
      then delete room_id cs
      else <[room_id := delete participant_id conns]> cs
  | None => cs
  end.

Lemma room_connections_after_remove cs room_id pid :
  room_connections_of (connections_after_remove cs room_id pid) room_id
  = delete pid (room_connections_of cs room_id).
Proof.
  unfold connections_after_remove, room_connections_of.
  destruct (cs !! room_id) as [conns|] eqn:Hc; cbn.
  - case_bool_decide as He.
    + rewrite lookup_delete_eq. cbn. by rewrite He.
    + by rewrite lookup_insert_eq.
  - rewrite Hc. cbn. by rewrite delete_empty.
Qed.

Lemma mark_connected_run room_id ps w :
  mark_connected room_id ps w
  = (Ok ((fun p => {| ps_row := p;
                      ps_is_connected :=
                        bool_decide (is_Some (room_connections_of (w_connections w) room_id
                                                !! p_id p)) |}) <$> ps), w).
Proof.
  induction ps as [|p ps IH]; [done|].
  cbn [mark_connected]. unfold bind, is_participant_connected, ret.
  rewrite IH. done.
Qed.

Lemma cleanup_run room_id keep w :
  w_faults w = [] ->
  Participant_cleanup_inactive_participants room_id keep w
  = (Ok 0%nat,
     set_db (set_participants
               (filter (fun p => p_room_id p = room_id -> p_id p ∈ keep)
                       (t_participants (w_db w)))
               (seq_participants (w_db w)) (w_db w)) w).
Proof.
  intros Hf. unfold Participant_cleanup_inactive_participants.
  destruct keep as [|k keep]; munfold; rewrite Hf;
    unfold sql_delete_room_participants, sql_delete_participants_not_in; cbn.
  - do 3 f_equal. apply list_filter_iff. intros p. split.
    + intros Hne Heq. done.
    + intros Himp Heq. specialize (Himp Heq). by apply elem_of_nil in Himp.
  - do 3 f_equal. apply list_filter_iff. intros p. split.
    + intros Hn Heq. destruct (decide (p_id p ∈ k :: keep)); [done|]. exfalso. by apply Hn.
    + intros Himp [Heq Hnin]. by apply Hnin, Himp.
Qed.

Lemma elem_of_map_keys (m : gmap nat string) (k : nat) :
  k ∈ (map_to_list m).*1 <-> is_Some (m !! k).
Proof.
  rewrite list_elem_of_fmap. split.
  - intros ([k' v] & -> & Hin). apply elem_of_map_to_list in Hin. by eexists.
  - intros [v Hv]. exists (k, v). split; [done|]. by apply elem_of_map_to_list.
Qed.

Lemma length_map_keys (m : gmap nat string) :
  length (map_to_list m).*1 = size m.
Proof. by rewrite length_fmap, length_map_to_list. Qed.

(** C7. With no database fault during the handler, for a connection
    that [on_connect] registered (its session names the room and the
    participant, and the registry maps the socket id to them):
    [on_disconnect] takes the participant out of the room's registry
    entry, so that [is_participant_connected] is false for them, and drops
    the session; the participant's row is deleted, and so is every row of
    the room whose participant is not among the remaining connections;
    and when fewer than 2 connections remain and the room was [locked],
    its status becomes [active] (otherwise the room row is unchanged). *)
Theorem on_disconnect_cleans_up sid session w room_id pid role :
  w_faults w = [] ->
  ss_room_id session = Some room_id -> ss_participant_id session = Some pid ->
  room_id <> "" -> pid <> 0%nat ->
  w_sessions w !! sid
    = Some {| si_room_id := room_id; si_participant_id := pid; si_role := role |} ->
  exists w',
    on_disconnect sid session w = (Ok tt, w')
    /\ let live := room_connections_of (w_connections w') room_id in
       live = delete pid (room_connections_of (w_connections w) room_id)
       /\ (is_participant_connected room_id pid w').1 = Ok false
       /\ w_sessions w' !! sid = None
       /\ t_participants (w_db w')
          = filter (fun p => p_id p <> pid
                             /\ (p_room_id p = room_id -> is_Some (live !! p_id p)))
                   (t_participants (w_db w))
       /\ (forall r, t_rooms (w_db w) !! room_id = Some r ->
             t_rooms (w_db w') !! room_id
             = Some (if bool_decide (size live < 2 /\ r_status r = locked)%nat
                     then with_status active r else r)).
Proof.
  intros Hf Hrid Hpid Hne Hnz Hsess.
  match goal with |- exists w', _ = _ /\ @?P w' => set (Post := P) end.
  unfold on_disconnect. rewrite Hrid, Hpid.
  rewrite !bool_decide_eq_true_2 by done. cbn [andb].
  unfold try_except at 1. unfold bind at 1. unfold remove_connection.
  rewrite Hsess. cbn [si_room_id si_participant_id].
  fold (connections_after_remove (w_connections w) room_id pid).
  pose proof (room_connections_after_remove (w_connections w) room_id pid) as Hlive.
  revert Hlive Post.
  generalize (connections_after_remove (w_connections w) room_id pid) as cs'.
  intros cs' Hlive Post.
  unfold Participant_get_participant, Participant_remove_participant, emit,
    get_room_connections, sql_delete_participant. munfold.
  open_world w. subst. wsimpl.
  rewrite cleanup_run by reflexivity. wsimpl.
  rewrite length_map_keys.
  unfold Room_get_room, Room_unlock_room, Participant_get_room_participants,
    sql_update_room, status_is. munfold. wsimpl.
  assert (Hparts :
    filter (fun p => p_room_id p = room_id
                     -> p_id p ∈ (map_to_list (room_connections_of cs' room_id)).*1)
      (filter (fun p => p_id p <> pid) D_parts)
    = filter (fun p => p_id p <> pid
                       /\ (p_room_id p = room_id
                           -> is_Some (room_connections_of cs' room_id !! p_id p)))
        D_parts).
  { rewrite list_filter_filter. apply list_filter_iff. intros p.
    rewrite elem_of_map_keys. tauto. }
  assert (Hconn : room_connections_of cs' room_id !! pid = None).
  { by rewrite Hlive, lookup_delete_eq. }
  assert (Hdel : delete sid W_sess !! sid = None) by apply lookup_delete_eq.
  case_bool_decide as Hlt; mstep.
  - destruct (D_rooms !! room_id) as [r|] eqn:Hr; mstep.
    + case_bool_decide as Hlocked; mstep.
      * rewrite Hr. rewrite bool_decide_eq_true_2 by done. mstep.
        rewrite mark_connected_run. mstep.
        eexists. split; [done|]. subst Post. mstep.
        split_and!;
          first [ done
                | unfold is_participant_connected; mstep; by rewrite Hconn
                | intros r' [= <-]; rewrite lookup_insert_eq;
                  by rewrite bool_decide_eq_true_2 ].
      * rewrite mark_connected_run. mstep.
        eexists. split; [done|]. subst Post. mstep.
        split_and!;
          first [ done
                | unfold is_participant_connected; mstep; by rewrite Hconn
                | intros r' [= <-]; rewrite Hr;
                  rewrite bool_decide_eq_false_2; [done|]; by intros [_ ?] ].
    + rewrite mark_connected_run. mstep.
      eexists. split; [done|]. subst Post. mstep.
      split_and!;
        first [ done | unfold is_participant_connected; mstep; by rewrite Hconn ].
  - rewrite mark_connected_run. mstep.
    eexists. split; [done|]. subst Post. mstep.
    split_and!;
      first [ done
            | unfold is_participant_connected; mstep; by rewrite Hconn
            | intros r Hr; rewrite Hr;
              rewrite bool_decide_eq_false_2; [done|]; by intros [? _] ].
Qed.

(** ** Examples for the join and disconnect handlers *)

Definition host_row : ParticipantRow :=
  {| p_id := 1; p_room_id := "Ab12"; p_role := host; p_device_id := 77%Z;
     p_display_name := Some "Ann"; p_ip_address := Some "10.0.0.1";
     p_joined_at := 2000%Z |}.

Definition guest_row : ParticipantRow :=
  {| p_id := 2; p_room_id := "Ab12"; p_role := guest; p_device_id := 88%Z;
     p_display_name := None; p_ip_address := Some "10.0.0.2";
     p_joined_at := 3000%Z |}.

Definition accepted_room : RoomRow :=
  with_accepted 2000%Z (2000 + hours24)%Z (new_room "Ab12" 1000%Z).

(** The room was accepted, the host is connected, and a second browser
    (device 88) is about to join. *)
Definition active_world : World :=
  {| w_db := {| t_rooms := {[ "Ab12" := accepted_room ]};
                t_room_keys := [("Ab12", @accept_wrapped_key ToyGcm example_crypto
                                           (pending_world []))];
                t_participants := [host_row]; seq_participants := 1;
                t_messages := []; seq_messages := 0 |};
     w_connections := {[ "Ab12" := {[ 1%nat := "sid-host" ]} ]};
     w_sessions := {[ "sid-host" := {| si_room_id := "Ab12"; si_participant_id := 1;
                                       si_role := host |} ]};
     w_storage := {| st_client := false; _client_initialized := false |};
     w_minio := ∅; w_faults := [];
     w_clock := 3000%Z; w_rng := example_rng; w_cookie := Some 88%Z;
     w_outbox := [] |}.

(** Host and guest are both in the room and connected; it is locked. *)
Definition locked_world : World :=
  {| w_db := {| t_rooms := {[ "Ab12" := with_status locked accepted_room ]};
                t_room_keys := [("Ab12", @accept_wrapped_key ToyGcm example_crypto
                                           (pending_world []))];
                t_participants := [host_row; guest_row]; seq_participants := 2;
                t_messages := []; seq_messages := 0 |};
     w_connections := {[ "Ab12" := {[ 1%nat := "sid-host"; 2%nat := "sid-guest" ]} ]};
     w_sessions := {[ "sid-host" := {| si_room_id := "Ab12"; si_participant_id := 1;
                                       si_role := host |};
                      "sid-guest" := {| si_room_id := "Ab12"; si_participant_id := 2;
                                        si_role := guest |} ]};
     w_storage := {| st_client := false; _client_initialized := false |};
     w_minio := ∅; w_faults := [];
     w_clock := 4000%Z; w_rng := example_rng; w_cookie := None;
     w_outbox := [] |}.

Definition guest_session : SocketSession :=
  {| ss_room_id := Some "Ab12"; ss_participant_id := Some 2%nat;
     ss_role := Some guest |}.

Lemma join_room_fresh_witness :
  exists resp w',
    @join_room ToyGcm example_crypto "Ab12" "10.0.0.2" active_world = (Ok resp, w')
    /\ snd resp = 201%nat
    /\ body_get "role" (fst resp) = Some (JRole guest)
    /\ body_get "participant_id" (fst resp) = Some (JNat 2)
    /\ t_participants (w_db w')
       = [host_row; joined_row "Ab12" "10.0.0.2" guest active_world]
    /\ length (room_participants "Ab12" (w_db w')) = 2%nat
    /\ r_status <$> (t_rooms (w_db w') !! "Ab12") = Some locked.
Proof.
  exact (@join_room_fresh ToyGcm example_crypto "Ab12" "10.0.0.2" active_world
           accepted_room eq_refl eq_refl (or_introl eq_refl) eq_refl eq_refl).
Defined.

Lemma on_disconnect_cleans_up_witness :
  exists w',
    on_disconnect "sid-guest" guest_session locked_world = (Ok tt, w')
    /\ room_connections_of (w_connections w') "Ab12"
       = delete 2%nat (room_connections_of (w_connections locked_world) "Ab12")
    /\ (is_participant_connected "Ab12" 2 w').1 = Ok false
    /\ w_sessions w' !! "sid-guest" = None
    /\ t_participants (w_db w')
       = filter (fun p => p_id p <> 2%nat
                          /\ (p_room_id p = "Ab12"
                              -> is_Some (room_connections_of (w_connections w') "Ab12"
                                            !! p_id p)))
                [host_row; guest_row]
    /\ (forall r, t_rooms (w_db locked_world) !! "Ab12" = Some r ->
          t_rooms (w_db w') !! "Ab12"
          = Some (if bool_decide
                       (size (room_connections_of (w_connections w') "Ab12") < 2
                        /\ r_status r = locked)%nat
                  then with_status active r else r)).
Proof.
  exact (on_disconnect_cleans_up "sid-guest" guest_session locked_world "Ab12" 2 guest
           eq_refl eq_refl eq_refl ltac:(discriminate) ltac:(discriminate) eq_refl).
Defined.

(** What the two examples come to. *)
Example join_room_example :
  let out := @join_room ToyGcm example_crypto "Ab12" "10.0.0.2" active_world in
  snd <$> (match out.1 with Ok r => Some r | Raise _ => None end) = Some 201%nat
  /\ p_role <$> t_participants (w_db out.2) = [host; guest]
  /\ r_status <$> (t_rooms (w_db out.2) !! "Ab12") = Some locked.
Proof. vm_compute. done. Qed.

Example on_disconnect_example :
  let w' := (on_disconnect "sid-guest" guest_session locked_world).2 in
  (is_participant_connected "Ab12" 2 w').1 = Ok false
  /\ p_id <$> t_participants (w_db w') = [1%nat]
  /\ r_status <$> (t_rooms (w_db w') !! "Ab12") = Some active.
Proof. vm_compute. done. Qed.

(** ** Archival: what the steps leave alone *)

(** ** Operations that leave (part of) the rooms table alone *)
Section Frame.
Variable R : relation (gmap string RoomRow).
Context `{!Reflexive R, !Transitive R}.

Definition keeps {A} (m : M A) : Prop :=
  forall w, R (t_rooms (w_db w)) (t_rooms (w_db (m w).2)).

Lemma keeps_ret {A} (a : A) : keeps (ret a).
Proof. intros w. reflexivity. Qed.

Lemma keeps_raise {A} e : keeps (@raise A e).
Proof. intros w. reflexivity. Qed.

Lemma keeps_bind {A B} (m : M A) (k : A -> M B) :
  keeps m -> (forall a, keeps (k a)) -> keeps (bind m k).
Proof.
  intros Hm Hk w. unfold bind. specialize (Hm w).
  destruct (m w) as [[a|e] w1]; cbn in *; [|done].
  etrans; [done|]. apply Hk.
Qed.

Lemma keeps_try {A} (body : M A) handler :
  keeps body -> (forall e, keeps (handler e)) -> keeps (try_except body handler).
Proof.
  intros Hm Hk w. unfold try_except. specialize (Hm w).
  destruct (body w) as [[a|e] w1]; cbn in *; [done|].
  etrans; [done|]. apply Hk.
Qed.

Lemma keeps_same_rooms {A} (m : M A) :
  (forall w, t_rooms (w_db (m w).2) = t_rooms (w_db w)) -> keeps m.
Proof. intros H w. rewrite H. reflexivity. Qed.

Lemma keeps_utcnow : keeps utcnow.
Proof. by apply keeps_same_rooms. Qed.

Lemma keeps_lift_result {A} (r : result A) : keeps (lift_result r).
Proof. by apply keeps_same_rooms. Qed.

Lemma keeps_db_select {A} (q : Db -> A) : keeps (db_select q).
Proof.
  apply keeps_same_rooms. intros w. unfold db_select.
  by destruct (w_faults w) as [|[e|] fs].
Qed.

Lemma keeps_db_execute {A} (stmt : Db -> result (A * Db)) :
  (forall d a d', stmt d = Ok (a, d') -> R (t_rooms d) (t_rooms d')) ->
  keeps (db_execute stmt).
Proof.
  intros Hstmt w. unfold db_execute, run_statement.
  destruct (w_faults w) as [|[e|] fs]; cbn; try reflexivity.
  all: destruct (stmt (w_db w)) as [[a d']|e] eqn:Hs; cbn; try reflexivity.
  all: by eapply Hstmt.
Qed.

Lemma keeps_minio_call {A} (f : World -> result A * World) :
  (forall w, t_rooms (w_db (f w).2) = t_rooms (w_db w)) -> keeps (minio_call f).
Proof.
  intros Hf. apply keeps_same_rooms. intros w. unfold minio_call.
  destruct (w_faults w) as [|[e|] fs]; cbn; [apply Hf|done|].
  by rewrite Hf.
Qed.

Lemma keeps_ensure_buckets_loop (get_client : M unit) buckets :
  keeps get_client -> keeps (ensure_buckets_loop get_client buckets).
Proof.
  intros Hg. induction buckets as [|b bs IH]; [apply keeps_ret|].
  cbn [ensure_buckets_loop].
  apply keeps_bind; [done|]. intros _.
  apply keeps_bind.
  { apply keeps_minio_call. done. }
  intros found. apply keeps_bind; [|done].
  destruct found; [apply keeps_ret|].
  apply keeps_bind; [done|]. intros _.
  apply keeps_minio_call. intros w. by destruct (w_minio w !! b).
Qed.

Lemma keeps_get_client depth : keeps (_get_client depth).
Proof.
  induction depth as [|depth IH]; intros w; cbn [_get_client].
  - destruct (_client_initialized (w_storage w)); reflexivity.
  - destruct (_client_initialized (w_storage w)); [reflexivity|].
    revert w. change (keeps (
      _ <- (fun w1 => (Ok tt, set_storage
                   {| st_client := true;
                      _client_initialized := _client_initialized (w_storage w1) |} w1)) ;;
      _ <- _ensure_buckets (_get_client depth) ;;
      (fun w2 => (Ok tt, set_storage
                   {| st_client := st_client (w_storage w2);
                      _client_initialized := true |} w2)))).
    apply keeps_bind; [by apply keeps_same_rooms|]. intros _.
    apply keeps_bind; [by apply keeps_ensure_buckets_loop|]. intros _.
    by apply keeps_same_rooms.
Qed.

Lemma keeps_store_archive key data : keeps (store_archive key data).
Proof.
  unfold store_archive. apply keeps_try.
  - apply keeps_bind; [apply keeps_get_client|]. intros _.
    apply keeps_bind; [|intros ?; apply keeps_ret].
    apply keeps_minio_call. intros w. by destruct (w_minio w !! archive_bucket).
  - intros [] ; first [apply keeps_ret | apply keeps_raise].
Qed.

End Frame.

Ltac kapply lem := apply lem; try (solve [typeclasses eauto]).

(** The row of one room stays as it is. *)
Definition same_row (rid : string) : relation (gmap string RoomRow) :=
  fun m m' => m' !! rid = m !! rid.

#[local] Instance same_row_refl rid : Reflexive (same_row rid).
Proof. by intros m. Qed.

#[local] Instance same_row_trans rid : Transitive (same_row rid).
Proof. unfold same_row. intros m1 m2 m3 H1 H2. by rewrite H2. Qed.

Lemma sql_update_room_same_row rid id cond f d a d' :
  id <> rid -> sql_update_room id cond f d = Ok (a, d') ->
  same_row rid (t_rooms d) (t_rooms d').
Proof.
  intros Hne. unfold sql_update_room, same_row.
  destruct (t_rooms d !! id) as [r|]; [destruct (cond r)|];
    intros [= <- <-]; cbn; try done.
  by rewrite lookup_insert_ne.
Qed.

Section ArchiveFacts.
Context {cipher : AesGcm}.
Variable crypto_service : CryptoService.

Lemma keeps_archive_room_data R `{!Reflexive R, !Transitive R} room_id :
  keeps R (archive_room_data crypto_service room_id).
Proof.
  unfold archive_room_data, Room_get_room, Participant_get_room_participants,
    Message_get_room_messages, ArchiveService_get_room_key.
  kapply keeps_bind; [kapply keeps_try; [kapply keeps_db_select|intros ?; kapply keeps_ret]|].
  intros [room|]; [|kapply keeps_ret].
  kapply keeps_bind; [kapply keeps_try; [kapply keeps_db_select|intros ?; kapply keeps_ret]|].
  intros participants.
  kapply keeps_bind; [kapply keeps_try; [kapply keeps_db_select|intros ?; kapply keeps_ret]|].
  intros encrypted_messages.
  kapply keeps_bind; [kapply keeps_try; [kapply keeps_db_select|intros ?; kapply keeps_ret]|].
  intros [[|b enc]|]; [kapply keeps_ret| |kapply keeps_ret].
  kapply keeps_bind; [kapply keeps_lift_result|]. intros room_key.
  kapply keeps_bind; [kapply keeps_utcnow|]. intros archived_at.
  kapply keeps_ret.
Qed.

Lemma keeps_Room_archive_room rid id key :
  id <> rid -> keeps (same_row rid) (Room_archive_room id key).
Proof.
  intros Hne. unfold Room_archive_room.
  kapply keeps_try; [|intros ?; kapply keeps_ret].
  kapply keeps_bind; [|intros ?; kapply keeps_ret].
  kapply keeps_db_execute. intros d a d'. by apply sql_update_room_same_row.
Qed.

Lemma keeps_Room_close_room rid id reason :
  id <> rid -> keeps (same_row rid) (Room_close_room id reason).
Proof.
  intros Hne. unfold Room_close_room.
  kapply keeps_try; [|intros ?; kapply keeps_ret].
  kapply keeps_bind; [kapply keeps_utcnow|]. intros now.
  kapply keeps_bind; [|intros ?; kapply keeps_ret].
  kapply keeps_db_execute. intros d a d'. by apply sql_update_room_same_row.
Qed.

Lemma keeps_ArchiveService_archive_room rid id :
  id <> rid -> keeps (same_row rid) (ArchiveService_archive_room crypto_service id).
Proof.
  intros Hne. unfold ArchiveService_archive_room.
  kapply keeps_try; [|intros ?; kapply keeps_ret].
  kapply keeps_bind; [kapply keeps_archive_room_data|].
  intros [data|]; [|kapply keeps_ret].
  kapply keeps_bind; [kapply keeps_utcnow|]. intros ts.
  kapply keeps_bind; [kapply keeps_store_archive|].
  intros [|]; [|kapply keeps_ret].
  kapply keeps_bind; [by kapply keeps_Room_archive_room|].
  intros [|]; kapply keeps_ret.
Qed.

Lemma keeps_process_rooms rid ids :
  Forall (fun id => id <> rid) ids ->
  keeps (same_row rid) (process_rooms crypto_service ids).
Proof.
  induction 1 as [|id ids Hne _ IH]; [kapply keeps_ret|].
  cbn [process_rooms].
  kapply keeps_bind; [by kapply keeps_Room_close_room|]. intros was_closed.
  kapply keeps_bind; [|done].
  destruct was_closed; [|kapply keeps_ret].
  kapply keeps_bind; [by kapply keeps_ArchiveService_archive_room|].
  intros ?; kapply keeps_ret.
Qed.

(** The sweep selects rooms that are [active] or [locked], and reads only. *)
Lemma Room_get_expired_rooms_spec w :
  exists ids w',
    Room_get_expired_rooms w = (Ok ids, w')
    /\ t_rooms (w_db w') = t_rooms (w_db w)
    /\ Forall (fun id => exists r, t_rooms (w_db w) !! id = Some r
                                   /\ (r_status r = active \/ r_status r = locked)) ids.
Proof.
  unfold Room_get_expired_rooms, try_except, bind, utcnow, db_select, ret.
  destruct (w_faults w) as [|[e|] fs]; cbn.
  2: { do 2 eexists. split_and!; try done. }
  all: do 2 eexists; split_and!; try done.
  all: apply Forall_forall; intros id [[id' r] [-> Hin]]%list_elem_of_fmap.
  all: apply elem_of_map_to_list, map_lookup_filter_Some in Hin as [Hr [Hst _]].
  all: exists r; split; [done|].
  all: apply bool_decide_eq_true in Hst.
  all: apply elem_of_cons in Hst as [?|Hst]; [by left|].
  all: apply list_elem_of_singleton in Hst; by right.
Qed.

Lemma process_expired_rooms_keeps_closed w room_id r :
  t_rooms (w_db w) !! room_id = Some r -> r_status r = closed ->
  t_rooms (w_db (process_expired_rooms crypto_service w).2) !! room_id = Some r.
Proof.
  intros Hr Hst. unfold process_expired_rooms, try_except, bind.
  destruct (Room_get_expired_rooms_spec w) as (ids & w1 & -> & Hrooms & Hids).
  assert (Hne : Forall (fun id => id <> room_id) ids).
  { eapply Forall_impl; [exact Hids|]. cbn. intros id (r' & Hr' & Hst') ->.
    rewrite Hr in Hr'. injection Hr' as <-. destruct Hst'; congruence. }
  pose proof (keeps_process_rooms room_id ids Hne w1) as Hkeep.
  unfold same_row in Hkeep. rewrite Hrooms, Hr in Hkeep.
  destruct (process_rooms crypto_service ids w1) as [[[]|e] w2]; cbn in *; done.
Qed.

End ArchiveFacts.

(** ** [ORDER BY] and the archive document *)

Section OrderBy.
Context {A : Type} (key : A -> Z).

Definition key_le : relation A := fun a b => (key a <= key b)%Z.

#[local] Instance key_le_trans : Transitive key_le.
Proof. unfold key_le. intros a b c. lia. Qed.

Lemma insert_by_perm x l : insert_by key x l ≡ₚ x :: l.
Proof.
  induction l as [|y l IH]; [done|]. cbn.
  case_bool_decide; [done|]. rewrite IH. apply Permutation_swap.
Qed.

Lemma insert_by_sorted x l :
  StronglySorted key_le l -> StronglySorted key_le (insert_by key x l).
Proof.
  induction 1 as [|y l Hs IH Hy]; cbn.
  - repeat constructor.
  - case_bool_decide as Hlt.
    + constructor; [by constructor|].
      constructor; [unfold key_le; lia|].
      eapply Forall_impl; [exact Hy|]. unfold key_le. intros z. lia.
    + constructor; [done|].
      rewrite insert_by_perm. constructor; [unfold key_le; lia|done].
Qed.

Lemma foldl_insert_by_perm l acc :
  foldl (fun acc x => insert_by key x acc) acc l ≡ₚ l ++ acc.
Proof.
  revert acc. induction l as [|x l IH]; intros acc; [done|]. cbn.
  rewrite IH, insert_by_perm. by rewrite Permutation_middle.
Qed.

Lemma foldl_insert_by_sorted l acc :
  StronglySorted key_le acc ->
  StronglySorted key_le (foldl (fun acc x => insert_by key x acc) acc l).
Proof.
  revert acc. induction l as [|x l IH]; intros acc Hacc; [done|]. cbn.
  by apply IH, insert_by_sorted.
Qed.

Lemma order_by_perm l : order_by key l ≡ₚ l.
Proof. unfold order_by. by rewrite foldl_insert_by_perm, app_nil_r. Qed.

Lemma order_by_sorted l : StronglySorted key_le (order_by key l).
Proof. apply foldl_insert_by_sorted. constructor. Qed.

Lemma take_sorted n l : StronglySorted key_le l -> StronglySorted key_le (take n l).
Proof.
  intros Hs. rewrite <- (take_drop n l) in Hs. by apply StronglySorted_app_1_l in Hs.
Qed.

End OrderBy.

Section ArchiveRun.
Context {cipher : AesGcm}.
Variable crypto_service : CryptoService.

Lemma archive_room_data_run room_id w room enc room_key :
  w_faults w = [] ->
  t_rooms (w_db w) !! room_id = Some room ->
  sql_select_room_key room_id (w_db w) = Some enc ->
  decrypt_room_key crypto_service enc = Ok room_key ->
  archive_room_data crypto_service room_id w
  = (Ok (Some
      {| ad_room := room;
         ad_participants := order_by p_joined_at (room_participants room_id (w_db w));
         ad_messages :=
           archive_message room_key <$> sql_select_room_messages room_id archive_limit (w_db w);
         ad_archived_at := w_clock w;
         ad_message_count :=
           length (archive_message room_key
                     <$> sql_select_room_messages room_id archive_limit (w_db w));
         ad_participant_count :=
           length (order_by p_joined_at (room_participants room_id (w_db w))) |}), w).
Proof.
  intros Hf Hroom Hkey Hdec.
  unfold archive_room_data, Room_get_room, Participant_get_room_participants,
    Message_get_room_messages, ArchiveService_get_room_key.
  assert (Henc : exists b enc', enc = b :: enc').
  { destruct enc as [|b enc']; [|by eauto]. exfalso.
    unfold decrypt_room_key, AESGCM_decrypt in Hdec.
    destruct (AESGCM (master_key crypto_service)); cbn in Hdec; discriminate. }
  destruct Henc as (b & enc' & ->).
  munfold. do 6 (rewrite ?Hf, ?Hroom, ?Hkey, ?Hdec; cbv beta iota). done.
Qed.

Lemma get_client_uninitialized depth w :
  _client_initialized (w_storage w) = false ->
  exists w', _get_client depth w = (Raise RecursionError, w')
             /\ w_db w' = w_db w /\ w_minio w' = w_minio w
             /\ w_faults w' = w_faults w
             /\ _client_initialized (w_storage w') = false.
Proof.
  revert w. induction depth as [|depth IH]; intros w Hinit; cbn [_get_client]; rewrite Hinit.
  - by exists w.
  - unfold bind at 1. cbn [fst snd].
    unfold _ensure_buckets. cbn [ensure_buckets_loop]. unfold bind at 1 2.
    match goal with |- context [_get_client depth ?W] =>
      destruct (IH W) as (w' & -> & ? & ? & ? & ?); [done|] end.
    exists w'. done.
Qed.

Lemma store_archive_uninitialized key data w :
  _client_initialized (w_storage w) = false ->
  exists w', store_archive key data w = (Raise RecursionError, w')
             /\ w_db w' = w_db w /\ w_minio w' = w_minio w.
Proof.
  intros Hinit. unfold store_archive, try_except, bind at 1.
  destruct (get_client_uninitialized recursion_limit w Hinit) as (w' & -> & ? & ? & _).
  cbn. by exists w'.
Qed.

End ArchiveRun.

(** ** Outcomes of [archive_room] *)

Lemma db_execute_update_cases {room_id cond f w res w'} :
  db_execute (sql_update_room room_id cond f) w = (res, w') ->
  (res = Ok (Some room_id)
   /\ exists r, t_rooms (w_db w) !! room_id = Some r /\ cond r = true
                /\ t_rooms (w_db w') = <[room_id := f r]> (t_rooms (w_db w)))
  \/ (res <> Ok (Some room_id) /\ t_rooms (w_db w') = t_rooms (w_db w)).
Proof.
  unfold db_execute, run_statement, sql_update_room.
  destruct (w_faults w) as [|[e|] fs]; cbn [w_db set_faults];
    try (destruct (t_rooms (w_db w) !! room_id) as [r|] eqn:Hr;
         [destruct (cond r) eqn:Hc|]);
    intros [= <- <-]; cbn; eauto 10.
Qed.

Section ArchiveOutcome.
Context {cipher : AesGcm}.
Variable crypto_service : CryptoService.

Lemma Room_archive_room_outcome room_id key w :
  exists b w',
    Room_archive_room room_id key w = (Ok b, w')
    /\ if b
       then exists r, t_rooms (w_db w) !! room_id = Some r /\ r_status r = closed
                      /\ t_rooms (w_db w') = <[room_id := with_archived key r]> (t_rooms (w_db w))
       else t_rooms (w_db w') = t_rooms (w_db w).
Proof.
  unfold Room_archive_room, try_except, bind, ret.
  destruct (db_execute _ w) as [[a|e] w'] eqn:H;
    destruct (db_execute_update_cases H) as [[Hres (r & Hr & Hc & Hw')]|[Hres Hw']].
  - injection Hres as ->. exists true, w'. split; [done|].
    exists r. split_and!; [done| |done]. by apply bool_decide_eq_true in Hc.
  - destruct a as [id|].
    + exists true, w'. split; [done|]. exfalso.
      unfold db_execute, run_statement, sql_update_room in H.
      destruct (w_faults w) as [|[e|] fs]; cbn in H;
        try (destruct (t_rooms (w_db w) !! room_id) as [r|];
             [destruct (status_is closed r)|]); simplify_eq; done.
    + by exists false, w'.
  - done.
  - by exists false, w'.
Qed.

Lemma ArchiveService_archive_room_outcome room_id w :
  exists b w',
    ArchiveService_archive_room crypto_service room_id w = (Ok b, w')
    /\ if b
       then exists r key,
              t_rooms (w_db w) !! room_id = Some r /\ r_status r = closed
              /\ t_rooms (w_db w') = <[room_id := with_archived key r]> (t_rooms (w_db w))
       else t_rooms (w_db w') = t_rooms (w_db w).
Proof.
  unfold ArchiveService_archive_room, try_except, bind at 1.
  pose proof (keeps_archive_room_data crypto_service eq room_id w) as H1.
  destruct (archive_room_data crypto_service room_id w) as [[[data|]|e] w1]; cbn in H1.
  2,3: by exists false, w1.
  unfold bind at 1, utcnow. unfold bind at 1.
  pose proof (keeps_store_archive eq (room_id, w_clock w1) data w1) as H2.
  destruct (store_archive _ data w1) as [[[|]|e] w2]; cbn in H2.
  2,3: exists false, w2; split; [done|]; congruence.
  unfold bind.
  destruct (Room_archive_room_outcome room_id (room_id, w_clock w1) w2)
    as (b & w3 & -> & Hb).
  destruct b.
  - exists true, w3. split; [done|].
    destruct Hb as (r & Hr & Hst & Hw3). exists r, (room_id, w_clock w1).
    rewrite H1, H2. done.
  - exists false, w3. split; [done|]. congruence.
Qed.

End ArchiveOutcome.

(** ** C5 and C6: the archive document and the failure paths *)

Section ArchiveClaims.
Context {cipher : AesGcm}.
Variable crypto_service : CryptoService.

(** [archive_room] reports success only when the upload and the status
    update both did; otherwise the [rooms] table is as before. *)
Lemma ArchiveService_archive_room_steps room_id w :
  exists b w',
    ArchiveService_archive_room crypto_service room_id w = (Ok b, w')
    /\ if b
       then exists data w1 w2 r,
              archive_room_data crypto_service room_id w = (Ok (Some data), w1)
              /\ store_archive (room_id, w_clock w1) data w1 = (Ok true, w2)
              /\ Room_archive_room room_id (room_id, w_clock w1) w2 = (Ok true, w')
              /\ t_rooms (w_db w) !! room_id = Some r /\ r_status r = closed
              /\ t_rooms (w_db w')
                 = <[room_id := with_archived (room_id, w_clock w1) r]> (t_rooms (w_db w))
       else t_rooms (w_db w') = t_rooms (w_db w).
Proof.
  unfold ArchiveService_archive_room, try_except, bind at 1.
  pose proof (keeps_archive_room_data crypto_service eq room_id w) as H1.
  destruct (archive_room_data crypto_service room_id w) as [[[data|]|e] w1]; cbn in H1.
  2,3: by exists false, w1.
  unfold bind at 1, utcnow. unfold bind at 1.
  pose proof (keeps_store_archive eq (room_id, w_clock w1) data w1) as H2.
  destruct (store_archive _ data w1) as [[[|]|e] w2] eqn:Hstore; cbn in H2.
  2,3: exists false, w2; split; [done|]; congruence.
  unfold bind.
  destruct (Room_archive_room_outcome room_id (room_id, w_clock w1) w2)
    as (b & w3 & Hmark & Hb).
  rewrite Hmark. destruct b.
  - exists true, w3. split; [done|].
    destruct Hb as (r & Hr & Hst & Hw3). exists data, w1, w2, r.
    rewrite H1, H2. done.
  - exists false, w3. split; [done|]. congruence.
Qed.

(** C5, as the code has it. (1) [archive_message] never raises: a message
    whose decryption raises is recorded with the text
    [[DECRYPTION_FAILED]] and an [error] field, any other with its
    plaintext and no [error] field, each under its own id; and with no
    database fault, the room found and its key unwrapped, the archive
    document is built whatever the messages decrypt to, one entry per
    selected row, in the order of the rows. (2) [archive_room] returns
    [True] only if the upload returned [True] and the status update
    returned [True]; when it returns [False] (the upload or the update
    failed) the [rooms] table is as before, so a closed room stays closed.
    (3) The sweep leaves the row of a closed room as it is: it selects
    active and locked rooms only, so a room left closed is not archived by
    a later sweep. *)
Theorem archive_room_failure_handling :
  (forall room_key msg,
     am_id (archive_message room_key msg) = m_id (jm_row msg)
     /\ match decrypt_message room_key (m_body_ct (jm_row msg)) (m_nonce (jm_row msg))
                (m_tag (jm_row msg)) with
        | Ok text =>
            am_message (archive_message room_key msg) = text
            /\ am_error (archive_message room_key msg) = None
        | Raise e =>
            am_message (archive_message room_key msg) = DECRYPTION_FAILED
            /\ am_error (archive_message room_key msg) = Some (exn_str e)
        end)
  /\ (forall room_id w room enc room_key,
        w_faults w = [] ->
        t_rooms (w_db w) !! room_id = Some room ->
        sql_select_room_key room_id (w_db w) = Some enc ->
        decrypt_room_key crypto_service enc = Ok room_key ->
        exists data,
          archive_room_data crypto_service room_id w = (Ok (Some data), w)
          /\ ad_messages data
             = archive_message room_key
                 <$> sql_select_room_messages room_id archive_limit (w_db w)
          /\ ad_message_count data
             = length (sql_select_room_messages room_id archive_limit (w_db w)))
  /\ (forall room_id w,
        exists b w',
          ArchiveService_archive_room crypto_service room_id w = (Ok b, w')
          /\ if b
             then exists data w1 w2 r,
                    archive_room_data crypto_service room_id w = (Ok (Some data), w1)
                    /\ store_archive (room_id, w_clock w1) data w1 = (Ok true, w2)
                    /\ Room_archive_room room_id (room_id, w_clock w1) w2 = (Ok true, w')
                    /\ t_rooms (w_db w) !! room_id = Some r /\ r_status r = closed
                    /\ t_rooms (w_db w')
                       = <[room_id := with_archived (room_id, w_clock w1) r]>
                           (t_rooms (w_db w))
             else t_rooms (w_db w') = t_rooms (w_db w))
  /\ (forall w room_id r,
        t_rooms (w_db w) !! room_id = Some r -> r_status r = closed ->
        t_rooms (w_db (process_expired_rooms crypto_service w).2) !! room_id = Some r).
Proof.
  split_and!.
  - intros room_key msg. unfold archive_message.
    destruct (decrypt_message _ _ _ _); done.
  - intros room_id w room enc room_key Hf Hroom Hkey Hdec.
    eexists. split; [by eapply archive_room_data_run|].
    cbn. by rewrite length_fmap.
  - apply ArchiveService_archive_room_steps.
  - apply process_expired_rooms_keeps_closed.
Qed.

(** C6, as the code has it. With no database fault, the room found and
    its key unwrapped, the archive document holds one entry per message
    row of the room among the first [archive_limit] (10000) rows in
    [created_at] order (ties in insertion order): entry [i] is
    [archive_message] of row [i], its text what [decrypt_message] returns
    for that row, or [[DECRYPTION_FAILED]] when it raises. The rows are
    sorted by [created_at] and are rows of the room; when the room has at
    most [archive_limit] messages they are all of them. *)
Theorem archive_messages_in_order room_id w room enc room_key :
  w_faults w = [] ->
  t_rooms (w_db w) !! room_id = Some room ->
  sql_select_room_key room_id (w_db w) = Some enc ->
  decrypt_room_key crypto_service enc = Ok room_key ->
  let sorted := order_by m_created_at (room_messages room_id (w_db w)) in
  let rows := take archive_limit sorted in
  exists data,
    archive_room_data crypto_service room_id w = (Ok (Some data), w)
    /\ ad_messages data
       = (fun m => archive_message room_key (left_join_participant (w_db w) m)) <$> rows
    /\ am_id <$> ad_messages data = m_id <$> rows
    /\ am_message <$> ad_messages data
       = (fun m => match decrypt_message room_key (m_body_ct m) (m_nonce m) (m_tag m) with
                   | Ok text => text
                   | Raise _ => DECRYPTION_FAILED
                   end) <$> rows
    /\ StronglySorted (key_le m_created_at) rows
    /\ sorted ≡ₚ room_messages room_id (w_db w)
    /\ ((length (room_messages room_id (w_db w)) <= archive_limit)%nat -> rows = sorted).
Proof.
  intros Hf Hroom Hkey Hdec sorted rows.
  eexists. split; [by eapply archive_room_data_run|].
  cbn [ad_messages]. unfold sql_select_room_messages. fold sorted.
  rewrite <- fmap_take. fold rows. rewrite <- !list_fmap_compose.
  split_and!.
  - done.
  - apply list_fmap_ext. intros i m _. cbn. unfold archive_message, left_join_participant.
    destruct (head _); cbn; destruct (decrypt_message _ _ _ _); done.
  - apply list_fmap_ext. intros i m _. cbn. unfold archive_message, left_join_participant.
    destruct (head _); cbn; destruct (decrypt_message _ _ _ _); done.
  - apply take_sorted, order_by_sorted.
  - apply order_by_perm.
  - intros Hlen. apply take_ge. unfold sorted.
    by rewrite (Permutation_length (order_by_perm _ _)).
Qed.

End ArchiveClaims.

(** ** Examples for the archival *)

Definition example_room_key : bytes := accept_room_key (pending_world []).

Definition example_wrapped_key : bytes :=
  @accept_wrapped_key ToyGcm example_crypto (pending_world []).

(** [(ct, nonce, tag)] of a text under the room key. *)
Definition example_sealed (text : string) (r : Rng) : bytes * bytes * bytes :=
  match (@encrypt_message ToyGcm example_room_key (pystr_of_string text) r).1 with
  | Ok sealed => sealed
  | Raise _ => ([], [], [])
  end.

Definition example_message (id : nat) (sender : nat) (at_ : Z)
    (sealed : bytes * bytes * bytes) : MessageRow :=
  {| m_id := id; m_room_id := "Ab12"; m_participant_id := sender;
     m_created_at := at_; m_body_ct := sealed.1.1; m_nonce := sealed.1.2;
     m_tag := sealed.2; m_msg_type := "text"; m_ip_address := None |}.

(** The second message has one byte of its tag changed. *)
Definition tampered (sealed : bytes * bytes * bytes) : bytes * bytes * bytes :=
  (sealed.1, (fun b => (b + 1) mod 256)%Z <$> sealed.2).

Definition closed_room : RoomRow := with_closed 90000%Z (with_status locked accepted_room).

Definition closed_world : World :=
  {| w_db := {| t_rooms := {[ "Ab12" := closed_room ]};
                t_room_keys := [("Ab12", example_wrapped_key)];
                t_participants := [host_row; guest_row]; seq_participants := 2;
                t_messages :=
                  [example_message 1 1 2500 (example_sealed "hello" example_rng);
                   example_message 2 2 2600
                     (tampered (example_sealed "hi" (rng_skip 12 example_rng)));
                   example_message 3 1 2700
                     (example_sealed "bye" (rng_skip 24 example_rng))];
                seq_messages := 3 |};
     w_connections := ∅; w_sessions := ∅;
     w_storage := {| st_client := false; _client_initialized := false |};
     w_minio := ∅; w_faults := [];
     w_clock := 90001%Z; w_rng := example_rng; w_cookie := None;
     w_outbox := [] |}.


(** The room of [locked_world], a day later. *)
Definition expired_world : World :=
  {| w_db := w_db locked_world; w_connections := w_connections locked_world;
     w_sessions := w_sessions locked_world; w_storage := w_storage locked_world;
     w_minio := ∅; w_faults := []; w_clock := 100000%Z; w_rng := example_rng;
     w_cookie := None; w_outbox := [] |}.

Definition after_first_sweep : World :=
  (@process_expired_rooms ToyGcm example_crypto expired_world).2.


(** *** C5: a closed room is not swept again *)

(** [process_expired_rooms] archives the rooms that
    [Room.get_expired_rooms] returns, and only those. *)
Definition sweep_selects (w : World) (room_id : string) : Prop :=
  exists ids w', Room_get_expired_rooms w = (Ok ids, w') /\ room_id ∈ ids.

(** The claim in the spec's words: a room left closed is taken up by the
    next sweep. *)
Definition closed_rooms_are_retried : Prop :=
  forall w room_id r,
    t_rooms (w_db w) !! room_id = Some r -> r_status r = closed ->
    sweep_selects w room_id.

(** After the sweep that closed the expired room and failed to archive it,
    the next sweep selects nothing. *)
Lemma closed_room_is_not_retried : ~ closed_rooms_are_retried.
Proof.
  intros Hretry.
  destruct (Hretry after_first_sweep "Ab12"
              (with_closed 100000%Z (with_status locked accepted_room)))
    as (ids & w' & Hsel & Hin).
  - vm_compute. reflexivity.
  - reflexivity.
  - vm_compute in Hsel. injection Hsel as <- _. by apply elem_of_nil in Hin.
Qed.

Example two_sweeps :
  let w1 := after_first_sweep in
  let w2 := (@process_expired_rooms ToyGcm example_crypto w1).2 in
  r_status <$> (t_rooms (w_db expired_world) !! "Ab12") = Some locked
  /\ r_status <$> (t_rooms (w_db w1) !! "Ab12") = Some closed
  /\ r_status <$> (t_rooms (w_db w2) !! "Ab12") = Some closed
  /\ (t_rooms (w_db w2) !! "Ab12") ≫= r_archive_key = None
  /\ w_minio w2 = ∅.
Proof. vm_compute. done. Qed.

(** The tampered message of [closed_world] is recorded in place. *)
Example archive_of_closed_world :
  (fun d => (am_id <$> ad_messages d, am_message <$> ad_messages d,
             am_error <$> ad_messages d))
    <$> match (@archive_room_data ToyGcm example_crypto "Ab12" closed_world).1 with
        | Ok data => data
        | Raise _ => None
        end
  = Some ([1; 2; 3]%nat,
          [pystr_of_string "hello"; DECRYPTION_FAILED; pystr_of_string "bye"],
          [None; Some ""; None]).
Proof. vm_compute. reflexivity. Qed.

(** A storage service whose client is set up (a state that [_get_client]
    itself never reaches), for the paths after the upload. *)
Definition with_working_storage (w : World) : World :=
  set_minio {[ archive_bucket := ∅ ]}
    (set_storage {| st_client := true; _client_initialized := true |} w).

Example archive_room_succeeds :
  let out := @ArchiveService_archive_room ToyGcm example_crypto "Ab12"
               (with_working_storage closed_world) in
  out.1 = Ok true
  /\ (t_rooms (w_db out.2) !! "Ab12") ≫= r_archive_key = Some ("Ab12", 90001%Z)
  /\ r_status <$> (t_rooms (w_db out.2) !! "Ab12") = Some archived
  /\ bool_decide (is_Some (w_minio out.2 !! archive_bucket
                             ≫= (fun objs => objs !! ("Ab12", 90001%Z)))) = true.
Proof. vm_compute. done. Qed.

Example archive_room_fails_without_client :
  let out := @ArchiveService_archive_room ToyGcm example_crypto "Ab12" closed_world in
  out.1 = Ok false
  /\ t_rooms (w_db out.2) !! "Ab12" = Some closed_room
  /\ w_minio out.2 = ∅.
Proof. vm_compute. done. Qed.

(** *** C6: the archive stops at 10000 messages *)

(** The claim in the spec's words: the archive has an entry for every
    message row of the room, in [created_at] order. *)
Definition archive_has_every_message {cipher : AesGcm} (cs : CryptoService) : Prop :=
  forall room_id w room enc room_key data w',
    w_faults w = [] ->
    t_rooms (w_db w) !! room_id = Some room -> r_status room = closed ->
    sql_select_room_key room_id (w_db w) = Some enc ->
    decrypt_room_key cs enc = Ok room_key ->
    archive_room_data cs room_id w = (Ok (Some data), w') ->
    ad_messages data
    = (fun m => archive_message room_key (left_join_participant (w_db w) m))
        <$> order_by m_created_at (room_messages room_id (w_db w)).

(** [closed_world] with one message more than the limit. *)
Definition busy_messages : list MessageRow :=
  (fun i => example_message (S i) 1 (Z.of_nat i) ([], [], [])) <$> seq 0 (S archive_limit).

Definition busy_world : World :=
  set_db (set_messages busy_messages (S archive_limit) (w_db closed_world)) closed_world.

Lemma filter_fmap_all {A B} (P : B -> Prop) `{!forall b, Decision (P b)}
    (f : A -> B) (l : list A) :
  (forall a, P (f a)) -> filter P (f <$> l) = f <$> l.
Proof.
  intros HP. induction l as [|a l IH]; [done|].
  rewrite fmap_cons, filter_cons_True by apply HP. by rewrite IH.
Qed.

Lemma busy_world_messages :
  length (room_messages "Ab12" (w_db busy_world)) = S archive_limit.
Proof.
  change (room_messages "Ab12" (w_db busy_world))
    with (filter (fun m => m_room_id m = "Ab12") busy_messages).
  unfold busy_messages. rewrite filter_fmap_all by done.
  by rewrite length_fmap, length_seq.
Qed.

Lemma busy_world_room : t_rooms (w_db busy_world) !! "Ab12" = Some closed_room.
Proof. reflexivity. Qed.

Lemma busy_world_key :
  sql_select_room_key "Ab12" (w_db busy_world) = Some example_wrapped_key.
Proof. reflexivity. Qed.

Lemma example_wrapped_key_unwraps :
  @decrypt_room_key ToyGcm example_crypto example_wrapped_key = Ok example_room_key.
Proof. vm_compute. reflexivity. Qed.

(** Whatever the room, the document has at most [archive_limit] messages. *)
Lemma archive_room_data_length {cipher : AesGcm} cs room_id w room enc room_key data w' :
  w_faults w = [] ->
  t_rooms (w_db w) !! room_id = Some room ->
  sql_select_room_key room_id (w_db w) = Some enc ->
  decrypt_room_key cs enc = Ok room_key ->
  archive_room_data cs room_id w = (Ok (Some data), w') ->
  length (ad_messages data)
  = Nat.min archive_limit (length (room_messages room_id (w_db w))).
Proof.
  intros Hf Hroom Hkey Hdec.
  rewrite (archive_room_data_run cs room_id w room enc room_key) by done.
  intros [= <- _]. cbn [ad_messages]. unfold sql_select_room_messages.
  rewrite !length_fmap, length_take, length_fmap.
  by rewrite (Permutation_length (order_by_perm m_created_at (room_messages room_id (w_db w)))).
Qed.

(** A room with more messages than the limit refutes the claim. *)
Lemma archive_limit_refutes {cipher : AesGcm} cs room_id w room enc room_key :
  w_faults w = [] ->
  t_rooms (w_db w) !! room_id = Some room -> r_status room = closed ->
  sql_select_room_key room_id (w_db w) = Some enc ->
  decrypt_room_key cs enc = Ok room_key ->
  (archive_limit < length (room_messages room_id (w_db w)))%nat ->
  ~ archive_has_every_message cs.
Proof.
  intros Hf Hroom Hst Hkey Hdec Hlt Hall.
  pose proof (archive_room_data_run cs room_id w room enc room_key Hf Hroom Hkey Hdec)
    as Hrun.
  pose proof (archive_room_data_length cs _ _ _ _ _ _ _ Hf Hroom Hkey Hdec Hrun) as Hlen.
  specialize (Hall _ _ _ _ _ _ _ Hf Hroom Hst Hkey Hdec Hrun).
  apply (f_equal length) in Hall. rewrite Hlen in Hall.
  rewrite length_fmap, (Permutation_length (order_by_perm m_created_at _)) in Hall.
  lia.
Qed.

Lemma busy_world_over_limit :
  (archive_limit < length (room_messages "Ab12" (w_db busy_world)))%nat.
Proof. rewrite busy_world_messages. apply Nat.lt_succ_diag_r. Qed.

Lemma archive_drops_messages_past_limit :
  ~ @archive_has_every_message ToyGcm example_crypto.
Proof.
  exact (@archive_limit_refutes ToyGcm example_crypto "Ab12" busy_world closed_room
           example_wrapped_key example_room_key eq_refl busy_world_room eq_refl
           busy_world_key example_wrapped_key_unwraps busy_world_over_limit).
Qed.

Lemma archive_messages_in_order_witness :
  let sorted := order_by m_created_at (room_messages "Ab12" (w_db closed_world)) in
  let rows := take archive_limit sorted in
  exists data,
    @archive_room_data ToyGcm example_crypto "Ab12" closed_world
    = (Ok (Some data), closed_world)
    /\ ad_messages data
       = (fun m => @archive_message ToyGcm example_room_key
                     (left_join_participant (w_db closed_world) m)) <$> rows
    /\ am_id <$> ad_messages data = m_id <$> rows
    /\ am_message <$> ad_messages data
       = (fun m => match @decrypt_message ToyGcm example_room_key
                           (m_body_ct m) (m_nonce m) (m_tag m) with
                   | Ok text => text
                   | Raise _ => DECRYPTION_FAILED
                   end) <$> rows
    /\ StronglySorted (key_le m_created_at) rows
    /\ sorted ≡ₚ room_messages "Ab12" (w_db closed_world)
    /\ ((length (room_messages "Ab12" (w_db closed_world)) <= archive_limit)%nat
        -> rows = sorted).
Proof.
  exact (@archive_messages_in_order ToyGcm example_crypto "Ab12" closed_world
           closed_room example_wrapped_key example_room_key
           eq_refl eq_refl eq_refl example_wrapped_key_unwraps).
Defined.

(** * The rest of the code *)

(** ** The life cycle of a room *)

(** The edges that the [WHERE] clauses of [models/rooms.py] allow. *)
Definition status_step (s s' : RoomStatus) : Prop :=
  match s, s' with
  | pending, active | active, locked | locked, active
  | active, closed | locked, closed | closed, archived => True
  | _, _ => False
  end.

(** X1. One call of a [Room] method that writes ([create_room],
    [accept_room], [close_room], [lock_room], [unlock_room],
    [archive_room]) leaves every row as it was or moves its status along
    one edge of pending -> active <-> locked -> closed -> archived ([active]
    may also close), keeping [room_id] and [created_at]; no row is ever
    deleted, and only [create_room] adds one, the pending row of
    [new_room]. *)
Theorem room_status_moves_along_lifecycle (op : room_op) (w : World) (id : string) :
  match t_rooms (w_db w) !! id, t_rooms (w_db (run_op op w).2) !! id with
  | Some r, Some r' =>
      r' = r
      \/ (status_step (r_status r) (r_status r')
          /\ r_room_id r' = r_room_id r /\ r_created_at r' = r_created_at r)
  | None, Some r' => op = OpCreate /\ exists now, r' = new_room id now
  | Some _, None => False
  | None, None => True
  end.
Proof.
  pose proof (run_op_effect op w) as [->|Heff].
  { destruct (t_rooms (w_db w) !! id); [by left|done]. }
  assert (Hupd : forall id0 r0 f,
    t_rooms (w_db w) !! id0 = Some r0 ->
    status_step (r_status r0) (r_status (f r0)) ->
    r_room_id (f r0) = r_room_id r0 -> r_created_at (f r0) = r_created_at r0 ->
    match t_rooms (w_db w) !! id, <[id0 := f r0]> (t_rooms (w_db w)) !! id with
    | Some r, Some r' =>
        r' = r
        \/ (status_step (r_status r) (r_status r')
            /\ r_room_id r' = r_room_id r /\ r_created_at r' = r_created_at r)
    | None, Some r' => op = OpCreate /\ exists now, r' = new_room id now
    | Some _, None => False
    | None, None => True
    end).
  { intros id0 r0 f Hr0 Hstep Hid Hcr.
    destruct (decide (id0 = id)) as [->|Hne].
    - rewrite Hr0, lookup_insert_eq. right. done.
    - rewrite lookup_insert_ne by done.
      destruct (t_rooms (w_db w) !! id); [by left|done]. }
  destruct op as [|id0|id0 reason|id0|id0|id0 key].
  - destruct Heff as (id0 & now & Hnone & ->).
    destruct (decide (id0 = id)) as [->|Hne].
    + rewrite Hnone, lookup_insert_eq. split; [done|by exists now].
    + rewrite lookup_insert_ne by done.
      destruct (t_rooms (w_db w) !! id); [by left|done].
  - destruct Heff as (r0 & a & e & Hr0 & Hst & ->).
    apply Hupd; [done| |done|done]. cbn. by rewrite Hst.
  - destruct Heff as (r0 & t & Hr0 & Hst & ->).
    apply Hupd; [done| |done|done]. cbn. by destruct Hst as [-> | ->].
  - destruct Heff as (r0 & Hr0 & Hst & ->).
    apply Hupd; [done| |done|done]. cbn. by rewrite Hst.
  - destruct Heff as (r0 & Hr0 & Hst & ->).
    apply Hupd; [done| |done|done]. cbn. by rewrite Hst.
  - destruct Heff as (r0 & Hr0 & Hst & ->).
    apply Hupd; [done| |done|done]. cbn. by rewrite Hst.
Qed.

(** The columns that go with a status. *)
Definition room_columns_invariant (m : gmap string RoomRow) : Prop :=
  forall id r, m !! id = Some r ->
    r_room_id r = id
    /\ (r_status r = pending <-> r_accepted_at r = None)
    /\ (r_accepted_at r = None <-> r_expires_at r = None)
    /\ (is_Some (r_closed_at r) <-> r_status r = closed \/ r_status r = archived).

Lemma op_effect_columns op m m' :
  op_effect op m m' -> room_columns_invariant m -> room_columns_invariant m'.
Proof.
  intros [->|Heff] Hinv; [done|].
  intros id' r'.
  destruct op as [|id|id reason|id|id|id key].
  - destruct Heff as (id & now & Hnone & ->).
    intros [[<- <-]|[_ ?]]%lookup_insert_Some; [|by eapply Hinv].
    cbn. split_and!; try done. split; [by intros [? [=]]|by intros [|]].
  - destruct Heff as (r & a & e & Hr & Hst & ->).
    intros [[<- <-]|[_ ?]]%lookup_insert_Some; [|by eapply Hinv].
    destruct (Hinv _ _ Hr) as (Hid & Hp & Hae & Hc). cbn.
    split_and!; try done. rewrite Hc, Hst. split; intros [|]; done.
  - destruct Heff as (r & t & Hr & Hst & ->).
    intros [[<- <-]|[_ ?]]%lookup_insert_Some; [|by eapply Hinv].
    destruct (Hinv _ _ Hr) as (Hid & Hp & Hae & Hc). cbn.
    split_and!; try done.
    + rewrite <- Hp. split; [done|]. intros Hpend. destruct Hst; congruence.
    + split; [by left|by eexists].
  - destruct Heff as (r & Hr & Hst & ->).
    intros [[<- <-]|[_ ?]]%lookup_insert_Some; [|by eapply Hinv].
    destruct (Hinv _ _ Hr) as (Hid & Hp & Hae & Hc). cbn.
    split_and!; try done.
    + rewrite <- Hp. split; [done|]. intros Hpend. congruence.
    + rewrite Hc, Hst. split; intros [|]; done.
  - destruct Heff as (r & Hr & Hst & ->).
    intros [[<- <-]|[_ ?]]%lookup_insert_Some; [|by eapply Hinv].
    destruct (Hinv _ _ Hr) as (Hid & Hp & Hae & Hc). cbn.
    split_and!; try done.
    + rewrite <- Hp. split; [done|]. intros Hpend. congruence.
    + rewrite Hc, Hst. split; intros [|]; done.
  - destruct Heff as (r & Hr & Hst & ->).
    intros [[<- <-]|[_ ?]]%lookup_insert_Some; [|by eapply Hinv].
    destruct (Hinv _ _ Hr) as (Hid & Hp & Hae & Hc). cbn.
    split_and!; try done.
    + rewrite <- Hp. split; [done|]. intros Hpend. congruence.
    + rewrite Hc, Hst. split; [by right|by left].
Qed.

(** X2. In every world reached from an empty [rooms] table by the [Room]
    methods, each row is stored under its own id, is pending exactly when
    [accepted_at] is NULL, has [accepted_at] and [expires_at] set together,
    and has [closed_at] set exactly when it is closed or archived. *)
Theorem room_columns_follow_status (w : World) (id : string) (r : RoomRow) :
  reachable w ->
  t_rooms (w_db w) !! id = Some r ->
  r_room_id r = id
  /\ (r_status r = pending <-> r_accepted_at r = None)
  /\ (r_accepted_at r = None <-> r_expires_at r = None)
  /\ (is_Some (r_closed_at r) <-> r_status r = closed \/ r_status r = archived).
Proof.
  intros Hw. revert id r.
  change (room_columns_invariant (t_rooms (w_db w))).
  induction Hw as [w Hempty|w op _ IH|w w' _ IH Heq].
  - intros id r. rewrite Hempty, lookup_empty. done.
  - eapply op_effect_columns; [apply run_op_effect|done].
  - by rewrite Heq.
Qed.

(** A deployment with no room yet. *)
Definition fresh_world : World := set_db empty_db (pending_world []).

(** Its first room, created and then accepted. *)
Definition first_room_world : World :=
  (run_op (OpAccept "dkry") (run_op OpCreate fresh_world).2).2.

Definition first_room : RoomRow :=
  with_accepted 2000%Z (2000 + hours24)%Z (new_room "dkry" 2000%Z).

Lemma room_columns_follow_status_witness :
  r_room_id first_room = "dkry"
  /\ (r_status first_room = pending <-> r_accepted_at first_room = None)
  /\ (r_accepted_at first_room = None <-> r_expires_at first_room = None)
  /\ (is_Some (r_closed_at first_room)
      <-> r_status first_room = closed \/ r_status first_room = archived).
Proof.
  apply (room_columns_follow_status first_room_world "dkry" first_room).
  - apply reachable_op, reachable_op, reachable_init. reflexivity.
  - vm_compute. reflexivity.
Defined.

(** ** [Room.create_room()] *)






Lemma generate_room_id_ext (r r' : Rng) :
  (forall i, r i = r' i) -> (generate_room_id r).1 = (generate_room_id r').1.
Proof.
  intros Hr. unfold generate_room_id. cbn [fst]. f_equal.
  apply list_fmap_ext. intros _ i _. by rewrite Hr.
Qed.

Lemma create_room_loop_all_taken n w :
  w_faults w = [] ->
  (forall k, (k < n)%nat ->
     is_Some (t_rooms (w_db w) !! (generate_room_id (rng_skip (4 * k) (w_rng w))).1)) ->
  (create_room_loop n w).1
  = Raise (OtherError "Failed to generate unique room ID after multiple attempts")
  /\ w_db (create_room_loop n w).2 = w_db w.
Proof.
  revert w. induction n as [|n IH]; intros w Hf Htaken; [done|].
  rewrite create_room_loop_taken; [|done|].
  2:{ destruct (Htaken 0%nat ltac:(lia)) as [r Hr]. exists r. exact Hr. }
  destruct (IH (set_rng (generate_room_id (w_rng w)).2 w)) as [H1 H2]; [done| |by split].
  intros k Hk. destruct (Htaken (S k) ltac:(lia)) as [r Hr]. exists r. rewrite <- Hr.
  cbn [w_db set_rng]. f_equal. apply generate_room_id_ext.
  intros i. cbn. unfold rng_skip. f_equal. lia.
Qed.

(** X4. When the database answers and the first [max_attempts] (ten) ids
    drawn are all taken, [Room.create_room] raises "Failed to generate
    unique room ID after multiple attempts" and leaves the database as it
    was. *)
Theorem Room_create_room_gives_up (w : World) :
  w_faults w = [] ->
  (forall k, (k < max_attempts)%nat ->
     is_Some (t_rooms (w_db w) !! (generate_room_id (rng_skip (4 * k) (w_rng w))).1)) ->
  (Room_create_room w).1
  = Raise (OtherError "Failed to generate unique room ID after multiple attempts")
  /\ w_db (Room_create_room w).2 = w_db w.
Proof. apply create_room_loop_all_taken. Qed.

(** Every draw gives [aaaa], and that id is taken. *)
Definition crowded_world : World :=
  {| w_db := set_rooms {[ "aaaa" := new_room "aaaa" 1000%Z ]} empty_db;
     w_connections := ∅; w_sessions := ∅;
     w_storage := {| st_client := false; _client_initialized := false |};
     w_minio := ∅; w_faults := [];
     w_clock := 2000%Z; w_rng := fun _ => 0%Z; w_cookie := None; w_outbox := [] |}.

Lemma Room_create_room_gives_up_witness :
  (Room_create_room crowded_world).1
  = Raise (OtherError "Failed to generate unique room ID after multiple attempts")
  /\ w_db (Room_create_room crowded_world).2 = w_db crowded_world.
Proof.
  apply (Room_create_room_gives_up crowded_world).
  - reflexivity.
  - intros k _. by eexists.
Defined.

(** ** The connection registry *)

(** X5. Registering a connection and removing it again is a round trip:
    for a session id not yet in use and a participant not yet connected,
    after [add_connection] the participant counts as connected and the
    room has one connection more, and [remove_connection] of that session
    returns the session's info and restores the registry exactly. *)
Theorem add_then_remove_connection sid room_id pid role w :
  w_sessions w !! sid = None ->
  room_connections_of (w_connections w) room_id !! pid = None ->
  w_connections w !! room_id <> Some ∅ ->
  exists w1,
    add_connection sid room_id pid role w = (Ok tt, w1)
    /\ (is_participant_connected room_id pid w1).1 = Ok true
    /\ (get_connection_count room_id w1).1
       = Ok (S (size (room_connections_of (w_connections w) room_id)))
    /\ remove_connection sid w1
       = (Ok (Some {| si_room_id := room_id; si_participant_id := pid; si_role := role |}), w).
Proof.
  intros Hsid Hpid Hne. eexists. split; [done|].
  unfold is_participant_connected, get_connection_count, remove_connection, room_connections_of.
  cbn [fst snd w_connections w_sessions set_registry].
  rewrite !lookup_insert_eq. cbn [default from_option id si_room_id si_participant_id].
  rewrite ?lookup_insert_eq.
  split_and!.
  - by rewrite bool_decide_eq_true_2 by (by eexists).
  - by rewrite map_size_insert_None.
  - rewrite !delete_insert_eq.
    rewrite (delete_id _ pid) by done. rewrite (delete_id _ sid) by done.
    unfold room_connections_of in Hpid.
    destruct w as [d cs ss st mi fs cl rn ck ob]. cbn in *. unfold set_registry. cbn.
    f_equal. f_equal.
    destruct (cs !! room_id) as [conns|] eqn:Hc; cbn in *.
    + rewrite bool_decide_eq_false_2 by congruence.
      rewrite insert_insert_eq. by apply insert_id.
    + rewrite bool_decide_eq_true_2 by done. by apply delete_id.
Qed.

(** Every registered connection belongs to a session that names its room
    and participant, and no room is registered with an empty entry. *)
Definition registry_consistent (w : World) : Prop :=
  forall room_id conns, w_connections w !! room_id = Some conns ->
    conns <> ∅
    /\ forall pid sid, conns !! pid = Some sid ->
         exists role, w_sessions w !! sid
                      = Some {| si_room_id := room_id; si_participant_id := pid;
                                si_role := role |}.

Lemma add_then_remove_connection_witness :
  exists w1,
    add_connection "sid-guest" "Ab12" 2 guest active_world = (Ok tt, w1)
    /\ (is_participant_connected "Ab12" 2 w1).1 = Ok true
    /\ (get_connection_count "Ab12" w1).1
       = Ok (S (size (room_connections_of (w_connections active_world) "Ab12")))
    /\ remove_connection "sid-guest" w1
       = (Ok (Some {| si_room_id := "Ab12"; si_participant_id := 2; si_role := guest |}),
          active_world).
Proof.
  apply (add_then_remove_connection "sid-guest" "Ab12" 2 guest active_world).
  - vm_compute. reflexivity.
  - vm_compute. reflexivity.
  - vm_compute. discriminate.
Defined.

(** X6. The registry keeps its two maps in step: if every registered
    connection belongs to a session that names its room and participant
    and no room has an empty entry, that is still so after
    [add_connection] with a new session id and after any
    [remove_connection]. *)
Theorem registry_stays_consistent sid room_id pid role w :
  registry_consistent w ->
  (w_sessions w !! sid = None ->
   registry_consistent (add_connection sid room_id pid role w).2)
  /\ registry_consistent (remove_connection sid w).2.
Proof.
  intros Hinv. split.
  - intros Hfresh room' conns'. unfold add_connection.
    cbn [snd w_connections w_sessions set_registry].
    assert (Hother : forall r' c' p' s', w_connections w !! r' = Some c' ->
              c' !! p' = Some s' ->
              exists role', <[sid := {| si_room_id := room_id; si_participant_id := pid;
                                        si_role := role |}]> (w_sessions w) !! s'
                            = Some {| si_room_id := r'; si_participant_id := p';
                                      si_role := role' |}).
    { intros r' c' p' s' Hc' Hp'. destruct (Hinv _ _ Hc') as [_ Hs].
      destruct (Hs _ _ Hp') as [role' Hrole']. exists role'.
      rewrite lookup_insert_ne; [done|]. intros <-. congruence. }
    intros [[<- <-]|[Hne Hc']]%lookup_insert_Some.
    + split; [apply insert_non_empty|].
      intros pid' sid' [[<- <-]|[Hne' Hp']]%lookup_insert_Some.
      * exists role. by rewrite lookup_insert_eq.
      * unfold room_connections_of in Hp'.
        destruct (w_connections w !! room_id) as [c0|] eqn:Hc0; [|done].
        by eapply Hother.
    + split; [by apply (Hinv _ _ Hc')|]. intros pid' sid' Hp'. by eapply Hother.
  - intros room' conns'. unfold remove_connection.
    destruct (w_sessions w !! sid) as [info|] eqn:Hinfo; [|apply Hinv].
    cbn [snd w_connections w_sessions set_registry].
    assert (Hother : forall r' c' p' s', w_connections w !! r' = Some c' ->
              c' !! p' = Some s' ->
              (r' <> si_room_id info \/ p' <> si_participant_id info) ->
              exists role', delete sid (w_sessions w) !! s'
                            = Some {| si_room_id := r'; si_participant_id := p';
                                      si_role := role' |}).
    { intros r' c' p' s' Hc' Hp' Hdiff. destruct (Hinv _ _ Hc') as [_ Hs].
      destruct (Hs _ _ Hp') as [role' Hrole']. exists role'.
      rewrite lookup_delete_ne; [done|]. intros <-.
      rewrite Hinfo in Hrole'. injection Hrole' as ->. cbn in Hdiff. by destruct Hdiff. }
    destruct (w_connections w !! si_room_id info) as [c0|] eqn:Hc0.
    + case_bool_decide as Hempty.
      * intros [Hne Hc']%lookup_delete_Some.
        split; [by apply (Hinv _ _ Hc')|]. intros pid' sid' Hp'.
        eapply Hother; [done|done|]. left. congruence.
      * intros [[<- <-]|[Hne Hc']]%lookup_insert_Some.
        -- split; [done|]. intros pid' sid' [Hne' Hp']%lookup_delete_Some.
           eapply Hother; [done|done|]. right. congruence.
        -- split; [by apply (Hinv _ _ Hc')|]. intros pid' sid' Hp'.
           eapply Hother; [done|done|]. left. congruence.
    + intros Hc'. split; [by apply (Hinv _ _ Hc')|]. intros pid' sid' Hp'.
      eapply Hother; [done|done|]. left. congruence.
Qed.

Lemma active_world_consistent : registry_consistent active_world.
Proof.
  intros room_id conns Hconns. cbn [active_world w_connections w_sessions] in *.
  apply lookup_singleton_Some in Hconns as [<- <-].
  split; [apply insert_non_empty|].
  intros pid sid [<- <-]%lookup_singleton_Some. by exists host.
Qed.

Lemma registry_stays_consistent_witness :
  (w_sessions active_world !! "sid-guest" = None ->
   registry_consistent (add_connection "sid-guest" "Ab12" 2 guest active_world).2)
  /\ registry_consistent (remove_connection "sid-guest" active_world).2.
Proof.
  apply (registry_stays_consistent "sid-guest" "Ab12" 2 guest active_world).
  apply active_world_consistent.
Defined.

(** X7. When a participant connects again under a second session id
    before the first is removed, [add_connection] overwrites the room's
    entry; removing the first, stale session then pops the participant's
    entry by participant id, so the participant counts as disconnected
    although the second session is still registered. *)
Theorem stale_session_unregisters_reconnection sid1 sid2 room_id pid role1 role2 w :
  sid1 <> sid2 ->
  let w1 := (add_connection sid1 room_id pid role1 w).2 in
  let w2 := (add_connection sid2 room_id pid role2 w1).2 in
  let w3 := (remove_connection sid1 w2).2 in
  (is_participant_connected room_id pid w2).1 = Ok true
  /\ room_connections_of (w_connections w2) room_id !! pid = Some sid2
  /\ (is_participant_connected room_id pid w3).1 = Ok false
  /\ w_sessions w3 !! sid2
     = Some {| si_room_id := room_id; si_participant_id := pid; si_role := role2 |}.
Proof.
  intros Hne w1 w2 w3. subst w1 w2 w3.
  unfold is_participant_connected, remove_connection, add_connection, room_connections_of.
  cbn [fst snd w_connections w_sessions set_registry].
  rewrite !lookup_insert_eq. cbn [default from_option id].
  rewrite (lookup_insert_ne _ sid2 sid1) by done.
  rewrite ?lookup_insert_eq.
  cbn [fst snd w_connections w_sessions set_registry si_room_id si_participant_id].
  rewrite ?lookup_insert_eq.
  split_and!.
  - by rewrite bool_decide_eq_true_2 by (by eexists).
  - done.
  - apply f_equal, bool_decide_eq_false_2. intros [s Hs]. revert Hs.
    case_bool_decide as Hempty.
    + by rewrite lookup_delete_eq.
    + rewrite lookup_insert_eq. cbn. by rewrite lookup_delete_eq.
  - rewrite lookup_delete_ne by done. by rewrite lookup_insert_eq.
Qed.

Lemma stale_session_unregisters_reconnection_witness :
  (is_participant_connected "Ab12" 1
     (remove_connection "sid-host"
        (add_connection "sid-new" "Ab12" 1 host
           (add_connection "sid-host" "Ab12" 1 host active_world).2).2).2).1
  = Ok false.
Proof.
  apply (stale_session_unregisters_reconnection
           "sid-host" "sid-new" "Ab12" 1 host host active_world).
  discriminate.
Defined.

Section HttpFacts.
Context {cipher : AesGcm}.
Variable crypto_service : CryptoService.

(** X8. With no database fault, [accept_room] turns the caller away and
    changes nothing: 403 "Unauthorized" when the token is for another room
    or not a host's, 404 "Room not found" for an unknown id, and 400 "Room
    already accepted or invalid" when the room is not pending. *)
Theorem accept_room_refusals room_id jwt ip w :
  w_faults w = [] ->
  (td_room_id jwt <> room_id \/ td_role jwt <> host ->
   accept_room crypto_service room_id jwt ip w
   = (Ok (error_response "Unauthorized" 403), w))
  /\ (td_room_id jwt = room_id -> td_role jwt = host ->
      t_rooms (w_db w) !! room_id = None ->
      accept_room crypto_service room_id jwt ip w
      = (Ok (error_response "Room not found" 404), w))
  /\ (forall r, td_room_id jwt = room_id -> td_role jwt = host ->
        t_rooms (w_db w) !! room_id = Some r -> r_status r <> pending ->
        accept_room crypto_service room_id jwt ip w
        = (Ok (error_response "Room already accepted or invalid" 400), w)).
Proof.
  intros Hf. unfold accept_room. split_and!.
  - intros [Hrid|Hrole].
    + by rewrite (bool_decide_eq_false_2 _ Hrid).
    + rewrite (bool_decide_eq_false_2 _ Hrole). cbn [negb]. by rewrite orb_true_r.
  - intros Hrid Hrole Hr. rewrite !bool_decide_eq_true_2 by done. cbn [negb orb].
    unfold Room_get_room. munfold. by rewrite Hf, Hr.
  - intros r Hrid Hrole Hr Hst. rewrite !bool_decide_eq_true_2 by done. cbn [negb orb].
    unfold Room_get_room. munfold. rewrite Hf, Hr.
    by rewrite (bool_decide_eq_false_2 _ Hst).
Qed.

(** The world after [get_or_create_device_id]: a caller without a device
    cookie gets one. *)
Definition after_cookie (w : World) : World :=
  match w_cookie w with
  | Some _ => w
  | None => set_cookie (Some (join_device_id w)) (set_rng (rng_skip 1 (w_rng w)) w)
  end.

Lemma get_or_create_device_id_run w :
  get_or_create_device_id w = (Ok (join_device_id w), after_cookie w).
Proof.
  unfold get_or_create_device_id, after_cookie, join_device_id, generate_device_id.
  by destruct (w_cookie w).
Qed.

(** What the key block of [join_room] hands out. *)
Definition unwrapped_room_key (room_id : string) (d : Db) : option bytes :=
  match sql_select_room_key room_id d with
  | Some enc =>
      match decrypt_room_key crypto_service enc with
      | Ok k => Some k
      | Raise _ => None
      end
  | None => None
  end.

Lemma fetch_room_key_run room_id w :
  w_faults w = [] ->
  fetch_room_key crypto_service room_id w = (Ok (unwrapped_room_key room_id (w_db w)), w).
Proof.
  intros Hf. unfold fetch_room_key, unwrapped_room_key. munfold. rewrite Hf.
  destruct (sql_select_room_key room_id (w_db w)) as [enc|]; [|done].
  by destruct (decrypt_room_key crypto_service enc).
Qed.

Lemma head_filter_same_device room_id device_id (l : list ParticipantRow) :
  head (filter (fun p => same_device room_id device_id p = true) l) = None ->
  existsb (same_device room_id device_id) l = false.
Proof.
  intros Hnone. apply not_true_is_false. intros (p & Hin & Hp)%existsb_exists.
  assert (p ∈ filter (fun p => same_device room_id device_id p = true) l) as Hmem.
  { apply list_elem_of_filter. split; [done|]. by apply list_elem_of_In. }
  destruct (filter _ l); [by apply elem_of_nil in Hmem|done].
Qed.

Definition reconnect_response (room_id : string) (device_id : DeviceId)
    (p : ParticipantRow) (room_key : option bytes) : Response :=
  ([("participant_id", JNat (p_id p));
    ("participant_token",
     JToken {| tok_identity := (room_id, Some (p_id p));
               tok_claims := {| td_room_id := room_id;
                                td_participant_id := Some (p_id p);
                                td_role := p_role p; td_device_id := device_id |} |});
    ("role", JRole (p_role p));
    ("display_name", jopt JStr (p_display_name p));
    ("room_key", jopt JB64 room_key)], 200%nat).

Definition joined_response (room_id : string) (device_id : DeviceId)
    (p : ParticipantRow) (room_key : option bytes) : Response :=
  ([("participant_id", JNat (p_id p));
    ("participant_token",
     JToken {| tok_identity := (room_id, Some (p_id p));
               tok_claims := {| td_room_id := room_id;
                                td_participant_id := Some (p_id p);
                                td_role := p_role p; td_device_id := device_id |} |});
    ("role", JRole (p_role p));
    ("device_bind_required", JBool true);
    ("room_key", jopt JB64 room_key)], 201%nat).

Definition full_response : Response :=
  ([("error", JStr "Room is full");
    ("message", JStr "This room already has 2 participants. Only 2 people can chat at a time.")],
   409%nat).

(** The tables after a fresh join: the new row, and the lock when the
    newcomer is the second participant of an active room. *)
Definition db_after_join (room_id : string) (r : RoomRow) (row : ParticipantRow)
    (persisted : nat) (d : Db) : Db :=
  let d1 := set_participants (t_participants d ++ [row]) (S (seq_participants d)) d in
  if bool_decide (persisted = 1%nat) && status_is active r
  then set_rooms (<[room_id := with_status locked r]> (t_rooms d1)) d1
  else d1.

(** [join_room] on a room that is open for joining, with no database
    fault: the three ways it ends. *)
Lemma join_room_run room_id ip w r :
  w_faults w = [] ->
  t_rooms (w_db w) !! room_id = Some r ->
  status_in [active; locked] r = true ->
  is_expired (w_clock w) r = false ->
  let device_id := join_device_id w in
  let live := size (room_connections_of (w_connections w) room_id) in
  let persisted := length (room_participants room_id (w_db w)) in
  join_room crypto_service room_id ip w
  = match head (filter (fun p => same_device room_id device_id p = true)
                       (t_participants (w_db w))) with
    | Some p =>
        (Ok (reconnect_response room_id device_id p (unwrapped_room_key room_id (w_db w))),
         after_cookie w)
    | None =>
        if bool_decide (2 <= Nat.max live persisted)%nat
        then (Ok full_response, after_cookie w)
        else
          let role := if bool_decide (persisted = 0%nat) then host else guest in
          let row := joined_row room_id ip role w in
          (Ok (joined_response room_id device_id row (unwrapped_room_key room_id (w_db w))),
           set_db (db_after_join room_id r row persisted (w_db w)) (after_cookie w))
    end.
Proof.
  intros Hf Hr Hin Hexp device_id live persisted.
  unfold join_room. unfold Room_get_room at 1. unfold try_except at 1.
  unfold bind at 1. unfold try_except at 1. unfold db_select at 1.
  rewrite Hf, Hr. cbv iota beta. rewrite Hin. cbn [negb].
  unfold bind at 1. unfold utcnow at 1. cbv iota beta. rewrite Hexp.
  unfold bind at 1. rewrite get_or_create_device_id_run. cbv iota beta.
  fold device_id.
  assert (Hw0 : w_db (after_cookie w) = w_db w /\ w_faults (after_cookie w) = []
                /\ w_connections (after_cookie w) = w_connections w
                /\ w_clock (after_cookie w) = w_clock w).
  { unfold after_cookie. by destruct (w_cookie w). }
  destruct Hw0 as (Hdb0 & Hf0 & Hc0 & Hcl0).
  unfold bind at 1. unfold Participant_get_participant_by_device, try_except at 1.
  unfold db_select at 1. rewrite Hf0, Hdb0. cbv iota beta.
  destruct (head (filter _ (t_participants (w_db w)))) as [p|] eqn:Hfind.
  { unfold bind at 1. rewrite fetch_room_key_run by done. rewrite Hdb0. done. }
  apply head_filter_same_device in Hfind.
  unfold bind at 1. unfold get_connection_count at 1. cbv iota beta.
  rewrite Hc0. fold live.
  unfold bind at 1. unfold Participant_count_participants, try_except at 1.
  unfold db_select at 1. rewrite Hf0, Hdb0. cbv iota beta. fold persisted.
  case_bool_decide as Hfull; [done|].
  unfold bind at 1. unfold Participant_create_participant, try_except at 1.
  unfold bind at 1. unfold utcnow at 1. cbv iota beta.
  unfold db_execute at 1. rewrite Hf0. unfold run_statement at 1.
  unfold sql_insert_participant. rewrite Hdb0, Hfind, Hcl0. cbv iota beta.
  set (role := if bool_decide (persisted = 0%nat) then host else guest).
  fold (joined_row room_id ip role w).
  set (row := joined_row room_id ip role w).
  unfold db_after_join. cbv zeta.
  set (d1 := set_participants (t_participants (w_db w) ++ [row])
               (S (seq_participants (w_db w))) (w_db w)).
  assert (Hfk : forall w1, w_faults w1 = [] ->
            unwrapped_room_key room_id (w_db w1) = unwrapped_room_key room_id (w_db w) ->
            (room_key_b64 <- fetch_room_key crypto_service room_id ;;
             ret ([("participant_id", JNat (p_id row));
                   ("participant_token",
                    JToken {| tok_identity := (room_id, Some (p_id row));
                              tok_claims := {| td_room_id := room_id;
                                               td_participant_id := Some (p_id row);
                                               td_role := role;
                                               td_device_id := device_id |} |});
                   ("role", JRole role);
                   ("device_bind_required", JBool true);
                   ("room_key", jopt JB64 room_key_b64)], 201%nat)) w1
            = (Ok (joined_response room_id device_id row
                     (unwrapped_room_key room_id (w_db w))), w1)).
  { intros w1 Hf1 Hk. unfold bind. rewrite fetch_room_key_run by done. by rewrite Hk. }
  case_bool_decide as Hone; cbn [andb].
  - unfold bind at 1. unfold bind at 1. unfold Room_lock_room, try_except at 1.
    unfold bind at 1. unfold db_execute at 1. cbn [w_faults set_db]. rewrite Hf0.
    unfold run_statement at 1. unfold sql_update_room. cbn [w_db set_db t_rooms d1 set_participants].
    fold d1. change (t_rooms d1) with (t_rooms (w_db w)). rewrite Hr.
    destruct (status_is active r) eqn:Hact; cbv iota beta.
    + unfold ret at 1. cbv iota beta. unfold ret at 1. cbv iota beta.
      rewrite Hfk; [done|by cbn|done].
    + unfold ret at 1. cbv iota beta. unfold ret at 1. cbv iota beta.
      rewrite Hfk; [done|by cbn|done].
  - unfold bind at 1. unfold ret at 1. cbv iota beta.
    rewrite Hfk; [done|by cbn|done].
Qed.

Lemma join_room_refused_run room_id ip w :
  w_faults w = [] ->
  match t_rooms (w_db w) !! room_id with
  | None =>
      join_room crypto_service room_id ip w = (Ok (error_response "Room not found" 404), w)
  | Some r =>
      if negb (status_in [active; locked] r)
      then join_room crypto_service room_id ip w
           = (Ok (error_response "Room is not available for joining" 400), w)
      else is_expired (w_clock w) r = true ->
           join_room crypto_service room_id ip w
           = (Ok (error_response "Room has expired" 410), w)
  end.
Proof.
  intros Hf. unfold join_room, Room_get_room. munfold. rewrite Hf.
  destruct (t_rooms (w_db w) !! room_id) as [r|] eqn:Hr; [|done].
  destruct (status_in [active; locked] r); cbn [negb]; [|done].
  by intros ->.
Qed.

(** X9. With no database fault, [join_room] turns the caller away and
    changes nothing: 404 "Room not found" for an unknown id, 400 when the
    room is neither active nor locked, and 410 "Room has expired" when its
    [expires_at] lies in the past. *)
Theorem join_room_refusals room_id ip w :
  w_faults w = [] ->
  (t_rooms (w_db w) !! room_id = None ->
   join_room crypto_service room_id ip w = (Ok (error_response "Room not found" 404), w))
  /\ (forall r, t_rooms (w_db w) !! room_id = Some r ->
        r_status r <> active -> r_status r <> locked ->
        join_room crypto_service room_id ip w
        = (Ok (error_response "Room is not available for joining" 400), w))
  /\ (forall r, t_rooms (w_db w) !! room_id = Some r ->
        (r_status r = active \/ r_status r = locked) ->
        is_expired (w_clock w) r = true ->
        join_room crypto_service room_id ip w
        = (Ok (error_response "Room has expired" 410), w)).
Proof.
  intros Hf. pose proof (join_room_refused_run room_id ip w Hf) as Href.
  split_and!.
  - intros Hr. by rewrite Hr in Href.
  - intros r Hr Ha Hl. rewrite Hr in Href.
    assert (Hin : status_in [active; locked] r = false).
    { apply bool_decide_eq_false. intros Hin.
      apply elem_of_cons in Hin as [?|Hin]; [done|].
      apply elem_of_cons in Hin as [?|Hin]; [done|]. by apply elem_of_nil in Hin. }
    by rewrite Hin in Href.
  - intros r Hr Hst Hexp. rewrite Hr in Href.
    assert (Hin : status_in [active; locked] r = true).
    { apply bool_decide_eq_true. destruct Hst as [-> | ->]; set_solver. }
    rewrite Hin in Href. by apply Href.
Qed.

(** X10. A browser whose device id already has a participant row in an
    open room is not added again: [join_room] answers 200 with that row's
    id, role and display name and the room key, and leaves the database
    and the connection registry as they were. *)
Theorem join_room_reconnect room_id ip w r p :
  w_faults w = [] ->
  t_rooms (w_db w) !! room_id = Some r ->
  (r_status r = active \/ r_status r = locked) ->
  is_expired (w_clock w) r = false ->
  head (filter (fun p => same_device room_id (join_device_id w) p = true)
               (t_participants (w_db w))) = Some p ->
  exists resp w',
    join_room crypto_service room_id ip w = (Ok resp, w')
    /\ snd resp = 200%nat
    /\ body_get "participant_id" (fst resp) = Some (JNat (p_id p))
    /\ body_get "role" (fst resp) = Some (JRole (p_role p))
    /\ body_get "display_name" (fst resp) = Some (jopt JStr (p_display_name p))
    /\ body_get "room_key" (fst resp)
       = Some (jopt JB64 (unwrapped_room_key room_id (w_db w)))
    /\ w_db w' = w_db w
    /\ w_connections w' = w_connections w.
Proof.
  intros Hf Hr Hst Hexp Hp.
  assert (Hin : status_in [active; locked] r = true).
  { apply bool_decide_eq_true. destruct Hst as [-> | ->]; set_solver. }
  rewrite (join_room_run room_id ip w r Hf Hr Hin Hexp). cbv zeta. rewrite Hp.
  do 2 eexists. split; [done|]. split_and!; try done.
  all: unfold after_cookie; by destruct (w_cookie w).
Qed.

(** X11. With no database fault, [join_room] never takes a room beyond two
    participant rows: a room that has at most two before the call has at
    most two after it, whichever room is joined. *)
Theorem join_room_keeps_capacity room_id ip w any_room :
  w_faults w = [] ->
  (length (room_participants any_room (w_db w)) <= 2)%nat ->
  (length (room_participants any_room (w_db (join_room crypto_service room_id ip w).2)) <= 2)%nat.
Proof.
  intros Hf Hcap.
  pose proof (join_room_refused_run room_id ip w Hf) as Href.
  destruct (t_rooms (w_db w) !! room_id) as [r|] eqn:Hr; [|by rewrite Href].
  destruct (status_in [active; locked] r) eqn:Hin; cbn [negb] in Href; [|by rewrite Href].
  destruct (is_expired (w_clock w) r) eqn:Hexp; [by rewrite Href|].
  rewrite (join_room_run room_id ip w r Hf Hr Hin Hexp). cbv zeta.
  assert (Hdb0 : w_db (after_cookie w) = w_db w).
  { unfold after_cookie. by destruct (w_cookie w). }
  destruct (head _) as [p|]; [cbn [snd]; by rewrite Hdb0|].
  case_bool_decide as Hfull; [cbn [snd]; by rewrite Hdb0|].
  cbn [snd w_db set_db]. unfold db_after_join.
  assert (Hparts : forall d', t_participants d' =
              t_participants (w_db w)
                ++ [joined_row room_id ip
                      (if bool_decide (length (room_participants room_id (w_db w)) = 0%nat)
                       then host else guest) w] ->
            (length (room_participants any_room d') <= 2)%nat).
  { intros d' Hd'. unfold room_participants in *. rewrite Hd', filter_app, length_app.
    destruct (decide (any_room = room_id)) as [->|Hne].
    - rewrite filter_cons_True by done. cbn. lia.
    - rewrite filter_cons_False by (cbn; congruence). cbn. lia. }
  destruct (_ && _); by apply Hparts.
Qed.

(** X12. When the database fails on the [COUNT] query of [join_room]
    (after the room and device look-ups went through),
    [Participant.count_participants] reports 0: with fewer than two live
    connections the newcomer is admitted with 201 as [host], whatever
    rows the room already has, and the room is not locked. *)
Theorem join_room_count_failure room_id ip w r e :
  w_faults w = [None; None; Some e] ->
  t_rooms (w_db w) !! room_id = Some r ->
  (r_status r = active \/ r_status r = locked) ->
  is_expired (w_clock w) r = false ->
  existsb (same_device room_id (join_device_id w)) (t_participants (w_db w)) = false ->
  (size (room_connections_of (w_connections w) room_id) < 2)%nat ->
  exists resp w',
    join_room crypto_service room_id ip w = (Ok resp, w')
    /\ snd resp = 201%nat
    /\ body_get "role" (fst resp) = Some (JRole host)
    /\ t_participants (w_db w')
       = t_participants (w_db w) ++ [joined_row room_id ip host w]
    /\ t_rooms (w_db w') = t_rooms (w_db w).
Proof.
  intros Hf Hr Hst Hexp Hfresh Hlive.
  assert (Hin : status_in [active; locked] r = true).
  { apply bool_decide_eq_true. destruct Hst as [-> | ->]; set_solver. }
  assert (Hfind : head (filter (fun p => same_device room_id (join_device_id w) p = true)
                         (t_participants (w_db w))) = None).
  { destruct (filter _ _) as [|p ps] eqn:Hfl; [done|].
    assert (p ∈ filter (fun p => same_device room_id (join_device_id w) p = true)
                  (t_participants (w_db w))) as Hp by (rewrite Hfl; left).
    apply list_elem_of_filter in Hp as [Hp Hmem].
    apply not_true_iff_false in Hfresh. exfalso. apply Hfresh.
    apply existsb_exists. exists p. split; [by apply list_elem_of_In|done]. }
  unfold join_room. unfold Room_get_room at 1. unfold try_except at 1.
  unfold bind at 1. unfold try_except at 1. unfold db_select at 1.
  rewrite Hf, Hr. cbv iota beta. rewrite Hin. cbn [negb].
  unfold bind at 1. unfold utcnow at 1. cbv iota beta. cbn [w_clock set_faults]. rewrite Hexp.
  unfold bind at 1.
  assert (Hgo : get_or_create_device_id (set_faults [None; Some e] w)
                = (Ok (join_device_id w), set_faults [None; Some e] (after_cookie w))).
  { unfold get_or_create_device_id, after_cookie, join_device_id, generate_device_id.
    cbn [w_cookie set_faults]. by destruct (w_cookie w). }
  rewrite Hgo. cbv iota beta.
  assert (Hw0 : w_db (after_cookie w) = w_db w
                /\ w_connections (after_cookie w) = w_connections w
                /\ w_clock (after_cookie w) = w_clock w).
  { unfold after_cookie. by destruct (w_cookie w). }
  destruct Hw0 as (Hdb0 & Hc0 & Hcl0).
  unfold bind at 1. unfold Participant_get_participant_by_device, try_except at 1.
  unfold db_select at 1. cbn [w_faults w_db set_faults]. rewrite Hdb0, Hfind. cbv iota beta.
  unfold bind at 1. unfold get_connection_count at 1. cbv iota beta.
  cbn [w_connections set_faults]. rewrite Hc0.
  unfold bind at 1. unfold Participant_count_participants, try_except at 1.
  unfold db_select at 1. cbn [w_faults set_faults]. cbv iota beta. unfold ret at 1.
  cbv iota beta.
  rewrite Nat.max_0_r. rewrite bool_decide_eq_false_2 by lia.
  rewrite (bool_decide_eq_true_2 (0 = 0)%nat) by done.
  rewrite (bool_decide_eq_false_2 (0 = 1)%nat) by done.
  unfold bind at 1. unfold Participant_create_participant, try_except at 1.
  unfold bind at 1. unfold utcnow at 1. cbv iota beta.
  unfold db_execute at 1. cbn [w_faults set_faults]. unfold run_statement at 1.
  unfold sql_insert_participant. cbn [w_db w_clock set_faults]. rewrite Hdb0, Hfresh, Hcl0.
  cbv iota beta.
  fold (joined_row room_id ip host w).
  unfold bind, ret. rewrite fetch_room_key_run by done.
  do 2 eexists. split; [done|]. cbn. split_and!; try done.
Qed.

End HttpFacts.

Section AcceptThenJoin.
Context {cipher : AesGcm}.
Variable crypto_service : CryptoService.
Hypothesis master_key_length : length (master_key crypto_service) = 32%nat.

Definition db_after_accept (room_id : string) (jwt : TokenData) (ip : string)
    (r : RoomRow) (w : World) : Db :=
  {| t_rooms := <[room_id := with_accepted (w_clock w) (w_clock w + hours24) r]>
                  (t_rooms (w_db w));
     t_room_keys := t_room_keys (w_db w) ++ [(room_id, accept_wrapped_key crypto_service w)];
     t_participants := t_participants (w_db w) ++ [accept_host_row room_id jwt ip w];
     seq_participants := S (seq_participants (w_db w));
     t_messages := t_messages (w_db w); seq_messages := seq_messages (w_db w) |}.

Definition accepted_response (room_id : string) (jwt : TokenData) (p : ParticipantRow)
    (room_key : bytes) : Response :=
  ([("success", JBool true); ("status", JStr "active");
    ("participant_token",
     JToken {| tok_identity := (room_id, Some (p_id p));
               tok_claims := {| td_room_id := room_id;
                                td_participant_id := Some (p_id p);
                                td_role := host; td_device_id := td_device_id jwt |} |});
    ("participant_id", JNat (p_id p));
    ("room_key", JB64 room_key)], 200%nat).

Lemma accept_room_run room_id jwt ip w r :
  td_room_id jwt = room_id -> td_role jwt = host ->
  t_rooms (w_db w) !! room_id = Some r -> r_status r = pending ->
  existsb (same_device room_id (td_device_id jwt)) (t_participants (w_db w)) = false ->
  w_faults w = [] ->
  accept_room crypto_service room_id jwt ip w
  = (Ok (accepted_response room_id jwt (accept_host_row room_id jwt ip w)
           (accept_room_key w)),
     set_db (db_after_accept room_id jwt ip r w)
       (set_rng (rng_skip 12 (rng_skip 32 (w_rng w))) w)).
Proof.
  intros Hrid Hrole Hr Hst Hex Hf.
  unfold db_after_accept, accepted_response, accept_wrapped_key, accept_room_key,
    accept_host_row.
  open_world w. subst.
  unfold accept_room.
  rewrite !bool_decide_eq_true_2 by done. cbn [negb orb].
  unfold Room_get_room. munfold. wsimpl. rewrite Hr.
  rewrite bool_decide_eq_true_2 by done. cbn [negb].
  unfold Room_accept_room. munfold. wsimpl.
  unfold sql_update_room. wsimpl. rewrite Hr.
  unfold status_is. rewrite bool_decide_eq_true_2 by done.
  wsimpl. rewrite bool_decide_eq_true_2 by done. cbn [negb].
  unfold generate_room_key, token_bytes. wsimpl.
  rewrite encrypt_room_key_spec by done. wsimpl.
  unfold Participant_create_participant. munfold. wsimpl.
  unfold sql_insert_participant. wsimpl. rewrite Hex. wsimpl.
  done.
Qed.

Lemma filter_same_device_room_empty room_id device_id (d : Db) :
  room_participants room_id d = [] ->
  filter (fun p => same_device room_id device_id p = true) (t_participants d) = [].
Proof.
  unfold room_participants. intros Hnil.
  destruct (filter (fun p => same_device _ _ p = true) _) as [|p ps] eqn:Hfl; [done|].
  assert (p ∈ filter (fun p => same_device room_id device_id p = true) (t_participants d))
    as [Hp Hin]%list_elem_of_filter by (rewrite Hfl; left).
  unfold same_device in Hp. apply andb_true_iff in Hp as [Hp _].
  apply bool_decide_eq_true in Hp.
  assert (p ∈ filter (fun p => p_room_id p = room_id) (t_participants d)) as Hmem.
  { by apply list_elem_of_filter. }
  rewrite Hnil in Hmem. by apply elem_of_nil in Hmem.
Qed.

(** X13. Accepting a pending room and then joining it from a second
    device: with no fault, [accept_room] answers 200 and [join_room] 201,
    both responses carry the same 32-byte room key, the second participant
    is the guest, and the room ends up locked with rows [host; guest]. *)
Theorem accept_then_join_shares_key room_id jwt host_ip guest_ip guest_device w r :
  td_room_id jwt = room_id -> td_role jwt = host ->
  t_rooms (w_db w) !! room_id = Some r -> r_status r = pending ->
  room_participants room_id (w_db w) = [] ->
  sql_select_room_key room_id (w_db w) = None ->
  w_faults w = [] ->
  (size (room_connections_of (w_connections w) room_id) < 2)%nat ->
  guest_device <> td_device_id jwt ->
  exists resp1 w1 resp2 w2,
    accept_room crypto_service room_id jwt host_ip w = (Ok resp1, w1)
    /\ join_room crypto_service room_id guest_ip (set_cookie (Some guest_device) w1)
       = (Ok resp2, w2)
    /\ snd resp1 = 200%nat /\ snd resp2 = 201%nat
    /\ body_get "room_key" (fst resp1) = Some (JB64 (accept_room_key w))
    /\ body_get "room_key" (fst resp2) = Some (JB64 (accept_room_key w))
    /\ length (accept_room_key w) = 32%nat
    /\ body_get "role" (fst resp2) = Some (JRole guest)
    /\ p_role <$> room_participants room_id (w_db w2) = [host; guest]
    /\ r_status <$> (t_rooms (w_db w2) !! room_id) = Some locked.
Proof.
  intros Hrid Hrole Hr Hst Hnp Hnokey Hf Hlive Hdev.
  pose proof (existsb_same_device_room_empty room_id (td_device_id jwt) _ Hnp) as Hex.
  rewrite (accept_room_run room_id jwt host_ip w r Hrid Hrole Hr Hst Hex Hf).
  set (w1 := set_db _ _).
  set (wg := set_cookie (Some guest_device) w1).
  set (r1 := with_accepted (w_clock w) (w_clock w + hours24) r).
  assert (Hr1 : t_rooms (w_db wg) !! room_id = Some r1) by apply lookup_insert_eq.
  assert (Hin1 : status_in [active; locked] r1 = true).
  { apply bool_decide_eq_true. cbn. set_solver. }
  assert (Hexp1 : is_expired (w_clock wg) r1 = false).
  { unfold is_expired. cbn. apply bool_decide_eq_false_2. unfold hours24. lia. }
  assert (Hparts : room_participants room_id (w_db wg) = [accept_host_row room_id jwt host_ip w]).
  { unfold room_participants in *. cbn. rewrite filter_app, Hnp.
    by rewrite filter_cons_True by done. }
  assert (Hfind : head (filter (fun p => same_device room_id guest_device p = true)
                          (t_participants (w_db wg))) = None).
  { cbn. rewrite filter_app, filter_same_device_room_empty by done.
    rewrite filter_cons_False; [done|].
    unfold same_device. cbn. rewrite (bool_decide_eq_false_2 (td_device_id jwt = guest_device))
      by congruence. by rewrite andb_false_r. }
  assert (Hkey : unwrapped_room_key crypto_service room_id (w_db wg) = Some (accept_room_key w)).
  { unfold unwrapped_room_key, sql_select_room_key in *.
    change (t_room_keys (w_db wg))
      with (t_room_keys (w_db w) ++ [(room_id, accept_wrapped_key crypto_service w)]).
    rewrite filter_app.
    destruct (filter (fun kv => kv.1 = room_id) (t_room_keys (w_db w))) as [|kv kvs] eqn:Hk;
      [|done].
    rewrite filter_cons_True by done. cbn [app head fmap option_fmap option_map snd filter list_filter].
    unfold accept_wrapped_key. rewrite decrypt_room_key_wrapped; [done|done|].
    apply token_bytes_length. }
  pose proof (join_room_run crypto_service room_id guest_ip wg r1 Hf Hr1 Hin1 Hexp1) as Hjoin.
  cbv zeta in Hjoin.
  change (join_device_id wg) with guest_device in Hjoin.
  rewrite Hfind, Hparts, Hkey in Hjoin. cbn [length] in Hjoin.
  change (w_connections wg) with (w_connections w) in Hjoin.
  rewrite bool_decide_eq_false_2 in Hjoin by lia.
  rewrite (bool_decide_eq_false_2 (1 = 0)%nat) in Hjoin by done.
  do 4 eexists. split; [done|]. split; [exact Hjoin|].
  split_and!; try done.
  - cbn [snd w_db set_db]. unfold db_after_join.
    rewrite (bool_decide_eq_true_2 (1 = 1)%nat) by done.
    replace (status_is active r1) with true by (symmetry; by apply bool_decide_eq_true_2).
    cbn [andb]. unfold room_participants in *. cbn.
    cbn in Hparts. rewrite filter_app, Hparts.
    by rewrite filter_cons_True by done.
  - cbn [snd w_db set_db]. unfold db_after_join.
    rewrite (bool_decide_eq_true_2 (1 = 1)%nat) by done.
    replace (status_is active r1) with true by (symmetry; by apply bool_decide_eq_true_2).
    cbn [andb]. cbn. by rewrite lookup_insert_eq.
Qed.

End AcceptThenJoin.

Definition guest_jwt : TokenData :=
  {| td_room_id := "Ab12"; td_participant_id := Some 2%nat; td_role := guest;
     td_device_id := 88%Z |}.

Lemma accept_room_refusals_witness :
  @accept_room ToyGcm example_crypto "Ab12" guest_jwt "10.0.0.2" (pending_world [])
  = (Ok (error_response "Unauthorized" 403), pending_world []).
Proof.
  apply (@accept_room_refusals ToyGcm example_crypto "Ab12" guest_jwt "10.0.0.2"
           (pending_world [])).
  - reflexivity.
  - right. discriminate.
Defined.

Lemma join_room_refusals_witness :
  @join_room ToyGcm example_crypto "Ab12" "10.0.0.3" expired_world
  = (Ok (error_response "Room has expired" 410), expired_world).
Proof.
  apply (@join_room_refusals ToyGcm example_crypto "Ab12" "10.0.0.3" expired_world)
    with (r := with_status locked accepted_room).
  - reflexivity.
  - reflexivity.
  - right. reflexivity.
  - reflexivity.
Defined.

(** The host's browser, which holds the device cookie 77, joins again. *)
Definition returning_host_world : World := set_cookie (Some 77%Z) active_world.

Lemma join_room_reconnect_witness :
  exists resp w',
    @join_room ToyGcm example_crypto "Ab12" "10.0.0.1" returning_host_world = (Ok resp, w')
    /\ snd resp = 200%nat
    /\ body_get "participant_id" (fst resp) = Some (JNat 1)
    /\ body_get "role" (fst resp) = Some (JRole host)
    /\ body_get "display_name" (fst resp) = Some (JStr "Ann")
    /\ body_get "room_key" (fst resp)
       = Some (jopt JB64 (@unwrapped_room_key ToyGcm example_crypto "Ab12"
                            (w_db returning_host_world)))
    /\ w_db w' = w_db returning_host_world
    /\ w_connections w' = w_connections returning_host_world.
Proof.
  apply (@join_room_reconnect ToyGcm example_crypto "Ab12" "10.0.0.1"
           returning_host_world accepted_room host_row).
  - reflexivity.
  - reflexivity.
  - left. reflexivity.
  - reflexivity.
  - reflexivity.
Defined.

Lemma join_room_keeps_capacity_witness :
  (length (room_participants "Ab12"
             (w_db (@join_room ToyGcm example_crypto "Ab12" "10.0.0.2" active_world).2))
   <= 2)%nat.
Proof.
  apply (@join_room_keeps_capacity ToyGcm example_crypto "Ab12" "10.0.0.2" active_world
           "Ab12").
  - reflexivity.
  - vm_compute. lia.
Defined.

(** Host and guest have their rows but no live connection, a third
    browser joins, and the database fails on the count. *)
Definition count_failure_world : World :=
  set_registry ∅ ∅ (set_faults [None; None; Some connection_lost] locked_world).

Lemma join_room_count_failure_witness :
  exists resp w',
    @join_room ToyGcm example_crypto "Ab12" "10.0.0.3" count_failure_world = (Ok resp, w')
    /\ snd resp = 201%nat
    /\ body_get "role" (fst resp) = Some (JRole host)
    /\ t_participants (w_db w')
       = [host_row; guest_row] ++ [joined_row "Ab12" "10.0.0.3" host count_failure_world]
    /\ t_rooms (w_db w') = t_rooms (w_db count_failure_world).
Proof.
  apply (@join_room_count_failure ToyGcm example_crypto "Ab12" "10.0.0.3"
           count_failure_world (with_status locked accepted_room) connection_lost).
  - reflexivity.
  - reflexivity.
  - right. reflexivity.
  - reflexivity.
  - reflexivity.
  - vm_compute. lia.
Defined.

Lemma accept_then_join_shares_key_witness :
  exists resp1 w1 resp2 w2,
    @accept_room ToyGcm example_crypto "Ab12" host_jwt "10.0.0.1" (pending_world [])
    = (Ok resp1, w1)
    /\ @join_room ToyGcm example_crypto "Ab12" "10.0.0.2" (set_cookie (Some 88%Z) w1)
       = (Ok resp2, w2)
    /\ snd resp1 = 200%nat /\ snd resp2 = 201%nat
    /\ body_get "room_key" (fst resp1) = Some (JB64 (accept_room_key (pending_world [])))
    /\ body_get "room_key" (fst resp2) = Some (JB64 (accept_room_key (pending_world [])))
    /\ length (accept_room_key (pending_world [])) = 32%nat
    /\ body_get "role" (fst resp2) = Some (JRole guest)
    /\ p_role <$> room_participants "Ab12" (w_db w2) = [host; guest]
    /\ r_status <$> (t_rooms (w_db w2) !! "Ab12") = Some locked.
Proof.
  apply (@accept_then_join_shares_key ToyGcm example_crypto example_master_key_length
           "Ab12" host_jwt "10.0.0.1" "10.0.0.2" 88%Z (pending_world [])
           (new_room "Ab12" 1000%Z)).
  all: try reflexivity.
  - vm_compute. lia.
  - discriminate.
Defined.

Lemma set_db_same w : set_db (w_db w) w = w.
Proof. by destruct w. Qed.

Lemma Room_close_room_run room_id reason w :
  w_faults w = [] ->
  Room_close_room room_id reason w
  = match t_rooms (w_db w) !! room_id with
    | Some r =>
        if status_in [active; locked] r
        then (Ok true,
              set_db (set_rooms (<[room_id := with_closed (w_clock w) r]> (t_rooms (w_db w)))
                        (w_db w)) w)
        else (Ok false, w)
    | None => (Ok false, w)
    end.
Proof.
  intros Hf. unfold Room_close_room, sql_update_room. munfold. rewrite Hf.
  destruct (t_rooms (w_db w) !! room_id) as [r|].
  2:{ rewrite set_db_same. by rewrite bool_decide_eq_false_2 by (by intros [? ?]). }
  destruct (status_in [active; locked] r).
  - done.
  - rewrite set_db_same. by rewrite bool_decide_eq_false_2 by (by intros [? ?]).
Qed.

Section DestroyFacts.
Context {cipher : AesGcm}.
Variable crypto_service : CryptoService.

(** X14. [destroy_room] on an active or locked room, with no database
    fault, answers 200 and closes the row, leaving participants, messages
    and the room key in place; from then on the room can be neither
    joined (400) nor accepted (400, or 403 for a guest's token), and a
    second [destroy_room] answers 500 "Failed to destroy room". *)
Theorem destroy_room_closes_for_good room_id jwt ip w r :
  w_faults w = [] ->
  td_room_id jwt = room_id ->
  t_rooms (w_db w) !! room_id = Some r ->
  (r_status r = active \/ r_status r = locked) ->
  exists w1,
    destroy_room room_id jwt w = (Ok ([("success", JBool true)], 200%nat), w1)
    /\ t_rooms (w_db w1) = <[room_id := with_closed (w_clock w) r]> (t_rooms (w_db w))
    /\ t_participants (w_db w1) = t_participants (w_db w)
    /\ t_messages (w_db w1) = t_messages (w_db w)
    /\ t_room_keys (w_db w1) = t_room_keys (w_db w)
    /\ join_room crypto_service room_id ip w1
       = (Ok (error_response "Room is not available for joining" 400), w1)
    /\ accept_room crypto_service room_id jwt ip w1
       = (Ok (error_response (if bool_decide (td_role jwt = host)
                              then "Room already accepted or invalid" else "Unauthorized")
                             (if bool_decide (td_role jwt = host) then 400 else 403)), w1)
    /\ destroy_room room_id jwt w1
       = (Ok (error_response "Failed to destroy room" 500), w1).
Proof.
  intros Hf Hrid Hr Hst.
  assert (Hin : status_in [active; locked] r = true).
  { apply bool_decide_eq_true. destruct Hst as [-> | ->]; set_solver. }
  unfold destroy_room, try_except, bind.
  rewrite (bool_decide_eq_true_2 _ Hrid). cbn [negb].
  rewrite Room_close_room_run by done. rewrite Hr, Hin.
  eexists. split; [done|].
  set (w1 := set_db _ w).
  assert (Hr1 : t_rooms (w_db w1) !! room_id = Some (with_closed (w_clock w) r))
    by apply lookup_insert_eq.
  split_and!; try done.
  - unfold join_room, Room_get_room. munfold.
    change (w_faults w1) with (w_faults w). rewrite Hf, Hr1. done.
  - unfold accept_room. rewrite (bool_decide_eq_true_2 _ Hrid). cbn [negb orb].
    case_bool_decide as Hrole; cbn [negb]; [|done].
    unfold Room_get_room. munfold.
    change (w_faults w1) with (w_faults w). rewrite Hf, Hr1. done.
  - rewrite Room_close_room_run by done. rewrite Hr1. done.
Qed.

End DestroyFacts.

(** X15. With no database fault, [destroy_room] answers 403 to a token of
    another room, and 500 "Failed to destroy room" when the room is
    unknown, still pending, or already closed or archived; in each case
    nothing changes. In particular a host cannot destroy a room before
    accepting it. *)
Theorem destroy_room_refusals room_id jwt w :
  w_faults w = [] ->
  (td_room_id jwt <> room_id ->
   destroy_room room_id jwt w = (Ok (error_response "Unauthorized" 403), w))
  /\ (td_room_id jwt = room_id ->
      match t_rooms (w_db w) !! room_id with
      | Some r => r_status r = pending \/ r_status r = closed \/ r_status r = archived
      | None => True
      end ->
      destroy_room room_id jwt w = (Ok (error_response "Failed to destroy room" 500), w)).
Proof.
  intros Hf. unfold destroy_room, try_except, bind. split.
  - intros Hne. by rewrite (bool_decide_eq_false_2 _ Hne).
  - intros Hrid Hroom. rewrite (bool_decide_eq_true_2 _ Hrid). cbn [negb].
    rewrite Room_close_room_run by done.
    destruct (t_rooms (w_db w) !! room_id) as [r|]; [|done].
    replace (status_in [active; locked] r) with false; [done|].
    unfold status_in. by destruct Hroom as [-> | [-> | ->]].
Qed.

(** ** Display names *)

Lemma lookup_participant_fmap (f : ParticipantRow -> ParticipantRow) pid l :
  (forall p, p_id (f p) = p_id p) ->
  head (filter (fun p => p_id p = pid) (f <$> l))
  = f <$> head (filter (fun p => p_id p = pid) l).
Proof.
  intros Hid. induction l as [|p l IH]; [done|]. cbn [fmap list_fmap].
  destruct (decide (p_id p = pid)) as [Hp|Hp].
  - rewrite !filter_cons_True by (by rewrite ?Hid). done.
  - rewrite !filter_cons_False by (by rewrite ?Hid). done.
Qed.

(** X16. [set_display_name] with the caller's own room and a string
    name, no database fault: a name that is empty after stripping white
    space is refused with 400; otherwise the stripped name is stored on
    the row of the token's participant, and only there, and a later
    [get_participant] returns it; a token without a participant, or whose
    participant has no row, gets 500. The rooms table is untouched. *)
Theorem set_display_name_outcome room_id jwt data raw w :
  w_faults w = [] ->
  td_room_id jwt = room_id ->
  json_get "display_name" data = Some (JsStr raw) ->
  let name := str_strip raw in
  let found := td_participant_id jwt
                 ≫= (fun pid => head (filter (fun p => p_id p = pid)
                                         (t_participants (w_db w)))) in
  exists resp w',
    set_display_name room_id jwt (Some data) w = (Ok resp, w')
    /\ if bool_decide (name = "")
       then resp = error_response "Display name cannot be empty" 400 /\ w' = w
       else match found with
            | Some p =>
                resp = ([("success", JBool true)], 200%nat)
                /\ (Participant_get_participant (p_id p) w').1
                   = Ok (Some (with_display_name name p))
                /\ t_participants (w_db w')
                   = (fun q => if bool_decide (p_id q = p_id p)
                               then with_display_name name q else q)
                       <$> t_participants (w_db w)
                /\ t_rooms (w_db w') = t_rooms (w_db w)
            | None =>
                resp = error_response "Failed to set display name" 500 /\ w' = w
            end.
Proof.
  intros Hf Hrid Hdata name found.
  unfold set_display_name. rewrite (bool_decide_eq_true_2 _ Hrid). cbn [negb].
  cbn [mbind option_bind]. rewrite Hdata. fold name.
  case_bool_decide as Hname.
  { unfold try_except, ret. by do 2 eexists. }
  unfold Participant_set_display_name, sql_update_display_name. munfold. rewrite Hf.
  subst found. destruct (td_participant_id jwt) as [pid|]; cbn [mbind option_bind].
  2:{ cbn. rewrite set_db_same. by do 2 eexists. }
  destruct (head (filter (fun p => p_id p = pid) (t_participants (w_db w)))) as [p|] eqn:Hp.
  - assert (Hpid : p_id p = pid /\ p ∈ t_participants (w_db w)).
    { destruct (filter _ _) as [|p0 ps] eqn:Hfl; [done|]. injection Hp as ->.
      assert (p ∈ filter (fun p => p_id p = pid) (t_participants (w_db w)))
        as [? ?]%list_elem_of_filter by (rewrite Hfl; left). done. }
    destruct Hpid as [Hpid Hmem].
    replace (existsb _ _) with true.
    2:{ symmetry. apply existsb_exists. exists p. split; [by apply list_elem_of_In|].
        by apply bool_decide_eq_true_2. }
    cbn.
    do 2 eexists. split; [done|]. split_and!; try done.
    + unfold Participant_get_participant. munfold. cbn. rewrite Hf. cbn.
      rewrite Hpid.
      rewrite (lookup_participant_fmap
                 (fun p0 => if bool_decide (p_id p0 = pid)
                            then with_display_name name p0 else p0)).
      2:{ intros q. by case_bool_decide. }
      rewrite Hp. cbn. by rewrite bool_decide_eq_true_2.
    + by rewrite Hpid.
  - replace (existsb _ _) with false.
    2:{ symmetry. apply not_true_is_false. intros (q & Hin & Hq)%existsb_exists.
        apply bool_decide_eq_true in Hq.
        assert (q ∈ filter (fun p => p_id p = pid) (t_participants (w_db w))) as Hmem.
        { apply list_elem_of_filter. split; [done|]. by apply list_elem_of_In. }
        destruct (filter _ _); [by apply elem_of_nil in Hmem|done]. }
    cbn. rewrite set_db_same. by do 2 eexists.
Qed.

Lemma destroy_room_closes_for_good_witness :
  exists w1,
    destroy_room "Ab12" host_jwt locked_world = (Ok ([("success", JBool true)], 200%nat), w1)
    /\ t_rooms (w_db w1)
       = <["Ab12" := with_closed 4000%Z (with_status locked accepted_room)]>
           (t_rooms (w_db locked_world))
    /\ @join_room ToyGcm example_crypto "Ab12" "10.0.0.3" w1
       = (Ok (error_response "Room is not available for joining" 400), w1)
    /\ destroy_room "Ab12" host_jwt w1
       = (Ok (error_response "Failed to destroy room" 500), w1).
Proof.
  destruct (@destroy_room_closes_for_good ToyGcm example_crypto "Ab12" host_jwt "10.0.0.3"
              locked_world (with_status locked accepted_room))
    as (w1 & Hrun & Hrooms & _ & _ & _ & Hjoin & _ & Hagain).
  - reflexivity.
  - reflexivity.
  - reflexivity.
  - right. reflexivity.
  - exists w1. split_and!; assumption.
Defined.

Lemma destroy_room_refusals_witness :
  destroy_room "Ab12" host_jwt (pending_world [])
  = (Ok (error_response "Failed to destroy room" 500), pending_world []).
Proof.
  apply (destroy_room_refusals "Ab12" host_jwt (pending_world [])).
  - reflexivity.
  - reflexivity.
  - vm_compute. left. reflexivity.
Defined.

Lemma set_display_name_outcome_witness :
  exists resp w',
    set_display_name "Ab12" guest_jwt (Some [("display_name", JsStr "  Bob ")]) locked_world
    = (Ok resp, w')
    /\ resp = ([("success", JBool true)], 200%nat)
    /\ (Participant_get_participant 2 w').1 = Ok (Some (with_display_name "Bob" guest_row)).
Proof.
  destruct (set_display_name_outcome "Ab12" guest_jwt [("display_name", JsStr "  Bob ")]
              "  Bob " locked_world)
    as (resp & w' & Hrun & Hrest).
  - reflexivity.
  - reflexivity.
  - reflexivity.
  - exists resp, w'. split; [exact Hrun|].
    destruct Hrest as (Hresp & Hget & _). split; [exact Hresp|exact Hget].
Defined.

(** ** Running socket handlers *)

Ltac sunfold :=
  unfold sbind, sret, stry, sraise, call, send, get_session, set_session.

Ltac ssimpl :=
  cbn [sk_world sk_session sk_sent fst snd negb orb andb] in *.

Lemma call_run {A} (m : M A) s r w' :
  m (sk_world s) = (r, w') ->
  call m s = (r, {| sk_world := w'; sk_session := sk_session s; sk_sent := sk_sent s |}).
Proof. unfold call. by intros ->. Qed.

Lemma validate_device_access_run room_id pid dev w :
  w_faults w = [] ->
  Participant_validate_device_access room_id pid dev w
  = (Ok (bool_decide (is_Some (sql_select_device_access room_id pid dev (w_db w)))), w).
Proof. intros Hf. unfold Participant_validate_device_access. munfold. by rewrite Hf. Qed.

Lemma Room_get_room_run room_id w :
  w_faults w = [] -> Room_get_room room_id w = (Ok (t_rooms (w_db w) !! room_id), w).
Proof. intros Hf. unfold Room_get_room. munfold. by rewrite Hf. Qed.

Lemma get_participant_run pid w :
  w_faults w = [] ->
  Participant_get_participant pid w
  = (Ok (head (filter (fun p => p_id p = pid) (t_participants (w_db w)))), w).
Proof. intros Hf. unfold Participant_get_participant. munfold. by rewrite Hf. Qed.

Lemma get_room_participants_run room_id w :
  w_faults w = [] ->
  Participant_get_room_participants room_id w
  = (Ok (order_by p_joined_at (room_participants room_id (w_db w))), w).
Proof. intros Hf. unfold Participant_get_room_participants. munfold. by rewrite Hf. Qed.

(** Whether [on_connect] lets a token in. *)
Definition admitted (room_id : string) (pid : nat) (dev : DeviceId) (d : Db) : bool :=
  bool_decide (is_Some (sql_select_device_access room_id pid dev d))
  && from_option (status_in [active; locked]) false (t_rooms d !! room_id).

Definition registered (sid room_id : string) (pid : nat) (role : Role) (w : World) : World :=
  set_registry
    (<[room_id := <[pid := sid]> (room_connections_of (w_connections w) room_id)]>
       (w_connections w))
    (<[sid := {| si_room_id := room_id; si_participant_id := pid; si_role := role |}]>
       (w_sessions w)) w.

Definition connect_events (room_id : string) (pid : nat) (role : Role) (w1 : World)
  : list SocketEvent :=
  let participant := head (filter (fun p => p_id p = pid) (t_participants (w_db w1))) in
  let all_participants := order_by p_joined_at (room_participants room_id (w_db w1)) in
  let connected_count := size (room_connections_of (w_connections w1) room_id) in
  [do_join_room room_id;
   send_participant_connected room_id pid role (participant ≫= p_display_name);
   send_connection_status_update room_id connected_count (length all_participants)
     (bool_decide (2 <= connected_count)%nat)
     ((fun p => {| ps_row := p;
                   ps_is_connected :=
                     bool_decide (is_Some (room_connections_of (w_connections w1) room_id
                                             !! p_id p)) |}) <$> all_participants)]
  ++ match t_rooms (w_db w1) !! room_id with
     | Some room =>
         (if bool_decide (r_status room = locked) then [send_room_locked room_id] else [])
         ++ match r_expires_at room with
            | Some expires_at =>
                if bool_decide (0 < expires_at - w_clock w1)%Z
                then [send_timer_update (expires_at - w_clock w1)] else []
            | None => []
            end
     | None => []
     end.

Lemma on_connect_run sid tok s pid :
  w_faults (sk_world s) = [] ->
  td_room_id tok <> "" ->
  td_participant_id tok = Some pid -> pid <> 0%nat ->
  let room_id := td_room_id tok in
  let w := sk_world s in
  on_connect sid (Some tok) s
  = if admitted room_id pid (td_device_id tok) (w_db w)
    then (Ok true,
          {| sk_world := registered sid room_id pid (td_role tok) w;
             sk_session := {| cs_room_id := Some room_id; cs_participant_id := Some pid;
                              cs_device_id := Some (td_device_id tok);
                              cs_role := Some (td_role tok) |};
             sk_sent := sk_sent s
                        ++ connect_events room_id pid (td_role tok)
                             (registered sid room_id pid (td_role tok) w) |})
    else (Ok false,
          {| sk_world := w; sk_session := sk_session s;
             sk_sent := sk_sent s ++ [do_disconnect] |}).
Proof.
  intros Hf Hrid Hpid Hnz room_id w.
  unfold on_connect, admitted. fold room_id.
  unfold present_str, present_nat. rewrite Hpid.
  rewrite (bool_decide_eq_false_2 _ Hrid), (bool_decide_eq_false_2 _ Hnz).
  unfold stry at 1. unfold sbind at 1.
  rewrite (call_run _ s _ _ (validate_device_access_run _ _ _ _ Hf)). fold w.
  destruct (bool_decide (is_Some _)); cbn [negb andb]; [|done].
  unfold sbind at 1.
  match goal with |- context [call (Room_get_room room_id) ?S] =>
    rewrite (call_run _ S _ _ (Room_get_room_run room_id _ Hf)) end.
  ssimpl. fold w.
  destruct (t_rooms (w_db w) !! room_id) as [room|] eqn:Hroom; cbn [from_option]; [|done].
  destruct (status_in [active; locked] room); cbn [negb]; [|done].
  sunfold. ssimpl. unfold add_connection. ssimpl.
  fold (registered sid room_id pid (td_role tok) w).
  set (w1 := registered sid room_id pid (td_role tok) w).
  assert (Hf1 : w_faults w1 = []) by done.
  rewrite (get_participant_run pid w1 Hf1). cbv beta iota. ssimpl.
  rewrite (get_room_participants_run room_id w1 Hf1). cbv beta iota. ssimpl.
  unfold get_connection_count. cbv beta iota. ssimpl.
  rewrite mark_connected_run. cbv beta iota. ssimpl.
  unfold connect_events.
  change (t_rooms (w_db w1)) with (t_rooms (w_db w)). rewrite Hroom.
  unfold utcnow.
  case_bool_decide as Hlocked; destruct (r_expires_at room) as [e|]; ssimpl;
    try case_bool_decide; ssimpl; rewrite <- ?app_assoc; done.
Qed.

(** X17. [on_connect] with a token that names a room and a participant,
    no database fault: the connection is accepted exactly when the
    participant has a row in that room with the token's device id and the
    room is active or locked. If so the participant is registered under
    the socket id, the session holds the token's claims, the database is
    unchanged, and the events are the presence notice, the status update
    and, as they apply, [room_locked] and [timer_update]; if not, the only
    effect is [disconnect()]. *)
Theorem on_connect_admission sid tok s pid :
  w_faults (sk_world s) = [] ->
  td_room_id tok <> "" ->
  td_participant_id tok = Some pid -> pid <> 0%nat ->
  let room_id := td_room_id tok in
  let w := sk_world s in
  exists b s',
    on_connect sid (Some tok) s = (Ok b, s')
    /\ (b = true <->
        (exists p, p ∈ t_participants (w_db w) /\ p_room_id p = room_id /\ p_id p = pid
                   /\ p_device_id p = td_device_id tok)
        /\ (exists r, t_rooms (w_db w) !! room_id = Some r
                      /\ (r_status r = active \/ r_status r = locked)))
    /\ if b
       then (is_participant_connected room_id pid (sk_world s')).1 = Ok true
            /\ w_sessions (sk_world s') !! sid
               = Some {| si_room_id := room_id; si_participant_id := pid;
                         si_role := td_role tok |}
            /\ sk_session s'
               = {| cs_room_id := Some room_id; cs_participant_id := Some pid;
                    cs_device_id := Some (td_device_id tok);
                    cs_role := Some (td_role tok) |}
            /\ w_db (sk_world s') = w_db w
            /\ sk_sent s' = sk_sent s
                            ++ connect_events room_id pid (td_role tok) (sk_world s')
       else sk_world s' = w /\ sk_session s' = sk_session s
            /\ sk_sent s' = sk_sent s ++ [do_disconnect].
Proof.
  intros Hf Hrid Hpid Hnz room_id w.
  rewrite (on_connect_run sid tok s pid Hf Hrid Hpid Hnz). cbv zeta. fold room_id w.
  assert (Hadm : admitted room_id pid (td_device_id tok) (w_db w) = true <->
    (exists p, p ∈ t_participants (w_db w) /\ p_room_id p = room_id /\ p_id p = pid
               /\ p_device_id p = td_device_id tok)
    /\ (exists r, t_rooms (w_db w) !! room_id = Some r
                  /\ (r_status r = active \/ r_status r = locked))).
  { unfold admitted, sql_select_device_access. rewrite andb_true_iff, bool_decide_eq_true.
    apply Morphisms_Prop.and_iff_morphism.
    - rewrite fmap_is_Some. split.
      + intros [p Hp]. exists p.
        destruct (filter _ _) as [|p0 ps] eqn:Hfl; [done|]. injection Hp as ->.
        assert (p ∈ filter (fun p => p_room_id p = room_id /\ p_id p = pid
                                     /\ p_device_id p = td_device_id tok)
                      (t_participants (w_db w)))
          as [? ?]%list_elem_of_filter by (rewrite Hfl; left).
        tauto.
      + intros (p & Hin & Hp).
        assert (p ∈ filter (fun p => p_room_id p = room_id /\ p_id p = pid
                                     /\ p_device_id p = td_device_id tok)
                      (t_participants (w_db w))) as Hmem
          by (by apply list_elem_of_filter).
        destruct (filter _ _); [by apply elem_of_nil in Hmem|by eexists].
    - destruct (t_rooms (w_db w) !! room_id) as [r|]; cbn.
      + unfold status_in. rewrite bool_decide_eq_true. split.
        * intros Hin. exists r. split; [done|].
          apply elem_of_cons in Hin as [?|Hin]; [by left|].
          apply list_elem_of_singleton in Hin. by right.
        * intros (r' & [= <-] & [-> | ->]); [left|right; left].
      + split; [done|]. by intros (r & ? & _). }
  destruct (admitted room_id pid (td_device_id tok) (w_db w)).
  - do 2 eexists. split; [done|]. split; [by rewrite <- Hadm|].
    cbn [sk_world sk_session sk_sent]. split_and!; try done.
    + unfold is_participant_connected, registered, room_connections_of. cbn.
      rewrite lookup_insert_eq. cbn. rewrite lookup_insert_eq.
      by rewrite bool_decide_eq_true_2 by (by eexists).
    + unfold registered. cbn. by rewrite lookup_insert_eq.
  - do 2 eexists. split; [done|]. split; [|done].
    rewrite <- Hadm. done.
Qed.

(** The disconnect handler, with what it leaves for later requests. *)
Lemma on_disconnect_effect sid session w room_id pid role :
  w_faults w = [] ->
  ss_room_id session = Some room_id -> ss_participant_id session = Some pid ->
  room_id <> "" -> pid <> 0%nat ->
  w_sessions w !! sid
    = Some {| si_room_id := room_id; si_participant_id := pid; si_role := role |} ->
  exists w',
    on_disconnect sid session w = (Ok tt, w')
    /\ w_faults w' = []
    /\ w_clock w' = w_clock w
    /\ w_cookie w' = w_cookie w
    /\ t_room_keys (w_db w') = t_room_keys (w_db w)
    /\ t_messages (w_db w') = t_messages (w_db w)
    /\ seq_participants (w_db w') = seq_participants (w_db w)
    /\ room_connections_of (w_connections w') room_id
       = delete pid (room_connections_of (w_connections w) room_id)
    /\ t_participants (w_db w')
       = filter (fun p => p_id p <> pid
                          /\ (p_room_id p = room_id
                              -> is_Some (room_connections_of (w_connections w') room_id
                                            !! p_id p)))
                (t_participants (w_db w))
    /\ (forall r, t_rooms (w_db w) !! room_id = Some r ->
          t_rooms (w_db w') !! room_id
          = Some (if bool_decide
                       (size (room_connections_of (w_connections w') room_id) < 2
                        /\ r_status r = locked)%nat
                  then with_status active r else r)).
Proof.
  intros Hf Hrid Hpid Hne Hnz Hsess.
  match goal with |- exists w', _ = _ /\ @?P w' => set (Post := P) end.
  unfold on_disconnect. rewrite Hrid, Hpid.
  rewrite !bool_decide_eq_true_2 by done. cbn [andb].
  unfold try_except at 1. unfold bind at 1. unfold remove_connection.
  rewrite Hsess. cbn [si_room_id si_participant_id].
  fold (connections_after_remove (w_connections w) room_id pid).
  pose proof (room_connections_after_remove (w_connections w) room_id pid) as Hlive.
  revert Hlive Post.
  generalize (connections_after_remove (w_connections w) room_id pid) as cs'.
  intros cs' Hlive Post.
  unfold Participant_get_participant, Participant_remove_participant, emit,
    get_room_connections, sql_delete_participant. munfold.
  open_world w. subst. wsimpl.
  rewrite cleanup_run by reflexivity. wsimpl.
  rewrite length_map_keys.
  unfold Room_get_room, Room_unlock_room, Participant_get_room_participants,
    sql_update_room, status_is. munfold. wsimpl.
  assert (Hparts :
    filter (fun p => p_room_id p = room_id
                     -> p_id p ∈ (map_to_list (room_connections_of cs' room_id)).*1)
      (filter (fun p => p_id p <> pid) D_parts)
    = filter (fun p => p_id p <> pid
                       /\ (p_room_id p = room_id
                           -> is_Some (room_connections_of cs' room_id !! p_id p)))
        D_parts).
  { rewrite list_filter_filter. apply list_filter_iff. intros p.
    rewrite elem_of_map_keys. tauto. }
  case_bool_decide as Hlt; mstep.
  - destruct (D_rooms !! room_id) as [r|] eqn:Hr; mstep.
    + case_bool_decide as Hlocked; mstep.
      * rewrite Hr. rewrite bool_decide_eq_true_2 by done. mstep.
        rewrite mark_connected_run. mstep.
        eexists. split; [done|]. subst Post. mstep.
        split_and!;
          first [ done
                | intros r' [= <-]; rewrite lookup_insert_eq;
                  by rewrite bool_decide_eq_true_2 ].
      * rewrite mark_connected_run. mstep.
        eexists. split; [done|]. subst Post. mstep.
        split_and!;
          first [ done
                | intros r' [= <-]; rewrite Hr;
                  rewrite bool_decide_eq_false_2; [done|]; by intros [_ ?] ].
    + rewrite mark_connected_run. mstep.
      eexists. split; [done|]. subst Post. mstep.
      split_and!; done.
  - rewrite mark_connected_run. mstep.
    eexists. split; [done|]. subst Post. mstep.
    split_and!;
      first [ done
            | intros r Hr; rewrite Hr;
              rewrite bool_decide_eq_false_2; [done|]; by intros [? _] ].
Qed.

(** X18. [on_disconnect] deletes the participant's row, so the same
    token does not get in again: after the handler ran for a registered
    session, no row has the participant's id, and [on_connect] with that
    token, under any socket id, answers with [disconnect()] and changes
    nothing. *)
Theorem reconnect_after_disconnect_is_refused sid tok w pid role :
  w_faults w = [] ->
  td_room_id tok <> "" ->
  td_participant_id tok = Some pid -> pid <> 0%nat ->
  w_sessions w !! sid
    = Some {| si_room_id := td_room_id tok; si_participant_id := pid; si_role := role |} ->
  let session := {| ss_room_id := Some (td_room_id tok); ss_participant_id := Some pid;
                    ss_role := Some (td_role tok) |} in
  exists w',
    on_disconnect sid session w = (Ok tt, w')
    /\ Forall (fun p => p_id p <> pid) (t_participants (w_db w'))
    /\ (forall new_sid s, sk_world s = w' ->
          on_connect new_sid (Some tok) s
          = (Ok false, {| sk_world := w'; sk_session := sk_session s;
                          sk_sent := sk_sent s ++ [do_disconnect] |})).
Proof.
  intros Hf Hrid Hpid Hnz Hsess session.
  destruct (on_disconnect_effect sid session w (td_room_id tok) pid role)
    as (w' & Hrun & Hf' & _ & _ & _ & _ & _ & _ & Hparts & _); try done.
  exists w'. split; [done|].
  assert (Hgone : Forall (fun p => p_id p <> pid) (t_participants (w_db w'))).
  { rewrite Hparts. apply Forall_forall. intros p [[? _] _]%list_elem_of_filter. done. }
  split; [done|]. intros new_sid s Hs.
  rewrite (on_connect_run new_sid tok s pid); try done; [|by rewrite Hs].
  cbv zeta. rewrite Hs.
  replace (admitted _ _ _ _) with false; [done|].
  symmetry. unfold admitted. apply andb_false_iff. left.
  apply bool_decide_eq_false_2. unfold sql_select_device_access.
  rewrite fmap_is_Some. intros [p Hp].
  destruct (filter (fun p => p_room_id p = td_room_id tok /\ p_id p = pid
                             /\ p_device_id p = td_device_id tok)
                   (t_participants (w_db w'))) as [|p0 ps] eqn:Hfl; [done|].
  injection Hp as ->.
  assert (p ∈ filter (fun p => p_room_id p = td_room_id tok /\ p_id p = pid
                               /\ p_device_id p = td_device_id tok)
                (t_participants (w_db w')))
    as [(_ & Hid & _) Hin]%list_elem_of_filter by (rewrite Hfl; left).
  rewrite Forall_forall in Hgone. by apply (Hgone p).
Qed.

(** The guest has joined (the room is locked) and is about to open the
    socket; only the host is connected. *)
Definition guest_joined_world : World :=
  set_registry (w_connections active_world) (w_sessions active_world) locked_world.

Definition new_socket (w : World) : Sock :=
  {| sk_world := w; sk_session := no_session; sk_sent := [] |}.

Lemma on_connect_admission_witness :
  exists b s',
    on_connect "sid-guest" (Some guest_jwt) (new_socket guest_joined_world) = (Ok b, s')
    /\ b = true.
Proof.
  destruct (on_connect_admission "sid-guest" guest_jwt (new_socket guest_joined_world) 2)
    as (b & s' & Hrun & Hiff & _).
  - reflexivity.
  - discriminate.
  - reflexivity.
  - discriminate.
  - exists b, s'. split; [exact Hrun|]. apply Hiff. split.
    + exists guest_row. split; [|by vm_compute].
      apply list_elem_of_In. right. left. reflexivity.
    + exists (with_status locked accepted_room). split; [reflexivity|]. right. reflexivity.
Defined.

Lemma reconnect_after_disconnect_is_refused_witness :
  exists w',
    on_disconnect "sid-guest" guest_session locked_world = (Ok tt, w')
    /\ on_connect "sid-again" (Some guest_jwt) (new_socket w')
       = (Ok false, {| sk_world := w'; sk_session := no_session;
                       sk_sent := [do_disconnect] |}).
Proof.
  destruct (reconnect_after_disconnect_is_refused "sid-guest" guest_jwt locked_world 2 guest)
    as (w' & Hrun & _ & Hagain).
  - reflexivity.
  - discriminate.
  - reflexivity.
  - discriminate.
  - reflexivity.
  - exists w'. split; [exact Hrun|]. apply (Hagain "sid-again" (new_socket w')). reflexivity.
Defined.

Section MessageFacts.
Variable b64decode : json -> option bytes.

(** The three encrypted fields of a payload, decoded. *)
Definition decoded_fields (data : MessageData) : option (json * bytes * bytes * bytes) :=
  match md_ciphertext data with
  | Some raw =>
      match b64decode raw, md_nonce data ≫= b64decode, md_tag data ≫= b64decode with
      | Some ciphertext, Some nonce, Some tag => Some (raw, ciphertext, nonce, tag)
      | _, _, _ => None
      end
  | None => None
  end.

Definition stored_message (room_id : string) (pid : nat) (ciphertext nonce tag : bytes)
    (data : MessageData) (ip : option string) (w : World) : MessageRow :=
  {| m_id := S (seq_messages (w_db w)); m_room_id := room_id; m_participant_id := pid;
     m_created_at := w_clock w; m_body_ct := ciphertext; m_nonce := nonce; m_tag := tag;
     m_msg_type := default "text" (md_msg_type data); m_ip_address := ip |}.

Definition message_broadcast (room_id : string) (pid : nat) (raw : json)
    (data : MessageData) (participant : option ParticipantRow) (w : World) : Broadcast :=
  {| bc_message_id := S (seq_messages (w_db w)); bc_room_id := room_id;
     bc_participant_id := pid;
     bc_display_name := match participant with
                        | Some p => p_display_name p
                        | None => Some "Anonymous"
                        end;
     bc_role := match participant with
                | Some p => role_str (p_role p)
                | None => "unknown"
                end;
     bc_ciphertext := raw; bc_nonce := md_nonce data; bc_tag := md_tag data;
     bc_msg_type := default "text" (md_msg_type data);
     bc_attachment_id := md_attachment_id data;
     bc_created_at := w_clock w |}.

Lemma select_device_access_participant room_id pid dev d :
  is_Some (sql_select_device_access room_id pid dev d) ->
  is_Some (head (filter (fun p => p_id p = pid) (t_participants d))).
Proof.
  unfold sql_select_device_access. rewrite fmap_is_Some. intros [p Hp].
  destruct (filter (fun p => p_room_id p = room_id /\ _) _) as [|p0 ps] eqn:Hfl; [done|].
  injection Hp as ->.
  assert (p ∈ filter (fun p => p_room_id p = room_id /\ p_id p = pid /\ p_device_id p = dev)
                (t_participants d))
    as [(_ & Hid & _) Hin]%list_elem_of_filter by (rewrite Hfl; left).
  assert (p ∈ filter (fun p => p_id p = pid) (t_participants d)) as Hmem
    by (by apply list_elem_of_filter).
  destruct (filter (fun p => p_id p = pid) _); [by apply elem_of_nil in Hmem|by eexists].
Qed.

Lemma present_str_some (s : string) : s <> "" -> present_str (Some s) = Some s.
Proof. intros Hs. unfold present_str. by rewrite bool_decide_eq_false_2. Qed.

Lemma present_nat_some (n : nat) : n <> 0%nat -> present_nat (Some n) = Some n.
Proof. intros Hn. unfold present_nat. by rewrite bool_decide_eq_false_2. Qed.

Lemma create_message_run room_id pid ciphertext nonce tag msg_type ip w :
  w_faults w = [] ->
  Message_create_message room_id pid ciphertext nonce tag msg_type ip w
  = (Ok (Some {| m_id := S (seq_messages (w_db w)); m_room_id := room_id;
                 m_participant_id := pid; m_created_at := w_clock w;
                 m_body_ct := ciphertext; m_nonce := nonce; m_tag := tag;
                 m_msg_type := msg_type; m_ip_address := ip |}),
     set_db (set_messages
               (t_messages (w_db w)
                ++ [{| m_id := S (seq_messages (w_db w)); m_room_id := room_id;
                       m_participant_id := pid; m_created_at := w_clock w;
                       m_body_ct := ciphertext; m_nonce := nonce; m_tag := tag;
                       m_msg_type := msg_type; m_ip_address := ip |}])
               (S (seq_messages (w_db w))) (w_db w)) w).
Proof.
  intros Hf. unfold Message_create_message, sql_insert_message. munfold. by rewrite Hf.
Qed.

Lemma on_message_send_run data ip s room_id pid dev :
  w_faults (sk_world s) = [] ->
  cs_room_id (sk_session s) = Some room_id -> room_id <> "" ->
  cs_participant_id (sk_session s) = Some pid -> pid <> 0%nat ->
  cs_device_id (sk_session s) = Some dev ->
  let w := sk_world s in
  on_message_send b64decode data ip s
  = if negb (bool_decide (is_Some (sql_select_device_access room_id pid dev (w_db w))))
    then (Ok tt, s)
    else if negb (from_option (status_in [active; locked]) false (t_rooms (w_db w) !! room_id))
    then (Ok tt, {| sk_world := w; sk_session := sk_session s;
                    sk_sent := sk_sent s ++ [send_room_closed None "room_unavailable" None] |})
    else match data ≫= decoded_fields with
         | None => (Ok tt, s)
         | Some (raw, ciphertext, nonce, tag) =>
             let data' := default {| md_ciphertext := None; md_nonce := None; md_tag := None;
                                     md_msg_type := None; md_attachment_id := None |} data in
             let row := stored_message room_id pid ciphertext nonce tag data' ip w in
             (Ok tt,
              {| sk_world := set_db (set_messages (t_messages (w_db w) ++ [row])
                                       (S (seq_messages (w_db w))) (w_db w)) w;
                 sk_session := sk_session s;
                 sk_sent := sk_sent s
                            ++ [send_message room_id
                                  (message_broadcast room_id pid raw data'
                                     (head (filter (fun p => p_id p = pid)
                                              (t_participants (w_db w)))) w)] |})
         end.
Proof.
  intros Hf Hrid Hne Hpid Hnz Hdev w.
  destruct s as [w0 sess sent]. cbn [sk_world sk_session sk_sent] in *. subst w.
  unfold on_message_send.
  unfold stry at 1. unfold sbind at 1. unfold get_session at 1.
  cbn [sk_session]. rewrite Hrid, Hpid, Hdev.
  rewrite (present_str_some _ Hne), (present_nat_some _ Hnz).
  unfold sbind at 1.
  match goal with |- context [call ?m ?S] =>
    rewrite (call_run m S _ _ (validate_device_access_run _ _ _ _ Hf)) end.
  cbn [sk_world sk_session sk_sent].
  destruct (bool_decide (is_Some (sql_select_device_access _ _ _ _))) eqn:Hvalid;
    cbn [negb]; [|done].
  apply bool_decide_eq_true in Hvalid.
  apply select_device_access_participant in Hvalid as [p Hp].
  rewrite Hp.
  unfold sbind at 1.
  match goal with |- context [call ?m ?S] =>
    rewrite (call_run m S _ _ (Room_get_room_run room_id _ Hf)) end.
  cbn [sk_world sk_session sk_sent].
  destruct (from_option _ false _); cbn [negb]; [|done].
  destruct data as [data|]; [|done]. cbn [mbind option_bind default].
  unfold decoded_fields.
  destruct (md_ciphertext data) as [raw|]; [|done].
  destruct (b64decode raw) as [ciphertext|]; [|done].
  destruct (md_nonce data ≫= b64decode) as [nonce|]; [|done].
  destruct (md_tag data ≫= b64decode) as [tag|]; [|done].
  unfold sbind at 1.
  match goal with |- context [call ?m ?S] =>
    rewrite (call_run m S _ _ (create_message_run _ _ _ _ _ _ _ _ Hf)) end.
  cbn [sk_world sk_session sk_sent].
  fold (stored_message room_id pid ciphertext nonce tag data ip w0).
  set (row := stored_message room_id pid ciphertext nonce tag data ip w0).
  set (w1 := set_db _ w0).
  assert (Hf1 : w_faults w1 = []) by done.
  assert (Hlink : forall aid (S : Sock), w_faults (sk_world S) = [] ->
            stry (call (db_execute (sql_link_attachment (m_id row) aid room_id)))
                 (fun _ => sret tt) S
            = (Ok tt, {| sk_world := set_db (w_db (sk_world S)) (sk_world S);
                         sk_session := sk_session S; sk_sent := sk_sent S |})).
  { intros aid S HS. unfold stry, call, db_execute, run_statement, sql_link_attachment.
    by rewrite HS. }
  assert (Htail : forall (S : Sock), sk_world S = w1 ->
    (participant <~ call (Participant_get_participant pid) ;;
     _ <~ send (send_message room_id
            {| bc_message_id := m_id row; bc_room_id := room_id; bc_participant_id := pid;
               bc_display_name := match participant with
                                  | Some p => p_display_name p
                                  | None => Some "Anonymous"
                                  end;
               bc_role := match participant with
                          | Some p => role_str (p_role p)
                          | None => "unknown"
                          end;
               bc_ciphertext := raw; bc_nonce := md_nonce data; bc_tag := md_tag data;
               bc_msg_type := default "text" (md_msg_type data);
               bc_attachment_id := md_attachment_id data;
               bc_created_at := m_created_at row |}) ;;
     match participant with
     | Some _ => sret tt
     | None => sraise NoneSubscript
     end) S
    = (Ok tt, {| sk_world := w1; sk_session := sk_session S;
                 sk_sent := sk_sent S
                            ++ [send_message room_id
                                  (message_broadcast room_id pid raw data (Some p) w0)] |})).
  { intros S HS. unfold sbind at 1.
    assert (HfS : w_faults (sk_world S) = []) by (by rewrite HS).
    rewrite (call_run _ S _ _ (get_participant_run pid _ HfS)).
    rewrite HS. change (t_participants (w_db w1)) with (t_participants (w_db w0)).
    rewrite Hp. sunfold. done. }
  unfold sbind at 1.
  destruct (present_nat (md_attachment_id data)) as [aid|].
  - case_bool_decide as Himg.
    + rewrite Hlink by done. cbn [sk_world sk_session sk_sent].
      rewrite Htail by done. done.
    + unfold sret at 1. rewrite Htail by done. done.
  - unfold sret at 1. rewrite Htail by done. done.
Qed.

(** X19. [on_message_send] from a session whose participant is admitted
    (row with the session's device id, room active or locked), with a
    payload whose three fields decode and no database fault: exactly one
    row is appended to [messages], holding the decoded bytes, the sender,
    the current time and the type (default "text"), so the room's message
    count goes up by one; exactly one [message] event goes to the room,
    carrying the payload's fields as they came together with the new id
    and the sender's name and role; rooms and participants are
    untouched. *)
Theorem on_message_send_stores_and_broadcasts data ip s room_id pid dev
    raw ciphertext nonce tag :
  w_faults (sk_world s) = [] ->
  cs_room_id (sk_session s) = Some room_id -> room_id <> "" ->
  cs_participant_id (sk_session s) = Some pid -> pid <> 0%nat ->
  cs_device_id (sk_session s) = Some dev ->
  admitted room_id pid dev (w_db (sk_world s)) = true ->
  decoded_fields data = Some (raw, ciphertext, nonce, tag) ->
  let w := sk_world s in
  exists s' p,
    on_message_send b64decode (Some data) ip s = (Ok tt, s')
    /\ head (filter (fun p => p_id p = pid) (t_participants (w_db w))) = Some p
    /\ t_messages (w_db (sk_world s'))
       = t_messages (w_db w) ++ [stored_message room_id pid ciphertext nonce tag data ip w]
    /\ (Message_count_room_messages room_id (sk_world s')).1
       = Ok (S (length (room_messages room_id (w_db w))))
    /\ sk_sent s'
       = sk_sent s ++ [send_message room_id
                         (message_broadcast room_id pid raw data (Some p) w)]
    /\ t_rooms (w_db (sk_world s')) = t_rooms (w_db w)
    /\ t_participants (w_db (sk_world s')) = t_participants (w_db w).
Proof.
  intros Hf Hrid Hne Hpid Hnz Hdev Hadm Hdata w. subst w.
  rewrite (on_message_send_run (Some data) ip s room_id pid dev) by done.
  cbv zeta. unfold admitted in Hadm. apply andb_true_iff in Hadm as [Hv Hroom].
  rewrite Hv, Hroom. cbn [negb mbind option_bind default]. rewrite Hdata.
  apply bool_decide_eq_true in Hv.
  apply select_device_access_participant in Hv as [p Hp].
  eexists. exists p. split; [by rewrite Hp|].
  cbn [sk_world sk_sent w_db set_db t_messages set_messages t_rooms t_participants].
  split_and!; try done.
  unfold Message_count_room_messages. munfold. cbn [w_faults set_db]. rewrite Hf.
  cbn [fst]. f_equal. unfold room_messages. cbn [w_db set_db t_messages set_messages].
  rewrite filter_app, length_app. rewrite filter_cons_True by done. cbn. lia.
Qed.

(** X20. [on_message_send] stores and broadcasts nothing when the sender
    is not admitted or the payload is missing or does not decode: the
    world and the session stay as they are, and the only event, sent when
    the device check passed but the room is not active or locked, is
    [room_closed] with reason "room_unavailable" to the caller. *)
Theorem on_message_send_refusals data ip s room_id pid dev :
  w_faults (sk_world s) = [] ->
  cs_room_id (sk_session s) = Some room_id -> room_id <> "" ->
  cs_participant_id (sk_session s) = Some pid -> pid <> 0%nat ->
  cs_device_id (sk_session s) = Some dev ->
  admitted room_id pid dev (w_db (sk_world s)) = false \/ data ≫= decoded_fields = None ->
  let w := sk_world s in
  let device_ok := bool_decide (is_Some (sql_select_device_access room_id pid dev (w_db w))) in
  let room_ok := from_option (status_in [active; locked]) false (t_rooms (w_db w) !! room_id) in
  exists s',
    on_message_send b64decode data ip s = (Ok tt, s')
    /\ sk_world s' = w
    /\ sk_session s' = sk_session s
    /\ sk_sent s' = sk_sent s
                    ++ (if device_ok && negb room_ok
                        then [send_room_closed None "room_unavailable" None] else []).
Proof.
  intros Hf Hrid Hne Hpid Hnz Hdev Hrefused w device_ok room_ok.
  rewrite (on_message_send_run data ip s room_id pid dev) by done.
  cbv zeta. unfold admitted in Hrefused. fold w in Hrefused |- *.
  fold device_ok room_ok in Hrefused |- *.
  destruct device_ok; cbn [negb andb].
  2:{ exists s. by rewrite app_nil_r. }
  destruct room_ok; cbn [negb andb].
  2:{ by eexists. }
  destruct Hrefused as [?|Hdata]; [done|]. rewrite Hdata.
  exists s. by rewrite app_nil_r.
Qed.

Lemma validate_device_access_next room_id pid dev w fs :
  w_faults w = None :: fs ->
  Participant_validate_device_access room_id pid dev w
  = (Ok (bool_decide (is_Some (sql_select_device_access room_id pid dev (w_db w)))),
     set_faults fs w).
Proof. intros Hf. unfold Participant_validate_device_access. munfold. by rewrite Hf. Qed.

Lemma Room_get_room_next room_id w fs :
  w_faults w = None :: fs ->
  Room_get_room room_id w = (Ok (t_rooms (w_db w) !! room_id), set_faults fs w).
Proof. intros Hf. unfold Room_get_room. munfold. by rewrite Hf. Qed.

Lemma create_message_next room_id pid ciphertext nonce tag msg_type ip w fs :
  w_faults w = None :: fs ->
  Message_create_message room_id pid ciphertext nonce tag msg_type ip w
  = (Ok (Some {| m_id := S (seq_messages (w_db w)); m_room_id := room_id;
                 m_participant_id := pid; m_created_at := w_clock w;
                 m_body_ct := ciphertext; m_nonce := nonce; m_tag := tag;
                 m_msg_type := msg_type; m_ip_address := ip |}),
     set_db (set_messages
               (t_messages (w_db w)
                ++ [{| m_id := S (seq_messages (w_db w)); m_room_id := room_id;
                       m_participant_id := pid; m_created_at := w_clock w;
                       m_body_ct := ciphertext; m_nonce := nonce; m_tag := tag;
                       m_msg_type := msg_type; m_ip_address := ip |}])
               (S (seq_messages (w_db w))) (w_db w)) (set_faults fs w)).
Proof.
  intros Hf. unfold Message_create_message, sql_insert_message. munfold. by rewrite Hf.
Qed.

Lemma get_participant_fails pid w e fs :
  w_faults w = Some e :: fs ->
  Participant_get_participant pid w = (Ok None, set_faults fs w).
Proof. intros Hf. unfold Participant_get_participant. munfold. by rewrite Hf. Qed.

(** X21. When the database fails on the sender look-up that follows the
    insert, [on_message_send] has already stored the message; it
    broadcasts it with display name "Anonymous" and role "unknown", then
    fails on the log line, and the sender is told [message_error]
    "Internal server error" although the message went out. *)
Theorem on_message_send_lookup_failure data ip s room_id pid dev
    raw ciphertext nonce tag e fs :
  w_faults (sk_world s) = None :: None :: None :: Some e :: fs ->
  cs_room_id (sk_session s) = Some room_id -> room_id <> "" ->
  cs_participant_id (sk_session s) = Some pid -> pid <> 0%nat ->
  cs_device_id (sk_session s) = Some dev ->
  admitted room_id pid dev (w_db (sk_world s)) = true ->
  decoded_fields data = Some (raw, ciphertext, nonce, tag) ->
  present_nat (md_attachment_id data) = None ->
  let w := sk_world s in
  exists s',
    on_message_send b64decode (Some data) ip s = (Ok tt, s')
    /\ t_messages (w_db (sk_world s'))
       = t_messages (w_db w) ++ [stored_message room_id pid ciphertext nonce tag data ip w]
    /\ sk_sent s'
       = sk_sent s ++ [send_message room_id
                         (message_broadcast room_id pid raw data None w);
                       send_message_error "Internal server error"].
Proof.
  intros Hf Hrid Hne Hpid Hnz Hdev Hadm Hdata Hatt w. subst w.
  unfold admitted in Hadm. apply andb_true_iff in Hadm as [Hv Hroom].
  destruct s as [w0 sess sent]. cbn [sk_world sk_session sk_sent] in *.
  unfold on_message_send.
  unfold stry at 1. unfold sbind at 1. unfold get_session at 1.
  cbn [sk_session]. rewrite Hrid, Hpid, Hdev.
  rewrite (present_str_some _ Hne), (present_nat_some _ Hnz).
  unfold sbind at 1.
  match goal with |- context [call ?m ?S] =>
    rewrite (call_run m S _ _ (validate_device_access_next _ _ _ _ _ Hf)) end.
  cbn [sk_world sk_session sk_sent]. rewrite Hv. cbn [negb].
  unfold sbind at 1.
  match goal with |- context [call ?m ?S] =>
    rewrite (call_run m S _ _ (Room_get_room_next room_id (sk_world S) _ eq_refl)) end.
  cbn [sk_world sk_session sk_sent w_db set_faults]. rewrite Hroom. cbn [negb].
  unfold decoded_fields in Hdata.
  destruct (md_ciphertext data) as [raw0|]; [|done].
  destruct (b64decode raw0) as [ciphertext0|]; [|done].
  destruct (md_nonce data ≫= b64decode) as [nonce0|]; [|done].
  destruct (md_tag data ≫= b64decode) as [tag0|]; [|done].
  injection Hdata as -> -> -> ->.
  unfold sbind at 1.
  match goal with |- context [call ?m ?S] =>
    rewrite (call_run m S _ _ (create_message_next _ _ _ _ _ _ _ (sk_world S) _ eq_refl)) end.
  cbn [sk_world sk_session sk_sent w_db w_clock set_faults].
  fold (stored_message room_id pid ciphertext nonce tag data ip w0).
  unfold sbind at 1. rewrite Hatt. unfold sret at 1.
  unfold sbind at 1.
  match goal with |- context [call ?m ?S] =>
    rewrite (call_run m S _ _ (get_participant_fails pid (sk_world S) _ _ eq_refl)) end.
  sunfold. cbn [sk_world sk_session sk_sent].
  eexists. split; [done|]. cbn [sk_world sk_sent w_db set_db set_faults t_messages set_messages].
  split; [done|]. by rewrite <- app_assoc.
Qed.

End MessageFacts.

(** A stand-in for [base64.b64decode] in the examples: the character
    codes of a string, and a failure for any other value. *)
Definition example_b64decode (v : json) : option bytes :=
  match v with
  | JsStr s => Some ((fun a => Z.of_nat (Ascii.nat_of_ascii a)) <$> String.list_ascii_of_string s)
  | _ => None
  end.

(** The guest's socket, once connected. *)
Definition guest_socket (w : World) : Sock :=
  {| sk_world := w;
     sk_session := {| cs_room_id := Some "Ab12"; cs_participant_id := Some 2%nat;
                      cs_device_id := Some 88%Z; cs_role := Some guest |};
     sk_sent := [] |}.

Definition example_payload : MessageData :=
  {| md_ciphertext := Some (JsStr "Y3Q="); md_nonce := Some (JsStr "bm9uY2U=");
     md_tag := Some (JsStr "dGFn"); md_msg_type := None; md_attachment_id := None |}.

Lemma on_message_send_stores_and_broadcasts_witness :
  exists s',
    on_message_send example_b64decode (Some example_payload) (Some "10.0.0.2")
      (guest_socket locked_world) = (Ok tt, s')
    /\ length (t_messages (w_db (sk_world s'))) = 1%nat
    /\ sk_sent s'
       = [send_message "Ab12"
            (message_broadcast "Ab12" 2 (JsStr "Y3Q=") example_payload (Some guest_row)
               locked_world)].
Proof.
  destruct (on_message_send_stores_and_broadcasts example_b64decode example_payload
              (Some "10.0.0.2") (guest_socket locked_world) "Ab12" 2 88%Z
              (JsStr "Y3Q=")
              (default [] (example_b64decode (JsStr "Y3Q=")))
              (default [] (example_b64decode (JsStr "bm9uY2U=")))
              (default [] (example_b64decode (JsStr "dGFn"))))
    as (s' & p & Hrun & Hp & Hmsgs & _ & Hsent & _).
  - reflexivity.
  - reflexivity.
  - discriminate.
  - reflexivity.
  - discriminate.
  - reflexivity.
  - reflexivity.
  - reflexivity.
  - exists s'. split; [exact Hrun|]. split; [by rewrite Hmsgs|].
    vm_compute in Hp. injection Hp as <-. exact Hsent.
Defined.

Lemma on_message_send_refusals_witness :
  exists s',
    on_message_send example_b64decode (Some example_payload) (Some "10.0.0.2")
      (guest_socket closed_world) = (Ok tt, s')
    /\ sk_world s' = closed_world
    /\ sk_sent s' = [send_room_closed None "room_unavailable" None].
Proof.
  destruct (on_message_send_refusals example_b64decode (Some example_payload)
              (Some "10.0.0.2") (guest_socket closed_world) "Ab12" 2 88%Z)
    as (s' & Hrun & Hworld & _ & Hsent).
  - reflexivity.
  - reflexivity.
  - discriminate.
  - reflexivity.
  - discriminate.
  - reflexivity.
  - left. reflexivity.
  - exists s'. split; [exact Hrun|]. split; [exact Hworld|exact Hsent].
Defined.

(** The database fails on the fourth query of the handler. *)
Definition lookup_failure_world : World :=
  set_faults [None; None; None; Some connection_lost] locked_world.

Lemma on_message_send_lookup_failure_witness :
  exists s',
    on_message_send example_b64decode (Some example_payload) (Some "10.0.0.2")
      (guest_socket lookup_failure_world) = (Ok tt, s')
    /\ length (t_messages (w_db (sk_world s'))) = 1%nat
    /\ sk_sent s'
       = [send_message "Ab12"
            (message_broadcast "Ab12" 2 (JsStr "Y3Q=") example_payload None
               lookup_failure_world);
          send_message_error "Internal server error"].
Proof.
  destruct (on_message_send_lookup_failure example_b64decode example_payload
              (Some "10.0.0.2") (guest_socket lookup_failure_world) "Ab12" 2 88%Z
              (JsStr "Y3Q=")
              (default [] (example_b64decode (JsStr "Y3Q=")))
              (default [] (example_b64decode (JsStr "bm9uY2U=")))
              (default [] (example_b64decode (JsStr "dGFn")))
              connection_lost [])
    as (s' & Hrun & Hmsgs & Hsent).
  - reflexivity.
  - reflexivity.
  - discriminate.
  - reflexivity.
  - discriminate.
  - reflexivity.
  - reflexivity.
  - reflexivity.
  - reflexivity.
  - exists s'. split; [exact Hrun|]. split; [by rewrite Hmsgs|exact Hsent].
Defined.

(** X22. [on_verify_participant] with a payload that has both
    [target_participant_id] and [accepted], no database fault: a truthy
    [accepted] sends [participant_verified] to the room and changes
    nothing; otherwise the room gets [participant_rejected] and then
    [room_closed] with reason "participant_rejected", and the room row is
    closed if it was active or locked. The [room_closed] event goes out
    whether or not a row was closed, and neither the target nor the
    caller's role is checked against the database. *)
Theorem on_verify_participant_outcome data s room_id verifier_id target accepted :
  w_faults (sk_world s) = [] ->
  cs_room_id (sk_session s) = Some room_id -> room_id <> "" ->
  cs_participant_id (sk_session s) = Some verifier_id -> verifier_id <> 0%nat ->
  json_get "target_participant_id" data = Some target -> target <> JsNull ->
  json_get "accepted" data = Some accepted -> accepted <> JsNull ->
  let w := sk_world s in
  let verifier_name := json_get "verifier_name" data in
  exists s',
    on_verify_participant (Some data) s = (Ok tt, s')
    /\ sk_session s' = sk_session s
    /\ if json_truthy accepted
       then sk_world s' = w
            /\ sk_sent s' = sk_sent s
                 ++ [send_participant_verified room_id verifier_name verifier_id target]
       else sk_sent s' = sk_sent s
                 ++ [send_participant_rejected room_id verifier_name verifier_id target;
                     send_room_closed (Some room_id) "participant_rejected"
                       (Some "Room closed due to participant rejection")]
            /\ t_rooms (w_db (sk_world s'))
               = match t_rooms (w_db w) !! room_id with
                 | Some r =>
                     if status_in [active; locked] r
                     then <[room_id := with_closed (w_clock w) r]> (t_rooms (w_db w))
                     else t_rooms (w_db w)
                 | None => t_rooms (w_db w)
                 end
            /\ t_participants (w_db (sk_world s')) = t_participants (w_db w)
            /\ t_messages (w_db (sk_world s')) = t_messages (w_db w).
Proof.
  intros Hf Hrid Hne Hpid Hnz Htarget Htn Hacc Han w verifier_name. subst w.
  destruct s as [w0 sess sent]. cbn [sk_world sk_session sk_sent] in *.
  unfold on_verify_participant.
  unfold stry at 1. unfold sbind at 1. unfold get_session at 1.
  cbn [sk_session]. rewrite Hrid, Hpid.
  rewrite (present_str_some _ Hne), (present_nat_some _ Hnz).
  rewrite Htarget, Hacc. fold verifier_name.
  assert (Hgo :
    match target with
    | JsNull => sret ()
    | _ =>
        match accepted with
        | JsNull => sret ()
        | _ =>
            if json_truthy accepted
            then send (send_participant_verified room_id verifier_name verifier_id target)
            else
              _ <~ send (send_participant_rejected room_id verifier_name verifier_id target) ;;
              _ <~ call (Room_close_room room_id "participant_rejected") ;;
              send (send_room_closed (Some room_id) "participant_rejected"
                      (Some "Room closed due to participant rejection"))
        end
    end
    = if json_truthy accepted
      then send (send_participant_verified room_id verifier_name verifier_id target)
      else
        _ <~ send (send_participant_rejected room_id verifier_name verifier_id target) ;;
        _ <~ call (Room_close_room room_id "participant_rejected") ;;
        send (send_room_closed (Some room_id) "participant_rejected"
                (Some "Room closed due to participant rejection"))).
  { destruct target; try done; destruct accepted; done. }
  rewrite Hgo. clear Hgo.
  destruct (json_truthy accepted).
  - sunfold. cbn [sk_world sk_session sk_sent]. eexists. split; [done|]. done.
  - unfold sbind at 1. unfold send at 1. cbn [sk_world sk_session sk_sent].
    unfold sbind at 1.
    unfold call at 1. cbn [sk_world sk_session sk_sent].
    rewrite Room_close_room_run by done.
    destruct (t_rooms (w_db w0) !! room_id) as [r|].
    + destruct (status_in [active; locked] r); sunfold; cbn [sk_world sk_session sk_sent];
        (eexists; split; [done|]); rewrite <- app_assoc; done.
    + sunfold; cbn [sk_world sk_session sk_sent].
      eexists. split; [done|]. rewrite <- app_assoc. done.
Qed.

Definition rejection_payload : list (string * json) :=
  [("target_participant_id", JsNum 1); ("accepted", JsBool false);
   ("verifier_name", JsStr "Bob")].

Lemma on_verify_participant_outcome_witness :
  exists s',
    on_verify_participant (Some rejection_payload) (guest_socket locked_world) = (Ok tt, s')
    /\ sk_sent s'
       = [send_participant_rejected "Ab12" (Some (JsStr "Bob")) 2 (JsNum 1);
          send_room_closed (Some "Ab12") "participant_rejected"
            (Some "Room closed due to participant rejection")]
    /\ r_status <$> (t_rooms (w_db (sk_world s')) !! "Ab12") = Some closed.
Proof.
  destruct (on_verify_participant_outcome rejection_payload (guest_socket locked_world)
              "Ab12" 2 (JsNum 1) (JsBool false))
    as (s' & Hrun & _ & Hsent & Hrooms & _).
  - reflexivity.
  - reflexivity.
  - discriminate.
  - reflexivity.
  - discriminate.
  - reflexivity.
  - discriminate.
  - reflexivity.
  - discriminate.
  - exists s'. split; [exact Hrun|]. split; [exact Hsent|].
    rewrite Hrooms. reflexivity.
Defined.

(** ** The blob store *)



(** While the client is not initialised, [_get_client] runs into the
    recursion limit and only the storage service's fields change. *)
Lemma get_client_uninit_frame depth w :
  _client_initialized (w_storage w) = false ->
  exists st, _get_client depth w = (Raise RecursionError, set_storage st w)
             /\ _client_initialized st = false.
Proof.
  revert w. induction depth as [|depth IH]; intros w Hinit; cbn [_get_client]; rewrite Hinit.
  - exists (w_storage w). split; [|done]. by destruct w.
  - unfold bind at 1. cbn [fst snd].
    unfold _ensure_buckets. cbn [ensure_buckets_loop]. unfold bind at 1 2.
    match goal with |- context [_get_client depth ?W] =>
      destruct (IH W) as (st & -> & Hst); [done|] end.
    exists st. done.
Qed.

Lemma store_archive_uninit_frame key data w :
  _client_initialized (w_storage w) = false ->
  exists st, store_archive key data w = (Raise RecursionError, set_storage st w)
             /\ _client_initialized st = false.
Proof.
  intros Hinit. unfold store_archive, try_except, bind at 1.
  destruct (get_client_uninit_frame recursion_limit w Hinit) as (st & -> & Hst).
  cbn. by exists st.
Qed.

(** Code that only reads the database changes nothing but the list of
    faults to come. *)
Definition only_faults {A} (m : M A) : Prop :=
  forall w, exists fs, (m w).2 = set_faults fs w
                       /\ (w_faults w = [] -> fs = []).

Lemma set_faults_same w : set_faults (w_faults w) w = w.
Proof. by destruct w. Qed.

Lemma only_faults_ret {A} (a : A) : only_faults (ret a).
Proof. intros w. exists (w_faults w). by rewrite set_faults_same. Qed.

Lemma only_faults_raise {A} e : only_faults (@raise A e).
Proof. intros w. exists (w_faults w). by rewrite set_faults_same. Qed.

Lemma only_faults_bind {A B} (m : M A) (k : A -> M B) :
  only_faults m -> (forall a, only_faults (k a)) -> only_faults (bind m k).
Proof.
  intros Hm Hk w. unfold bind. destruct (Hm w) as (fs & Hfs & Hnil).
  destruct (m w) as [[a|e] w1]; cbn in *; subst w1; [|by exists fs].
  destruct (Hk a (set_faults fs w)) as (fs' & -> & Hnil'). exists fs'. split; [done|].
  intros Hw. apply Hnil'. cbn. by apply Hnil.
Qed.

Lemma only_faults_try {A} (body : M A) handler :
  only_faults body -> (forall e, only_faults (handler e)) ->
  only_faults (try_except body handler).
Proof.
  intros Hm Hk w. unfold try_except. destruct (Hm w) as (fs & Hfs & Hnil).
  destruct (body w) as [[a|e] w1]; cbn in *; subst w1; [by exists fs|].
  destruct (Hk e (set_faults fs w)) as (fs' & -> & Hnil'). exists fs'. split; [done|].
  intros Hw. apply Hnil'. cbn. by apply Hnil.
Qed.

Lemma only_faults_db_select {A} (q : Db -> A) : only_faults (db_select q).
Proof.
  intros w. unfold db_select. destruct (w_faults w) as [|[e|] fs] eqn:Hf; cbn.
  - exists []. split; [|done]. by rewrite <- Hf, set_faults_same.
  - by exists fs.
  - by exists fs.
Qed.

Lemma only_faults_utcnow : only_faults utcnow.
Proof. intros w. exists (w_faults w). by rewrite set_faults_same. Qed.

Lemma only_faults_lift_result {A} (r : result A) : only_faults (lift_result r).
Proof. intros w. exists (w_faults w). by rewrite set_faults_same. Qed.

Section ArchiveMore.
Context {cipher : AesGcm}.
Variable crypto_service : CryptoService.

Lemma only_faults_archive_room_data room_id :
  only_faults (archive_room_data crypto_service room_id).
Proof.
  unfold archive_room_data, Room_get_room, Participant_get_room_participants,
    Message_get_room_messages, ArchiveService_get_room_key.
  apply only_faults_bind;
    [apply only_faults_try; [apply only_faults_db_select|intros ?; apply only_faults_ret]|].
  intros [room|]; [|apply only_faults_ret].
  apply only_faults_bind;
    [apply only_faults_try; [apply only_faults_db_select|intros ?; apply only_faults_ret]|].
  intros participants.
  apply only_faults_bind;
    [apply only_faults_try; [apply only_faults_db_select|intros ?; apply only_faults_ret]|].
  intros encrypted_messages.
  apply only_faults_bind;
    [apply only_faults_try; [apply only_faults_db_select|intros ?; apply only_faults_ret]|].
  intros [[|b enc]|]; [apply only_faults_ret| |apply only_faults_ret].
  apply only_faults_bind; [apply only_faults_lift_result|]. intros room_key.
  apply only_faults_bind; [apply only_faults_utcnow|]. intros archived_at.
  apply only_faults_ret.
Qed.

Lemma archive_room_uninit_run room_id w :
  _client_initialized (w_storage w) = false ->
  exists fs st,
    ArchiveService_archive_room crypto_service room_id w
    = (Ok false, set_storage st (set_faults fs w))
    /\ _client_initialized st = false
    /\ (w_faults w = [] -> fs = []).
Proof.
  intros Hinit. unfold ArchiveService_archive_room, try_except, bind at 1.
  destruct (only_faults_archive_room_data room_id w) as (fs & Hw1 & Hnil).
  destruct (archive_room_data crypto_service room_id w) as [[[data|]|e] w1];
    cbn [snd] in Hw1; subst w1.
  2,3: exists fs, (w_storage w); split_and!; [|done|done]; by destruct w.
  unfold bind at 1, utcnow. unfold bind at 1.
  destruct (store_archive_uninit_frame (room_id, w_clock (set_faults fs w)) data
              (set_faults fs w) Hinit) as (st & -> & Hst).
  exists fs, st. done.
Qed.

(** X24. With the storage service as it is constructed (client not
    initialised), [ArchiveService.archive_room] returns [False] for every
    room, whatever the database does: [_get_client] and [_ensure_buckets]
    call each other until the recursion limit, so nothing is uploaded, no
    row changes, the service stays uninitialised, and
    [get_archived_transcript] has nothing to return. *)
Theorem uninitialised_storage_never_archives room_id w :
  _client_initialized (w_storage w) = false ->
  exists w',
    ArchiveService_archive_room crypto_service room_id w = (Ok false, w')
    /\ w_db w' = w_db w
    /\ w_minio w' = w_minio w
    /\ _client_initialized (w_storage w') = false
    /\ (get_archived_transcript room_id w').1 = Ok None.
Proof.
  intros Hinit.
  destruct (archive_room_uninit_run room_id w Hinit) as (fs & st & -> & Hst & _).
  eexists. split; [done|]. split_and!; try done.
  unfold get_archived_transcript, try_except, bind.
  destruct (Room_get_room room_id _) as [[room|e] w1] eqn:Hroom; [|done].
  assert (Hw1 : _client_initialized (w_storage w1) = false).
  { revert Hroom. unfold Room_get_room, try_except, db_select, ret. cbn.
    destruct fs as [|[e|] fs']; intros [= <- <-]; done. }
  destruct (room ≫= r_archive_key) as [key|]; [|done].
  unfold get_archive, try_except, bind.
  destruct (get_client_uninit_frame recursion_limit w1 Hw1) as (st' & -> & _). done.
Qed.

End ArchiveMore.



Section ArchivePipeline.
Context {cipher : AesGcm}.
Variable crypto_service : CryptoService.


End ArchivePipeline.

Section Sweep.
Context {cipher : AesGcm}.
Variable crypto_service : CryptoService.

(** [Room.close_room] on a row, as the [WHERE] clause has it. *)
Definition close_row (now : Z) (r : RoomRow) : RoomRow :=
  if status_in [active; locked] r then with_closed now r else r.

Lemma close_row_idemp now r : close_row now (close_row now r) = close_row now r.
Proof.
  unfold close_row. destruct (status_in [active; locked] r) eqn:Hst; [|by rewrite Hst].
  done.
Qed.

Lemma process_rooms_fresh ids w res w' :
  w_faults w = [] ->
  _client_initialized (w_storage w) = false ->
  process_rooms crypto_service ids w = (res, w') ->
  w_faults w' = [] /\ _client_initialized (w_storage w') = false
  /\ w_clock w' = w_clock w /\ w_minio w' = w_minio w
  /\ t_participants (w_db w') = t_participants (w_db w)
  /\ t_messages (w_db w') = t_messages (w_db w)
  /\ t_room_keys (w_db w') = t_room_keys (w_db w)
  /\ forall id, t_rooms (w_db w') !! id
                = if bool_decide (id ∈ ids)
                  then close_row (w_clock w) <$> (t_rooms (w_db w) !! id)
                  else t_rooms (w_db w) !! id.
Proof.
  revert w. induction ids as [|id0 ids IH]; intros w Hf Hinit.
  { intros [= <- <-]. split_and!; try done. }
  cbn [process_rooms]. unfold bind at 1.
  rewrite Room_close_room_run by done.
  set (w1 := match t_rooms (w_db w) !! id0 with
             | Some r => if status_in [active; locked] r
                         then set_db (set_rooms (<[id0 := with_closed (w_clock w) r]>
                                                   (t_rooms (w_db w))) (w_db w)) w
                         else w
             | None => w
             end).
  assert (Hw1 : w_faults w1 = [] /\ _client_initialized (w_storage w1) = false
                /\ w_clock w1 = w_clock w /\ w_minio w1 = w_minio w
                /\ t_participants (w_db w1) = t_participants (w_db w)
                /\ t_messages (w_db w1) = t_messages (w_db w)
                /\ t_room_keys (w_db w1) = t_room_keys (w_db w)
                /\ forall id, t_rooms (w_db w1) !! id
                              = if bool_decide (id = id0)
                                then close_row (w_clock w) <$> (t_rooms (w_db w) !! id)
                                else t_rooms (w_db w) !! id).
  { subst w1. unfold close_row.
    destruct (t_rooms (w_db w) !! id0) as [r|] eqn:Hr.
    - destruct (status_in [active; locked] r) eqn:Hst.
      + split_and!; try done. intros id. cbn. case_bool_decide as Hid.
        * subst id. rewrite lookup_insert_eq, Hr. cbn. by rewrite Hst.
        * by rewrite lookup_insert_ne.
      + split_and!; try done. intros id. case_bool_decide as Hid; [|done].
        subst id. rewrite Hr. cbn. by rewrite Hst.
    - split_and!; try done. intros id. case_bool_decide as Hid; [|done].
      subst id. by rewrite Hr. }
  destruct Hw1 as (Hf1 & Hinit1 & Hcl1 & Hmi1 & Hp1 & Hm1 & Hk1 & Hrooms1).
  assert (Hstep : exists w2,
    (let (r, w'0) :=
       match t_rooms (w_db w) !! id0 with
       | Some r =>
           if status_in [active; locked] r
           then (Ok true,
                 set_db (set_rooms (<[id0 := with_closed (w_clock w) r]> (t_rooms (w_db w)))
                           (w_db w)) w)
           else (Ok false, w)
       | None => (Ok false, w)
       end in
     match r with
     | Ok a =>
         (_ <- (if a
                then (_ <- ArchiveService_archive_room crypto_service id0 ;; ret tt)
                else ret tt) ;;
          process_rooms crypto_service ids) w'0
     | Raise e => (Raise e, w'0)
     end) = process_rooms crypto_service ids w2
    /\ w_faults w2 = [] /\ _client_initialized (w_storage w2) = false
    /\ w_clock w2 = w_clock w1 /\ w_minio w2 = w_minio w1 /\ w_db w2 = w_db w1).
  { assert (Harch : forall w0, w_faults w0 = [] -> _client_initialized (w_storage w0) = false ->
              exists w2,
                (_ <- (_ <- ArchiveService_archive_room crypto_service id0 ;; ret tt) ;;
                 process_rooms crypto_service ids) w0 = process_rooms crypto_service ids w2
                /\ w_faults w2 = [] /\ _client_initialized (w_storage w2) = false
                /\ w_clock w2 = w_clock w0 /\ w_minio w2 = w_minio w0 /\ w_db w2 = w_db w0).
    { intros w0 Hf0 Hinit0.
      destruct (archive_room_uninit_run crypto_service id0 w0 Hinit0)
        as (fs & st & Hrun & Hst & Hnil).
      rewrite (Hnil Hf0) in Hrun.
      exists (set_storage st (set_faults [] w0)). unfold bind, ret. rewrite Hrun.
      split_and!; done. }
    subst w1. destruct (t_rooms (w_db w) !! id0) as [r|].
    - destruct (status_in [active; locked] r).
      + apply Harch; done.
      + exists w. unfold bind, ret. split_and!; done.
    - exists w. unfold bind, ret. split_and!; done. }
  destruct Hstep as (w2 & -> & Hf2 & Hinit2 & Hcl2 & Hmi2 & Hdb2).
  intros Hrun.
  destruct (IH w2 Hf2 Hinit2 Hrun)
    as (Hf' & Hinit' & Hcl' & Hmi' & Hp' & Hm' & Hk' & Hrooms').
  rewrite Hdb2 in Hp', Hm', Hk', Hrooms'.
  split_and!; try congruence.
  intros id. rewrite Hrooms', Hrooms1, Hcl2, Hcl1.
  destruct (decide (id = id0)) as [->|Hne].
  - rewrite (bool_decide_eq_true_2 (id0 = id0)) by done.
    rewrite (bool_decide_eq_true_2 (id0 ∈ id0 :: ids)) by left.
    case_bool_decide; [|done].
    destruct (t_rooms (w_db w) !! id0) as [r|]; [|done]. cbn. by rewrite close_row_idemp.
  - rewrite (bool_decide_eq_false_2 (id = id0)) by done.
    case_bool_decide as Hin.
    + rewrite bool_decide_eq_true_2; [done|by right].
    + rewrite bool_decide_eq_false_2; [done|]. intros [?|?]%elem_of_cons; done.
Qed.

(** X26. One run of [process_expired_rooms] with no database fault and
    the storage service as constructed: every active or locked room whose
    [expires_at] has passed is closed at the current time, every other
    row is unchanged, no room is archived, and nothing is written to the
    blob store, the participants, the messages or the room keys. *)
Theorem sweep_closes_expired_rooms w :
  w_faults w = [] ->
  _client_initialized (w_storage w) = false ->
  let w' := (process_expired_rooms crypto_service w).2 in
  (forall id,
     t_rooms (w_db w') !! id
     = (fun r => if status_in [active; locked] r && is_expired (w_clock w) r
                 then with_closed (w_clock w) r else r) <$> (t_rooms (w_db w) !! id))
  /\ w_minio w' = w_minio w
  /\ t_participants (w_db w') = t_participants (w_db w)
  /\ t_messages (w_db w') = t_messages (w_db w)
  /\ t_room_keys (w_db w') = t_room_keys (w_db w).
Proof.
  intros Hf Hinit. unfold process_expired_rooms, try_except. unfold bind at 1.
  unfold Room_get_expired_rooms, try_except, bind, utcnow, db_select. rewrite Hf.
  set (ids := (map_to_list _).*1).
  destruct (process_rooms crypto_service ids w) as [res w'] eqn:Hrun.
  destruct (process_rooms_fresh ids w res w' Hf Hinit Hrun)
    as (_ & _ & _ & Hmi & Hp & Hm & Hk & Hrooms).
  destruct res as [[]|e]; cbn [snd] in *; (split_and!; try done).
  all: intros id; rewrite Hrooms.
  all: assert (Hids : id ∈ ids <->
         exists r, t_rooms (w_db w) !! id = Some r
                   /\ status_in [active; locked] r = true
                   /\ is_expired (w_clock w) r = true).
  1,3: subst ids; rewrite list_elem_of_fmap; split;
       [ intros ([id' r] & -> & Hin);
         apply elem_of_map_to_list, map_lookup_filter_Some in Hin as [Hr [Hst Hexp]];
         by exists r
       | intros (r & Hr & Hst & Hexp); exists (id, r); split; [done|];
         apply elem_of_map_to_list, map_lookup_filter_Some; done ].
  all: unfold close_row; case_bool_decide as Hin.
  all: try (apply Hids in Hin as (r & -> & Hst & Hexp); cbn; by rewrite Hst, Hexp).
  all: destruct (t_rooms (w_db w) !! id) as [r|] eqn:Hr; [|done]; cbn.
  all: destruct (status_in [active; locked] r) eqn:Hst; [|done].
  all: destruct (is_expired (w_clock w) r) eqn:Hexp; [|done].
  all: exfalso; apply Hin, Hids; by exists r.
Qed.

End Sweep.



Lemma uninitialised_storage_never_archives_witness :
  exists w',
    @ArchiveService_archive_room ToyGcm example_crypto "Ab12" closed_world = (Ok false, w')
    /\ w_db w' = w_db closed_world
    /\ w_minio w' = w_minio closed_world
    /\ _client_initialized (w_storage w') = false
    /\ (get_archived_transcript "Ab12" w').1 = Ok None.
Proof.
  apply (@uninitialised_storage_never_archives ToyGcm example_crypto "Ab12" closed_world).
  reflexivity.
Defined.


Lemma sweep_closes_expired_rooms_witness :
  r_status <$> (t_rooms (w_db (@process_expired_rooms ToyGcm example_crypto expired_world).2)
                  !! "Ab12") = Some closed
  /\ w_minio (@process_expired_rooms ToyGcm example_crypto expired_world).2 = ∅.
Proof.
  destruct (@sweep_closes_expired_rooms ToyGcm example_crypto expired_world)
    as (Hrooms & Hminio & _).
  - reflexivity.
  - reflexivity.
  - split; [|exact Hminio]. rewrite Hrooms. reflexivity.
Defined.

Section EndToEnd.
Context {cipher : AesGcm}.
Variable crypto_service : CryptoService.
Variable b64decode : json -> option bytes.

Lemma decrypt_of_encrypt (room_key : bytes) (text : pystr) (r : Rng) ct nonce tag :
  length room_key = 32%nat ->
  Forall (fun c => Utf8.is_scalar c = true) text ->
  (encrypt_message room_key text r).1 = Ok (ct, nonce, tag) ->
  decrypt_message room_key ct nonce tag = Ok text.
Proof.
  intros Hk Hs.
  destruct (Utf8Facts.decode_encode text Hs) as (data & Henc & Hdec).
  unfold encrypt_message. rewrite AESGCM_32 by done.
  pose proof (token_bytes_length 12 r) as Hn.
  destruct (token_bytes 12 r) as [nonce0 r']. cbn [fst] in *.
  rewrite Henc. cbn [result_bind]. unfold AESGCM_encrypt.
  rewrite nonce_ok_12 by done. cbn [result_bind]. intros [= <- <- <-].
  unfold decrypt_message. rewrite AESGCM_32 by done. cbn [result_bind].
  rewrite slice_minus16_app. rewrite AESGCM_decrypt_seal by done. done.
Qed.

Lemma jm_row_left_join d m : jm_row (left_join_participant d m) = m.
Proof. unfold left_join_participant. by destruct (head _). Qed.

Lemma archive_message_row room_key msg :
  am_id (archive_message room_key msg) = m_id (jm_row msg)
  /\ am_participant_id (archive_message room_key msg) = m_participant_id (jm_row msg).
Proof. unfold archive_message. by destruct (decrypt_message _ _ _ _). Qed.

Lemma archive_message_decrypted room_key msg text :
  decrypt_message room_key (m_body_ct (jm_row msg)) (m_nonce (jm_row msg))
    (m_tag (jm_row msg)) = Ok text ->
  am_message (archive_message room_key msg) = text
  /\ am_error (archive_message room_key msg) = None.
Proof. unfold archive_message. by intros ->. Qed.

(** X27. What a participant sends ends up in the archive in clear: when a
    text is encrypted under the room's key as [encrypt_message] does and
    the three parts are sent through [on_message_send] (sender admitted,
    no database fault, fewer than [archive_limit] messages in the room),
    the document that [archive_room] builds afterwards has an entry with
    the new message's id and sender whose text is the original text, with
    no error, and its message count is one more than before. *)
Theorem sent_message_is_archived data ip s room_id pid dev raw ct nonce tag
    room_key text rng enc :
  w_faults (sk_world s) = [] ->
  cs_room_id (sk_session s) = Some room_id -> room_id <> "" ->
  cs_participant_id (sk_session s) = Some pid -> pid <> 0%nat ->
  cs_device_id (sk_session s) = Some dev ->
  admitted room_id pid dev (w_db (sk_world s)) = true ->
  sql_select_room_key room_id (w_db (sk_world s)) = Some enc ->
  decrypt_room_key crypto_service enc = Ok room_key ->
  length room_key = 32%nat ->
  Forall (fun c => Utf8.is_scalar c = true) text ->
  (encrypt_message room_key text rng).1 = Ok (ct, nonce, tag) ->
  decoded_fields b64decode data = Some (raw, ct, nonce, tag) ->
  (length (room_messages room_id (w_db (sk_world s))) < archive_limit)%nat ->
  exists s' archive entry,
    on_message_send b64decode (Some data) ip s = (Ok tt, s')
    /\ archive_room_data crypto_service room_id (sk_world s')
       = (Ok (Some archive), sk_world s')
    /\ entry ∈ ad_messages archive
    /\ am_id entry = S (seq_messages (w_db (sk_world s)))
    /\ am_participant_id entry = pid
    /\ am_message entry = text
    /\ am_error entry = None
    /\ ad_message_count archive = S (length (room_messages room_id (w_db (sk_world s)))).
Proof.
  intros Hf Hrid Hne Hpid Hnz Hdev Hadm Hkey Hdec Hk Hs Hct Hdata Hlim.
  rewrite (on_message_send_run b64decode (Some data) ip s room_id pid dev) by done.
  cbv zeta. pose proof Hadm as Hadm'. unfold admitted in Hadm'.
  apply andb_true_iff in Hadm' as [Hv Hroom].
  rewrite Hv, Hroom. cbn [negb mbind option_bind default]. rewrite Hdata.
  set (w := sk_world s) in *.
  set (row := stored_message room_id pid ct nonce tag data ip w).
  set (w1 := set_db _ w).
  destruct (t_rooms (w_db w) !! room_id) as [r|] eqn:Hr; [|done].
  assert (Hrun := archive_room_data_run crypto_service room_id w1 r enc room_key
                    Hf Hr Hkey Hdec).
  assert (Hmsgs : room_messages room_id (w_db w1) = room_messages room_id (w_db w) ++ [row]).
  { unfold room_messages. cbn. rewrite filter_app. by rewrite filter_cons_True by done. }
  assert (Hall : sql_select_room_messages room_id archive_limit (w_db w1)
                 = left_join_participant (w_db w1)
                     <$> order_by m_created_at (room_messages room_id (w_db w1))).
  { unfold sql_select_room_messages. apply take_ge. rewrite length_fmap.
    rewrite (Permutation_length (order_by_perm _ _)), Hmsgs, length_app.
    cbn [length]. lia. }
  do 3 eexists. split; [done|]. cbn [sk_world]. split; [exact Hrun|].
  cbn [ad_messages ad_message_count]. rewrite Hall.
  split_and!.
  - apply list_elem_of_fmap. exists (left_join_participant (w_db w1) row). split; [done|].
    apply list_elem_of_fmap. exists row. split; [done|].
    rewrite (order_by_perm m_created_at _), Hmsgs. apply elem_of_app. right. left.
  - by rewrite (proj1 (archive_message_row _ _)), jm_row_left_join.
  - by rewrite (proj2 (archive_message_row _ _)), jm_row_left_join.
  - apply archive_message_decrypted. rewrite jm_row_left_join.
    by apply (decrypt_of_encrypt room_key text rng).
  - apply (archive_message_decrypted room_key _ text). rewrite jm_row_left_join.
    by apply (decrypt_of_encrypt room_key text rng).
  - rewrite !length_fmap, (Permutation_length (order_by_perm _ _)), Hmsgs, length_app.
    cbn [length]. lia.
Qed.

End EndToEnd.

(** The text whose character codes are the given bytes: what
    [example_b64decode] decodes to them. *)
Definition encoded (bs : bytes) : json :=
  JsStr (String.string_of_list_ascii
           ((fun b => Ascii.ascii_of_nat (Z.to_nat b)) <$> bs)).

(** "hello" under the room key of [Ab12], as the browser sends it. *)
Definition hello_payload : MessageData :=
  let sealed := example_sealed "hello" example_rng in
  {| md_ciphertext := Some (encoded sealed.1.1); md_nonce := Some (encoded sealed.1.2);
     md_tag := Some (encoded sealed.2); md_msg_type := Some "text";
     md_attachment_id := None |}.

Lemma sent_message_is_archived_witness :
  exists s' archive entry,
    on_message_send example_b64decode (Some hello_payload) (Some "10.0.0.2")
      (guest_socket locked_world) = (Ok tt, s')
    /\ @archive_room_data ToyGcm example_crypto "Ab12" (sk_world s')
       = (Ok (Some archive), sk_world s')
    /\ entry ∈ ad_messages archive
    /\ am_participant_id entry = 2%nat
    /\ am_message entry = pystr_of_string "hello"
    /\ am_error entry = None.
Proof.
  destruct (@sent_message_is_archived ToyGcm example_crypto example_b64decode
              hello_payload (Some "10.0.0.2") (guest_socket locked_world) "Ab12" 2 88%Z
              (encoded (example_sealed "hello" example_rng).1.1)
              (example_sealed "hello" example_rng).1.1
              (example_sealed "hello" example_rng).1.2
              (example_sealed "hello" example_rng).2
              example_room_key (pystr_of_string "hello") example_rng example_wrapped_key)
    as (s' & archive & entry & Hrun & Hdata & Hin & _ & Hpid & Htext & Herr & _).
  - reflexivity.
  - reflexivity.
  - discriminate.
  - reflexivity.
  - discriminate.
  - reflexivity.
  - reflexivity.
  - reflexivity.
  - vm_compute. reflexivity.
  - vm_compute. reflexivity.
  - repeat (constructor; [reflexivity|]). constructor.
  - vm_compute. reflexivity.
  - vm_compute. reflexivity.
  - unfold archive_limit. vm_compute (length _). lia.
  - exists s', archive, entry. split_and!; assumption.
Defined.

Section AdminFacts.
Context {cipher : AesGcm}.

(** X28. The admin transcript never flags a single message: when the
    room key unwraps, [room_transcript] lists every message of the room
    once, in the order of the query, with [decryption_error] false on
    each, because [AdminPanel.decrypt_message] returns the marker
    "[DECRYPTION_FAILED]" instead of raising; a message is shown with its
    clear text when it decrypts and with the marker when it does not. *)
Theorem admin_transcript_never_flags_failures admin room_id d enc room_key :
  sql_select_room_key room_id d = Some enc ->
  decrypt_room_key admin enc = Ok room_key ->
  let shown := room_transcript_messages admin room_id d in
  tm_row <$> shown = admin_select_room_messages room_id d
  /\ length shown = length (room_messages room_id d)
  /\ Forall (fun t =>
       tm_decryption_error t = false
       /\ tm_decrypted_text t = am_message (archive_message room_key (tm_row t))
       /\ match decrypt_message room_key (m_body_ct (jm_row (tm_row t)))
                  (m_nonce (jm_row (tm_row t))) (m_tag (jm_row (tm_row t))) with
          | Ok text => tm_decrypted_text t = text
          | Raise _ => tm_decrypted_text t = DECRYPTION_FAILED
          end) shown.
Proof.
  intros Hkey Hdec shown. subst shown.
  unfold room_transcript_messages, transcript_messages. rewrite Hkey, Hdec.
  split_and!.
  - rewrite <- list_fmap_compose.
    etrans; [apply (list_fmap_ext _ id); by intros|]. apply list_fmap_id.
  - unfold admin_select_room_messages. rewrite !length_fmap.
    apply Permutation_length, order_by_perm.
  - apply Forall_fmap, Forall_forall. intros msg _. cbn.
    unfold transcript_message, Admin_decrypt_message, archive_message. cbn.
    destruct (decrypt_message _ _ _ _); done.
Qed.

End AdminFacts.

Lemma admin_transcript_never_flags_failures_witness :
  Forall (fun t => tm_decryption_error t = false)
         (@room_transcript_messages ToyGcm example_crypto "Ab12" (w_db closed_world))
  /\ tm_decrypted_text
       <$> @room_transcript_messages ToyGcm example_crypto "Ab12" (w_db closed_world)
     = [pystr_of_string "hello"; DECRYPTION_FAILED; pystr_of_string "bye"].
Proof.
  destruct (@admin_transcript_never_flags_failures ToyGcm example_crypto "Ab12"
              (w_db closed_world) example_wrapped_key example_room_key)
    as (_ & _ & Hall).
  - reflexivity.
  - vm_compute. reflexivity.
  - split; [|vm_compute; reflexivity].
    eapply Forall_impl; [exact Hall|]. by intros t (Hflag & _).
Defined.

(** ** No handler takes a room backwards *)

(** How far a room is in its life. *)
Definition status_rank (s : RoomStatus) : nat :=
  match s with
  | pending => 0
  | active | locked => 1
  | closed => 2
  | archived => 3
  end.

(** Every room is still there, created when it was, and no earlier in its
    life than before. *)
Definition rooms_advance : relation (gmap string RoomRow) :=
  fun m m' =>
    forall id r, m !! id = Some r ->
      exists r', m' !! id = Some r'
                 /\ (status_rank (r_status r) <= status_rank (r_status r'))%nat
                 /\ r_created_at r' = r_created_at r.

#[local] Instance rooms_advance_refl : Reflexive rooms_advance.
Proof. intros m id r Hr. by exists r. Qed.

#[local] Instance rooms_advance_trans : Transitive rooms_advance.
Proof.
  intros m1 m2 m3 H12 H23 id r Hr.
  destruct (H12 id r Hr) as (r2 & Hr2 & Hle2 & Hc2).
  destruct (H23 id r2 Hr2) as (r3 & Hr3 & Hle3 & Hc3).
  exists r3. split_and!; [done|lia|congruence].
Qed.

Lemma advances_same {A} (m : M A) :
  (forall w, t_rooms (w_db (m w).2) = t_rooms (w_db w)) -> keeps rooms_advance m.
Proof. intros H. by kapply keeps_same_rooms. Qed.

Lemma advances_statement {A} (stmt : Db -> result (A * Db)) :
  (forall d a d', stmt d = Ok (a, d') -> t_rooms d' = t_rooms d) ->
  keeps rooms_advance (db_execute stmt).
Proof.
  intros Hstmt. kapply keeps_db_execute. intros d a d' Hd.
  rewrite (Hstmt d a d' Hd). reflexivity.
Qed.

Lemma advances_update room_id cond f :
  (forall r, cond r = true ->
     (status_rank (r_status r) <= status_rank (r_status (f r)))%nat
     /\ r_created_at (f r) = r_created_at r) ->
  keeps rooms_advance (db_execute (sql_update_room room_id cond f)).
Proof.
  intros Hf. kapply keeps_db_execute. intros d a d'. unfold sql_update_room.
  destruct (t_rooms d !! room_id) as [r0|] eqn:Hr0; [|intros [= <- <-]; reflexivity].
  destruct (cond r0) eqn:Hc; intros [= <- <-]; [|reflexivity].
  intros id r Hr. cbn. destruct (decide (id = room_id)) as [->|Hne].
  - rewrite lookup_insert_eq. exists (f r0). rewrite Hr0 in Hr. injection Hr as <-.
    destruct (Hf r0 Hc). done.
  - rewrite lookup_insert_ne by done. by exists r.
Qed.

Ltac advances_step :=
  first
    [ kapply keeps_ret
    | kapply keeps_raise
    | kapply keeps_utcnow
    | kapply keeps_lift_result
    | kapply keeps_db_select
    | kapply keeps_bind; [|intros ?]
    | kapply keeps_try; [|intros ?]
    | match goal with
      | |- keeps _ (match ?x with _ => _ end) => destruct x
      end ].

Ltac advances_auto := repeat advances_step.

Lemma advances_Room_get_room room_id : keeps rooms_advance (Room_get_room room_id).
Proof. unfold Room_get_room. advances_auto. Qed.

Lemma advances_Room_accept_room room_id : keeps rooms_advance (Room_accept_room room_id).
Proof.
  unfold Room_accept_room. advances_auto.
  apply advances_update. intros r Hc. apply bool_decide_eq_true in Hc. cbn [with_accepted r_status r_created_at].
  rewrite Hc. cbn. split; [lia|done].
Qed.

Lemma advances_Room_close_room room_id reason : keeps rooms_advance (Room_close_room room_id reason).
Proof.
  unfold Room_close_room. advances_auto.
  apply advances_update. intros r Hc. apply bool_decide_eq_true in Hc. cbn.
  split; [|done].
  apply elem_of_cons in Hc as [-> | Hc]; [cbn; lia|].
  apply list_elem_of_singleton in Hc as ->. cbn; lia.
Qed.

Lemma advances_Room_lock_room room_id : keeps rooms_advance (Room_lock_room room_id).
Proof.
  unfold Room_lock_room. advances_auto.
  apply advances_update. intros r Hc. apply bool_decide_eq_true in Hc. cbn.
  rewrite Hc. cbn. split; [lia|done].
Qed.

Lemma advances_Room_unlock_room room_id : keeps rooms_advance (Room_unlock_room room_id).
Proof.
  unfold Room_unlock_room. advances_auto.
  apply advances_update. intros r Hc. apply bool_decide_eq_true in Hc. cbn.
  rewrite Hc. cbn. split; [lia|done].
Qed.

Lemma advances_Room_archive_room room_id key : keeps rooms_advance (Room_archive_room room_id key).
Proof.
  unfold Room_archive_room. advances_auto.
  apply advances_update. intros r Hc. apply bool_decide_eq_true in Hc. cbn.
  rewrite Hc. cbn. split; [lia|done].
Qed.

Lemma advances_create_room_loop n : keeps rooms_advance (create_room_loop n).
Proof.
  induction n as [|n IH]; cbn [create_room_loop]; [kapply keeps_raise|].
  kapply keeps_bind.
  { apply advances_same. intros w. unfold with_rng. by destruct (generate_room_id _). }
  intros room_id. kapply keeps_try.
  - kapply keeps_bind; [kapply keeps_utcnow|]. intros now.
    kapply keeps_bind.
    + kapply keeps_db_execute. intros d a d'. unfold sql_insert_room.
      destruct (t_rooms d !! room_id) eqn:Hnone; [done|]. intros [= <- <-].
      intros id r Hr. cbn. exists r. rewrite lookup_insert_ne; [done|]. congruence.
    + intros [[rid created_at]|]; [kapply keeps_ret|done].
  - intros e. destruct (is_duplicate_key e); [done|kapply keeps_raise].
Qed.

Lemma advances_Participant_create_participant room_id role dev ip :
  keeps rooms_advance (Participant_create_participant room_id role dev ip).
Proof.
  unfold Participant_create_participant. advances_auto.
  apply advances_statement. intros db0 res0 db1. unfold sql_insert_participant.
  destruct (existsb _ _); [done|]. by intros [= <- <-].
Qed.

Lemma advances_Participant_get_participant pid :
  keeps rooms_advance (Participant_get_participant pid).
Proof. unfold Participant_get_participant. advances_auto. Qed.

Lemma advances_Participant_get_participant_by_device room_id dev :
  keeps rooms_advance (Participant_get_participant_by_device room_id dev).
Proof. unfold Participant_get_participant_by_device. advances_auto. Qed.

Lemma advances_Participant_count_participants room_id :
  keeps rooms_advance (Participant_count_participants room_id).
Proof. unfold Participant_count_participants. advances_auto. Qed.

Lemma advances_Participant_get_room_participants room_id :
  keeps rooms_advance (Participant_get_room_participants room_id).
Proof. unfold Participant_get_room_participants. advances_auto. Qed.

Lemma advances_Participant_remove_participant pid :
  keeps rooms_advance (Participant_remove_participant pid).
Proof.
  unfold Participant_remove_participant. advances_auto.
  apply advances_statement. intros db0 res0 db1. by intros [= <- <-].
Qed.

Lemma advances_Participant_cleanup room_id keep :
  keeps rooms_advance (Participant_cleanup_inactive_participants room_id keep).
Proof.
  unfold Participant_cleanup_inactive_participants. advances_auto.
  all: apply advances_statement; intros db0 res0 db1; by intros [= <- <-].
Qed.

Lemma advances_Participant_set_display_name pid name :
  keeps rooms_advance (Participant_set_display_name pid name).
Proof.
  unfold Participant_set_display_name. advances_auto.
  apply advances_statement. intros db0 res0 db1. unfold sql_update_display_name.
  destruct pid as [pid|]; [|by intros [= <- <-]].
  destruct (existsb _ _); by intros [= <- <-].
Qed.

Lemma advances_Participant_validate room_id pid dev :
  keeps rooms_advance (Participant_validate_device_access room_id pid dev).
Proof. unfold Participant_validate_device_access. advances_auto. Qed.

Lemma advances_Message_create_message room_id pid ct nonce tag msg_type ip :
  keeps rooms_advance (Message_create_message room_id pid ct nonce tag msg_type ip).
Proof.
  unfold Message_create_message. advances_auto.
  apply advances_statement. intros db0 res0 db1. by intros [= <- <-].
Qed.

Lemma advances_registry {A} (m : M A) :
  (forall w, w_db (m w).2 = w_db w) -> keeps rooms_advance m.
Proof. intros H. apply advances_same. intros w. by rewrite H. Qed.

Lemma advances_mark_connected room_id ps : keeps rooms_advance (mark_connected room_id ps).
Proof. apply advances_registry. intros w. by rewrite mark_connected_run. Qed.

Lemma advances_get_or_create_device_id : keeps rooms_advance get_or_create_device_id.
Proof.
  apply advances_registry. intros w. unfold get_or_create_device_id.
  by destruct (w_cookie w).
Qed.

Lemma advances_remove_connection sid : keeps rooms_advance (remove_connection sid).
Proof.
  apply advances_registry. intros w. unfold remove_connection.
  by destruct (w_sessions w !! sid).
Qed.

Section AdvanceHandlers.
Context {cipher : AesGcm}.
Variable crypto_service : CryptoService.

Lemma advances_fetch_room_key room_id : keeps rooms_advance (fetch_room_key crypto_service room_id).
Proof. unfold fetch_room_key. advances_auto. Qed.

Lemma advances_create_room request_json : keeps rooms_advance (create_room request_json).
Proof.
  unfold create_room. advances_auto.
Qed.

Lemma advances_accept_room room_id jwt ip :
  keeps rooms_advance (accept_room crypto_service room_id jwt ip).
Proof.
  unfold accept_room. kapply keeps_try; [|intros ?; kapply keeps_ret].
  destruct (_ || _); [kapply keeps_ret|].
  kapply keeps_bind; [apply advances_Room_get_room|]. intros [room|]; [|kapply keeps_ret].
  destruct (negb _); [kapply keeps_ret|].
  kapply keeps_bind; [apply advances_Room_accept_room|]. intros accepted.
  destruct (negb accepted); [kapply keeps_ret|].
  kapply keeps_bind.
  { apply advances_registry. intros w. unfold with_rng. by destruct (generate_room_key _). }
  intros room_key. kapply keeps_bind.
  { apply advances_registry. intros w. by destruct (encrypt_room_key _ _ _). }
  intros room_key_enc. kapply keeps_bind.
  { apply advances_statement. intros db0 res0 db1. by intros [= <- <-]. }
  intros _. kapply keeps_bind; [apply advances_Participant_create_participant|].
  intros [p|]; kapply keeps_ret.
Qed.

Lemma advances_join_room room_id ip : keeps rooms_advance (join_room crypto_service room_id ip).
Proof.
  unfold join_room. kapply keeps_try; [|intros ?; kapply keeps_ret].
  kapply keeps_bind; [apply advances_Room_get_room|]. intros [room|]; [|kapply keeps_ret].
  destruct (negb _); [kapply keeps_ret|].
  kapply keeps_bind; [kapply keeps_utcnow|]. intros now.
  destruct (is_expired now room); [kapply keeps_ret|].
  kapply keeps_bind; [apply advances_get_or_create_device_id|]. intros device_id.
  kapply keeps_bind; [apply advances_Participant_get_participant_by_device|].
  intros [existing|].
  { kapply keeps_bind; [apply advances_fetch_room_key|]. intros ?. kapply keeps_ret. }
  kapply keeps_bind; [by apply advances_registry|]. intros live.
  kapply keeps_bind; [apply advances_Participant_count_participants|]. intros persisted.
  destruct (bool_decide _); [kapply keeps_ret|].
  kapply keeps_bind; [apply advances_Participant_create_participant|].
  intros [participant|]; [|kapply keeps_ret].
  kapply keeps_bind.
  { destruct (bool_decide _); [|kapply keeps_ret].
    kapply keeps_bind; [apply advances_Room_lock_room|]. intros ?. kapply keeps_ret. }
  intros _. kapply keeps_bind; [apply advances_fetch_room_key|]. intros ?. kapply keeps_ret.
Qed.

Lemma advances_set_display_name room_id jwt request_json :
  keeps rooms_advance (set_display_name room_id jwt request_json).
Proof.
  unfold set_display_name. kapply keeps_try; [|intros ?; kapply keeps_ret].
  destruct (negb _); [kapply keeps_ret|].
  destruct (request_json ≫= _) as [[| | |raw| |]|];
    first [kapply keeps_ret | kapply keeps_raise | idtac].
  destruct (bool_decide _); [kapply keeps_ret|].
  kapply keeps_bind; [apply advances_Participant_set_display_name|].
  intros [|]; kapply keeps_ret.
Qed.

Lemma advances_destroy_room room_id jwt : keeps rooms_advance (destroy_room room_id jwt).
Proof.
  unfold destroy_room. kapply keeps_try; [|intros ?; kapply keeps_ret].
  destruct (negb _); [kapply keeps_ret|].
  kapply keeps_bind; [apply advances_Room_close_room|]. intros [|]; kapply keeps_ret.
Qed.

Lemma advances_on_disconnect sid session : keeps rooms_advance (on_disconnect sid session).
Proof.
  unfold on_disconnect. kapply keeps_try; [|intros ?; kapply keeps_ret].
  destruct (ss_room_id session) as [room_id|]; [|kapply keeps_ret].
  destruct (ss_participant_id session) as [pid|]; [|kapply keeps_ret].
  destruct (_ && _); [|kapply keeps_ret].
  kapply keeps_bind; [apply advances_remove_connection|]. intros session_info.
  kapply keeps_bind; [apply advances_Participant_get_participant|]. intros participant.
  kapply keeps_bind; [by apply advances_registry|]. intros _.
  kapply keeps_bind; [by apply advances_registry|]. intros _.
  kapply keeps_bind; [apply advances_Participant_remove_participant|]. intros _.
  kapply keeps_bind; [by apply advances_registry|]. intros room_connections.
  kapply keeps_bind; [apply advances_Participant_cleanup|]. intros _.
  kapply keeps_bind.
  { destruct (bool_decide _); [|kapply keeps_ret].
    kapply keeps_bind; [apply advances_Room_get_room|].
    intros [current_room|]; [|kapply keeps_ret].
    destruct (bool_decide _); [|kapply keeps_ret].
    kapply keeps_bind; [apply advances_Room_unlock_room|]. intros ?. kapply keeps_ret. }
  intros _.
  kapply keeps_bind; [apply advances_Participant_get_room_participants|]. intros all.
  kapply keeps_bind; [apply advances_mark_connected|]. intros marked.
  by apply advances_registry.
Qed.

Lemma advances_archive_room room_id :
  keeps rooms_advance (ArchiveService_archive_room crypto_service room_id).
Proof.
  unfold ArchiveService_archive_room.
  kapply keeps_try; [|intros ?; kapply keeps_ret].
  kapply keeps_bind; [kapply keeps_archive_room_data|].
  intros [data|]; [|kapply keeps_ret].
  kapply keeps_bind; [kapply keeps_utcnow|]. intros ts.
  kapply keeps_bind; [kapply keeps_store_archive|].
  intros [|]; [|kapply keeps_ret].
  kapply keeps_bind; [apply advances_Room_archive_room|].
  intros [|]; kapply keeps_ret.
Qed.

Lemma advances_process_rooms ids : keeps rooms_advance (process_rooms crypto_service ids).
Proof.
  induction ids as [|id ids IH]; [kapply keeps_ret|].
  cbn [process_rooms].
  kapply keeps_bind; [apply advances_Room_close_room|]. intros was_closed.
  kapply keeps_bind; [|done].
  destruct was_closed; [|kapply keeps_ret].
  kapply keeps_bind; [apply advances_archive_room|]. intros ?. kapply keeps_ret.
Qed.

Lemma advances_process_expired_rooms : keeps rooms_advance (process_expired_rooms crypto_service).
Proof.
  unfold process_expired_rooms. kapply keeps_try; [|intros ?; kapply keeps_ret].
  kapply keeps_bind; [|intros ids; apply advances_process_rooms].
  unfold Room_get_expired_rooms. advances_auto.
Qed.

End AdvanceHandlers.

(** The same for the socket handlers, which also carry the session and
    what they send. *)
Definition skeeps {A} (m : SM A) : Prop :=
  forall S, rooms_advance (t_rooms (w_db (sk_world S)))
                          (t_rooms (w_db (sk_world (m S).2))).

Lemma skeeps_sret {A} (a : A) : skeeps (sret a).
Proof. intros S. reflexivity. Qed.

Lemma skeeps_sraise {A} e : skeeps (@sraise A e).
Proof. intros S. reflexivity. Qed.

Lemma skeeps_send e : skeeps (send e).
Proof. intros S. reflexivity. Qed.

Lemma skeeps_get_session : skeeps get_session.
Proof. intros S. reflexivity. Qed.

Lemma skeeps_set_session c : skeeps (set_session c).
Proof. intros S. reflexivity. Qed.

Lemma skeeps_call {A} (m : M A) : keeps rooms_advance m -> skeeps (call m).
Proof.
  intros Hm S. unfold call. specialize (Hm (sk_world S)).
  by destruct (m (sk_world S)) as [r w].
Qed.

Lemma skeeps_sbind {A B} (m : SM A) (k : A -> SM B) :
  skeeps m -> (forall a, skeeps (k a)) -> skeeps (sbind m k).
Proof.
  intros Hm Hk S. unfold sbind. specialize (Hm S).
  destruct (m S) as [[a|e] S'] eqn:HmS; [|done].
  etrans; [exact Hm|]. apply (Hk a S').
Qed.

Lemma skeeps_stry {A} (body : SM A) (handler : exn -> SM A) :
  skeeps body -> (forall e, skeeps (handler e)) -> skeeps (stry body handler).
Proof.
  intros Hm Hk S. unfold stry. specialize (Hm S).
  destruct (body S) as [[a|e] S'] eqn:HmS; [done|].
  etrans; [exact Hm|]. apply (Hk e S').
Qed.

Ltac skeeps_step :=
  first
    [ apply skeeps_sret
    | apply skeeps_sraise
    | apply skeeps_send
    | apply skeeps_get_session
    | apply skeeps_set_session
    | apply skeeps_sbind; [|intros ?]
    | apply skeeps_stry; [|intros ?]
    | match goal with
      | |- skeeps (match ?x with _ => _ end) => destruct x
      end ].

Ltac skeeps_auto := repeat skeeps_step.

Lemma skeeps_on_connect sid decoded : skeeps (on_connect sid decoded).
Proof.
  unfold on_connect. skeeps_auto; apply skeeps_call.
  all: first [ apply advances_Participant_validate
             | apply advances_Room_get_room
             | apply advances_Participant_get_participant
             | apply advances_Participant_get_room_participants
             | apply advances_mark_connected
             | kapply keeps_utcnow
             | apply advances_registry; intros w; reflexivity ].
Qed.

Lemma skeeps_on_message_send b64decode data client_ip :
  skeeps (on_message_send b64decode data client_ip).
Proof.
  unfold on_message_send. skeeps_auto; apply skeeps_call.
  all: first [ apply advances_Participant_validate
             | apply advances_Room_get_room
             | apply advances_Message_create_message
             | apply advances_Participant_get_participant
             | apply advances_statement; intros db0 res0 db1; by intros [= <- <-] ].
Qed.

Lemma skeeps_on_destroy_room : skeeps on_destroy_room.
Proof.
  unfold on_destroy_room. skeeps_auto; apply skeeps_call, advances_Room_close_room.
Qed.

Lemma skeeps_on_verify_participant data : skeeps (on_verify_participant data).
Proof.
  unfold on_verify_participant. skeeps_auto; apply skeeps_call, advances_Room_close_room.
Qed.

(** X29. No request handler takes a room backwards: across any run of
    [create_room], [accept_room], [join_room], [set_display_name],
    [destroy_room], [on_connect], [on_disconnect], [on_message_send],
    [on_destroy_room], [on_verify_participant] or [process_expired_rooms],
    whatever the database and the blob store do, every room that was
    there is still there, with the same [created_at], and no earlier in
    pending < active/locked < closed < archived than before. *)
Theorem handlers_never_take_a_room_back `{cipher : AesGcm}
    (crypto_service : CryptoService) (b64decode : json -> option bytes) :
  (forall request_json, keeps rooms_advance (create_room request_json))
  /\ (forall room_id jwt ip, keeps rooms_advance (accept_room crypto_service room_id jwt ip))
  /\ (forall room_id ip, keeps rooms_advance (join_room crypto_service room_id ip))
  /\ (forall room_id jwt body, keeps rooms_advance (set_display_name room_id jwt body))
  /\ (forall room_id jwt, keeps rooms_advance (destroy_room room_id jwt))
  /\ (forall sid session, keeps rooms_advance (on_disconnect sid session))
  /\ keeps rooms_advance (process_expired_rooms crypto_service)
  /\ (forall sid decoded, skeeps (on_connect sid decoded))
  /\ (forall data ip, skeeps (on_message_send b64decode data ip))
  /\ skeeps on_destroy_room
  /\ (forall data, skeeps (on_verify_participant data)).
Proof.
  split_and!; intros.
  - apply advances_create_room.
  - apply advances_accept_room.
  - apply advances_join_room.
  - apply advances_set_display_name.
  - apply advances_destroy_room.
  - apply advances_on_disconnect.
  - apply advances_process_expired_rooms.
  - apply skeeps_on_connect.
  - apply skeeps_on_message_send.
  - apply skeeps_on_destroy_room.
  - apply skeeps_on_verify_participant.
Qed.

(** ** Destroying a room over the socket *)

(** X30. [on_destroy_room] from any connection that has a room in its
    session, whatever its role, with no database fault: an active or
    locked room is closed, with participants, messages and the key left
    in place, and [room_closed] with reason "destroyed" goes to the whole
    room; for any other room nothing changes and the caller alone gets
    [error] "Failed to destroy room". *)
Theorem on_destroy_room_outcome s room_id :
  w_faults (sk_world s) = [] ->
  cs_room_id (sk_session s) = Some room_id -> room_id <> "" ->
  (forall r, t_rooms (w_db (sk_world s)) !! room_id = Some r ->
     (r_status r = active \/ r_status r = locked) ->
     exists s',
       on_destroy_room s = (Ok tt, s')
       /\ sk_session s' = sk_session s
       /\ sk_sent s' = sk_sent s ++ [send_room_closed (Some room_id) "destroyed"
                                       (Some "Room has been destroyed")]
       /\ t_rooms (w_db (sk_world s'))
          = <[room_id := with_closed (w_clock (sk_world s)) r]>
              (t_rooms (w_db (sk_world s)))
       /\ t_participants (w_db (sk_world s')) = t_participants (w_db (sk_world s))
       /\ t_messages (w_db (sk_world s')) = t_messages (w_db (sk_world s))
       /\ t_room_keys (w_db (sk_world s')) = t_room_keys (w_db (sk_world s)))
  /\ (match t_rooms (w_db (sk_world s)) !! room_id with
      | Some r => r_status r = pending \/ r_status r = closed \/ r_status r = archived
      | None => True
      end ->
      on_destroy_room s
      = (Ok tt, {| sk_world := sk_world s; sk_session := sk_session s;
                   sk_sent := sk_sent s ++ [send_error "Failed to destroy room"] |})).
Proof.
  intros Hf Hrid Hne.
  destruct s as [w0 sess sent]. cbn [sk_world sk_session sk_sent] in *.
  assert (Hrun : on_destroy_room {| sk_world := w0; sk_session := sess; sk_sent := sent |}
    = match Room_close_room room_id "destroyed" w0 with
      | (Ok true, w1) =>
          (Ok tt, {| sk_world := w1; sk_session := sess;
                     sk_sent := sent ++ [send_room_closed (Some room_id) "destroyed"
                                           (Some "Room has been destroyed")] |})
      | (Ok false, w1) =>
          (Ok tt, {| sk_world := w1; sk_session := sess;
                     sk_sent := sent ++ [send_error "Failed to destroy room"] |})
      | (Raise _, w1) =>
          (Ok tt, {| sk_world := w1; sk_session := sess; sk_sent := sent |})
      end).
  { unfold on_destroy_room.
    unfold stry at 1. unfold sbind at 1. unfold get_session at 1.
    cbn [sk_session]. rewrite Hrid, (present_str_some _ Hne).
    unfold sbind at 1. unfold call at 1. cbn [sk_world sk_session sk_sent].
    by destruct (Room_close_room room_id "destroyed" w0) as [[[|]|e] w1]. }
  rewrite Hrun, Room_close_room_run by done.
  split.
  - intros r Hr Hst. rewrite Hr.
    replace (status_in [active; locked] r) with true.
    2:{ symmetry. apply bool_decide_eq_true. destruct Hst as [-> | ->].
        - apply elem_of_cons. by left.
        - apply elem_of_cons. right. apply elem_of_cons. by left. }
    eexists. split; [done|]. done.
  - intros Hroom.
    destruct (t_rooms (w_db w0) !! room_id) as [r|]; [|done].
    replace (status_in [active; locked] r) with false; [done|].
    unfold status_in. by destruct Hroom as [-> | [-> | ->]].
Qed.

(** The guest destroys the room that the host opened. *)
Lemma on_destroy_room_outcome_witness :
  exists s',
    on_destroy_room (guest_socket locked_world) = (Ok tt, s')
    /\ sk_sent s' = [send_room_closed (Some "Ab12") "destroyed"
                       (Some "Room has been destroyed")]
    /\ r_status <$> (t_rooms (w_db (sk_world s')) !! "Ab12") = Some closed.
Proof.
  destruct (on_destroy_room_outcome (guest_socket locked_world) "Ab12")
    as [Hopen _].
  - reflexivity.
  - reflexivity.
  - discriminate.
  - destruct (Hopen (with_status locked accepted_room))
      as (s' & Hrun & _ & Hsent & Hrooms & _).
    + reflexivity.
    + right. reflexivity.
    + exists s'. split; [exact Hrun|]. split; [exact Hsent|].
      rewrite Hrooms. reflexivity.
Defined.
